(** * Bookstore REST API: a shallow embedding of the controllers

    The development follows the TypeScript sources:
    - [src/utils/file.utils.ts]            (module [Gateway], typed view in [Store])
    - [src/controllers/user.controllers.ts] (module [Users])
    - [src/controllers/book.controllers.ts] (module [Books])
    - [src/utils/verifyuser.ts]            (module [Auth])
    - [src/routes/book.routes.ts], [src/index.ts] (module [App])

    JavaScript values are modelled as follows.
    - A string is a sequence of UTF-16 code units.  The model keeps the code
      units U+0000..U+00FF (the type [ascii]); on these, the built-ins
      [toLowerCase], [trim] and the regular-expression classes [\s], [\d] and
      [.] are the functions below.  Code units above U+00FF are outside the
      model.
    - A number is [NaN], an integer or an infinity.  Integers are exact
      ([Z]); the rounding of doubles beyond 2^53 and fractional values are
      outside the model.
    - A handler is a function from the request and the file store to a
      response and the new file store; [await] is sequencing in the monad
      [M], a rejected promise is [Throw]. *)

From Stdlib Require Import ZArith NArith String Ascii List Bool Lia.
From stdpp Require Import base list gmap strings.
Import ListNotations.

Set Warnings "-register-all".

Local Open Scope string_scope.
Local Open Scope Z_scope.

(* ===================================================================== *)
(** ** Code units and strings *)
(* ===================================================================== *)

Module Js.

Definition code (c : ascii) : N := N_of_ascii c.

Definition between (lo hi : N) (c : ascii) : bool :=
  (lo <=? code c)%N && (code c <=? hi)%N.

(** ASCII letters and digits, as the character classes [A-Z], [a-z],
    [0-9] denote them. *)
Definition isUpperAZ (c : ascii) : bool := between 65 90 c.
Definition isLowerAZ (c : ascii) : bool := between 97 122 c.
Definition isLetter (c : ascii) : bool := isUpperAZ c || isLowerAZ c.
Definition isDigit (c : ascii) : bool := between 48 57 c.

(** Code units with a lowercase mapping below U+0100: A-Z and the Latin-1
    capitals U+00C0..U+00DE without the multiplication sign U+00D7. *)
Definition hasLower (c : ascii) : bool :=
  isUpperAZ c || (between 192 222 c && negb (code c =? 215)%N).

Definition toLowerChar (c : ascii) : ascii :=
  if hasLower c then ascii_of_N (code c + 32) else c.

(** [String.prototype.toLowerCase] *)
Fixpoint toLowerCase (s : string) : string :=
  match s with
  | EmptyString => EmptyString
  | String c s' => String (toLowerChar c) (toLowerCase s')
  end.

(** WhiteSpace and LineTerminator code units below U+0100:
    TAB, LF, VT, FF, CR, SP and NBSP. *)
Definition isSpace (c : ascii) : bool :=
  between 9 13 c || (code c =? 32)%N || (code c =? 160)%N.

(** LineTerminator: LF and CR (the class that [.] excludes). *)
Definition isLineTerminator (c : ascii) : bool :=
  (code c =? 10)%N || (code c =? 13)%N.

Fixpoint trimStart (s : string) : string :=
  match s with
  | String c s' => if isSpace c then trimStart s' else s
  | EmptyString => EmptyString
  end.

(** Trailing white space: a character is dropped when it is white space and
    everything after it has been dropped. *)
Fixpoint trimEnd (s : string) : string :=
  match s with
  | EmptyString => EmptyString
  | String c s' =>
      match trimEnd s' with
      | EmptyString => if isSpace c then EmptyString else String c EmptyString
      | t => String c t
      end
  end.

(** [String.prototype.trim] *)
Definition trim (s : string) : string := trimEnd (trimStart s).

(** [a === b] on strings *)
Definition strictEq (a b : string) : bool := String.eqb a b.

(** [s.includes(p)]: [p] occurs in [s] at some position. *)
Fixpoint includes (s p : string) : bool :=
  String.prefix p s ||
  match s with
  | EmptyString => false
  | String _ s' => includes s' p
  end.

(** Truthiness of a string: every string but the empty one. *)
Definition truthy (s : string) : bool := negb (String.eqb s "").

(** A value that may be missing ([undefined]) is truthy when it is present
    and truthy. *)
Definition truthyOpt (o : option string) : bool :=
  match o with Some s => truthy s | None => false end.

(** [x && f x] as a condition, for a string [x] that may be missing. *)
Definition andAlso (o : option string) (f : string -> bool) : bool :=
  match o with
  | Some s => truthy s && f s
  | None => false
  end.

(** One field of [{ ...record, ...(x && { field: f x }) }]: the field is
    overwritten when [x] is truthy, and kept otherwise. *)
Definition spread (o : option string) (f : string -> string) (old : string) : string :=
  match o with
  | Some s => if truthy s then f s else old
  | None => old
  end.

(* --------------------------------------------------------------------- *)
(** *** Numbers *)

Inductive number : Type :=
  | NaN
  | Num (z : Z)
  | PosInf
  | NegInf.

Definition number_eqb (a b : number) : bool :=
  match a, b with
  | NaN, NaN => true
  | Num x, Num y => x =? y
  | PosInf, PosInf => true
  | NegInf, NegInf => true
  | _, _ => false
  end.

(** [a < b]: false as soon as one side is [NaN]. *)
Definition lt (a b : number) : bool :=
  match a, b with
  | NaN, _ | _, NaN => false
  | Num x, Num y => x <? y
  | NegInf, NegInf => false
  | NegInf, _ => true
  | _, PosInf => match a with PosInf => false | _ => true end
  | _, _ => false
  end.

(** [a > b] is [b < a]. *)
Definition gt (a b : number) : bool := lt b a.

Definition add (a b : number) : number :=
  match a, b with
  | NaN, _ | _, NaN => NaN
  | Num x, Num y => Num (x + y)
  | PosInf, NegInf | NegInf, PosInf => NaN
  | PosInf, _ | _, PosInf => PosInf
  | NegInf, _ | _, NegInf => NegInf
  end.

Definition neg (a : number) : number :=
  match a with
  | NaN => NaN
  | Num x => Num (- x)
  | PosInf => NegInf
  | NegInf => PosInf
  end.

Definition sub (a b : number) : number := add a (neg b).

Definition sgn (a : number) : Z :=
  match a with
  | NaN => 0
  | Num x => Z.sgn x
  | PosInf => 1
  | NegInf => -1
  end.

Definition mul (a b : number) : number :=
  match a, b with
  | NaN, _ | _, NaN => NaN
  | Num x, Num y => Num (x * y)
  | _, _ =>
      match sgn a * sgn b with
      | 0 => NaN
      | Zpos _ => PosInf
      | Zneg _ => NegInf
      end
  end.

(** [Math.ceil(a / b)] for an integer [a]: the quotient is exact in the
    rationals, and its ceiling is [- floor (- a / b)]; a zero divisor gives
    an infinity, or [NaN] for [0 / 0]; an infinite divisor gives zero. *)
Definition ceilDiv (a : Z) (b : number) : number :=
  match b with
  | NaN => NaN
  | Num 0 =>
      match a with
      | 0 => NaN
      | Zpos _ => PosInf
      | Zneg _ => NegInf
      end
  | Num y => Num (- ((- a) / y))
  | PosInf | NegInf => Num 0
  end.

(* --------------------------------------------------------------------- *)
(** *** parseInt *)

Definition digitValue (c : ascii) : Z := Z.of_N (code c) - 48.

(** The value of the longest prefix of decimal digits, [None] when the
    prefix is empty. *)
Fixpoint digitsPrefix (acc : option Z) (s : string) : option Z :=
  match s with
  | String c s' =>
      if isDigit c
      then digitsPrefix (Some (10 * default 0 acc + digitValue c)) s'
      else acc
  | EmptyString => acc
  end.

(** [parseInt(s, 10)]: leading white space is skipped, one sign is read,
    then the longest prefix of digits; no digit gives [NaN].  The result is
    the integer that the digits denote: it is the result of the built-in
    as long as this integer is at most 2^53 in absolute value (beyond, the
    built-in rounds to a double, and to [Infinity] in the end); the
    properties of a parsed request text state this bound. *)
Definition parseInt (s : string) : number :=
  match trimStart s with
  | String "-" r =>
      match digitsPrefix None r with Some v => Num (- v) | None => NaN end
  | String "+" r =>
      match digitsPrefix None r with Some v => Num v | None => NaN end
  | r =>
      match digitsPrefix None r with Some v => Num v | None => NaN end
  end.

(** The value of a hexadecimal digit. *)
Definition hexValue (c : ascii) : option Z :=
  if isDigit c then Some (digitValue c)
  else if between 97 102 c then Some (Z.of_N (code c) - 87)
  else if between 65 70 c then Some (Z.of_N (code c) - 55)
  else None.

(** The value of the longest prefix of hexadecimal digits, [None] when the
    prefix is empty. *)
Fixpoint hexPrefix (acc : option Z) (s : string) : option Z :=
  match s with
  | String c s' =>
      match hexValue c with
      | Some d => hexPrefix (Some (16 * default 0 acc + d)) s'
      | None => acc
      end
  | EmptyString => acc
  end.

(** The integer at the beginning of a text without sign, for a radix that
    is not given: [0x] or [0X] announces hexadecimal digits, and the
    digits are decimal otherwise. *)
Definition unsignedInt (r : string) : option Z :=
  match r with
  | String zero (String x r') =>
      if Ascii.eqb zero "0" && (Ascii.eqb x "x" || Ascii.eqb x "X")
      then hexPrefix None r'
      else digitsPrefix None r
  | _ => digitsPrefix None r
  end.

(** [parseInt(s)], without a radix: leading white space is skipped, one
    sign is read, then the integer; no digit gives [NaN].  As for
    [parseInt(s, 10)], the result is exact up to 2^53. *)
Definition parseIntAuto (s : string) : number :=
  match trimStart s with
  | EmptyString => NaN
  | String c r =>
      if Ascii.eqb c "-"
      then match unsignedInt r with Some v => Num (- v) | None => NaN end
      else if Ascii.eqb c "+"
      then match unsignedInt r with Some v => Num v | None => NaN end
      else match unsignedInt (String c r) with Some v => Num v | None => NaN end
  end.

(* --------------------------------------------------------------------- *)
(** *** Number to string *)

Definition digitChar (d : Z) : ascii := ascii_of_N (Z.to_N (48 + d)).

(** The decimal digits of [n], most significant first, before [tail]. *)
Fixpoint digits (fuel : nat) (n : Z) (tail : string) : string :=
  match fuel with
  | O => tail
  | S fuel' =>
      let tail' := String (digitChar (n mod 10)) tail in
      if n / 10 =? 0 then tail' else digits fuel' (n / 10) tail'
  end.

(** A number of binary digits bounds the number of decimal digits. *)
Definition digitCount (n : Z) : nat := S (Z.to_nat (Z.log2 n)).

(** [String(z)] for an integer (below 10^21 in absolute value, where the
    decimal expansion is printed in full). *)
Definition numberToString (z : Z) : string :=
  if z <? 0
  then String "-" (digits (digitCount (- z)) (- z) "")
  else digits (digitCount z) z "".

(** Truthiness of an integer: every integer but zero. *)
Definition truthyNum (z : Z) : bool := negb (z =? 0).

(* --------------------------------------------------------------------- *)
(** *** String to number *)

(** The value of a text that is made of decimal digits only; [None] for
    the empty text and for a text with another code unit. *)
Fixpoint wholeDigits (acc : option Z) (s : string) : option Z :=
  match s with
  | String c s' =>
      if isDigit c
      then wholeDigits (Some (10 * default 0 acc + digitValue c)) s'
      else None
  | EmptyString => acc
  end.

Definition unsignedNumber (r : string) : number :=
  if String.eqb r "Infinity" then PosInf
  else match wholeDigits None r with Some v => Num v | None => NaN end.

(** [Number(s)], the conversion that [<] and [>] apply to a string beside
    a number.  White space around the text is dropped; the empty text is
    0, a decimal integer with or without sign is its value, [Infinity]
    with or without sign is infinite, and a text that is no numeric literal
    is [NaN].  The literals with a fraction, an exponent or a radix prefix
    are outside the model: they denote numbers that the type [number] does
    not have, or integers that this function does not compute, and they
    are read as [NaN] here, of which no comparison holds. *)
Definition toNumber (s : string) : number :=
  match trim s with
  | EmptyString => Num 0
  | String c r =>
      if Ascii.eqb c "-" then neg (unsignedNumber r)
      else if Ascii.eqb c "+" then unsignedNumber r
      else unsignedNumber (String c r)
  end.

(* --------------------------------------------------------------------- *)
(** *** Arrays *)

(** The clamping of a relative index that [slice] applies to each bound
    ([ToIntegerOrInfinity], then counting from the end when negative). *)
Definition clampIndex (len : Z) (n : number) : Z :=
  match n with
  | NaN => 0
  | Num z => if z <? 0 then Z.max (len + z) 0 else Z.min z len
  | PosInf => len
  | NegInf => 0
  end.

(** [arr.slice(start, end)] *)
Definition slice {A} (arr : list A) (start end_ : number) : list A :=
  let len := Z.of_nat (length arr) in
  let k := clampIndex len start in
  let final := clampIndex len end_ in
  take (Z.to_nat (final - k)) (drop (Z.to_nat k) arr).

(** [arr.findIndex(p)], with [None] for -1. *)
Fixpoint findIndex {A} (p : A -> bool) (arr : list A) : option nat :=
  match arr with
  | [] => None
  | x :: rest => if p x then Some 0%nat else S <$> findIndex p rest
  end.

(** [arr.find(p)] *)
Definition find {A} (p : A -> bool) (arr : list A) : option A :=
  List.find p arr.

(** [arr.find((x, index) => p x index)] *)
Fixpoint findFrom {A} (i : nat) (p : A -> nat -> bool) (arr : list A) : option A :=
  match arr with
  | [] => None
  | x :: rest => if p x i then Some x else findFrom (S i) p rest
  end.

(** [arr.splice(i, 1)]: the array without the element at [i]. *)
Definition splice1 {A} (i : nat) (arr : list A) : list A := delete i arr.

End Js.

(* ===================================================================== *)
(** ** Regular expressions *)
(* ===================================================================== *)

(** The two patterns of the validation layer are anchored sequences of
    character classes, bounded-below repetitions of a class, and
    lookaheads.  A pattern is written with its continuation, so that
    [RegExp.prototype.test] is a structural recursion: a repetition tries
    every admissible number of characters (backtracking), which decides the
    same language as the greedy search. *)
Module Regex.

Inductive pattern : Type :=
  | Accept
  | Class (p : ascii -> bool) (k : pattern)
  | AtLeast (n : nat) (p : ascii -> bool) (k : pattern)
  | Lookahead (a : pattern) (k : pattern)
  | EndOfInput (k : pattern).

(** [p*] followed by the continuation [k]. *)
Fixpoint star (p : ascii -> bool) (k : string -> bool) (s : string) : bool :=
  k s ||
  match s with
  | String c s' => p c && star p k s'
  | EmptyString => false
  end.

(** [p{n}] followed by the continuation [k]. *)
Fixpoint exactly (n : nat) (p : ascii -> bool) (k : string -> bool) (s : string) : bool :=
  match n with
  | O => k s
  | S n' =>
      match s with
      | String c s' => p c && exactly n' p k s'
      | EmptyString => false
      end
  end.

Fixpoint matchHere (r : pattern) (s : string) : bool :=
  match r with
  | Accept => true
  | Class p k =>
      match s with
      | String c s' => p c && matchHere k s'
      | EmptyString => false
      end
  | AtLeast n p k => exactly n p (star p (matchHere k)) s
  | Lookahead a k => matchHere a s && matchHere k s
  | EndOfInput k =>
      match s with
      | EmptyString => matchHere k s
      | String _ _ => false
      end
  end.

(** [regex.test(s)] for a pattern that begins with [^]. *)
Definition test (r : pattern) (s : string) : bool := matchHere r s.

(** [.] *)
Definition dot (c : ascii) : bool := negb (Js.isLineTerminator c).

(** [\d] *)
Definition digit (c : ascii) : bool := Js.isDigit c.

(** [[A-Za-z]] *)
Definition letter (c : ascii) : bool := Js.isLetter c.

(** [[^\s@]] *)
Definition notSpaceNorAt (c : ascii) : bool :=
  negb (Js.isSpace c || Ascii.eqb c "@").

(** [[A-Za-z\d@$!%*#?&]] *)
Definition passwordChar (c : ascii) : bool :=
  letter c || digit c ||
  existsb (Ascii.eqb c) ["@"; "$"; "!"; "%"; "*"; "#"; "?"; "&"]%char.

(** A literal character. *)
Definition literal (x c : ascii) : bool := Ascii.eqb c x.

End Regex.

(* ===================================================================== *)
(** ** JavaScript values and JSON documents *)
(* ===================================================================== *)

Module Json.

(** In-memory values.  An object is the list of its own properties in
    enumeration order; a well-formed object has no repeated key.  (The
    place of integer-like keys in that order, and the sign of zero, are
    outside the model.) *)
Inductive value : Type :=
  | VUndefined
  | VNull
  | VBool (b : bool)
  | VNum (n : Js.number)
  | VStr (s : string)
  | VArr (items : list value)
  | VObj (props : list (string * value)).

(** The text of a JSON document, up to white space: JSON has no
    [undefined], and its numbers are finite. *)
Inductive json : Type :=
  | JNull
  | JBool (b : bool)
  | JNum (z : Z)
  | JStr (s : string)
  | JArr (items : list json)
  | JObj (members : list (string * json)).

Definition object : Type := list (string * value).

(** [o[key]] for an own property. *)
Fixpoint get (key : string) (o : object) : option value :=
  match o with
  | [] => None
  | (k, v) :: rest => if String.eqb k key then Some v else get key rest
  end.

(** [key in o] for own properties. *)
Definition hasOwn (key : string) (o : object) : bool :=
  match get key o with Some _ => true | None => false end.

(** [const { key: _, ...rest } = o]: the own properties of [o] but [key]. *)
Definition omit (key : string) (o : object) : object :=
  List.filter (fun kv => negb (String.eqb (fst kv) key)) o.

(** [o[key] = v]: an existing property keeps its place, a new one is
    appended. *)
Fixpoint set (key : string) (v : value) (o : object) : object :=
  match o with
  | [] => [(key, v)]
  | (k, w) :: rest =>
      if String.eqb k key then (k, v) :: rest else (k, w) :: set key v rest
  end.

End Json.

(* ===================================================================== *)
(** ** Storage gateway ([src/utils/file.utils.ts]) *)
(* ===================================================================== *)

Inductive error : Type :=
  | SyntaxError   (* JSON.parse on text that is not JSON *)
  | ENOENT        (* readFile on a missing file, writeFile into a missing directory *)
  | EACCES        (* readFile or writeFile without permission *)
  | TypeError.    (* writeFile with data that is not a string *)

Inductive outcome (A : Type) : Type :=
  | Return (a : A)
  | Throw (e : error).
Arguments Return {A} a.
Arguments Throw {A} e.

Module Gateway.
Import Json.

(** [JSON.stringify(v, null, 2)]: [None] is the result [undefined].  In an
    array a value without JSON text becomes [null], in an object its
    property is left out; a number that is not finite becomes [null]. *)
Fixpoint stringify (v : value) : option json :=
  match v with
  | VUndefined => None
  | VNull => Some JNull
  | VBool b => Some (JBool b)
  | VNum (Js.Num z) => Some (JNum z)
  | VNum _ => Some JNull
  | VStr s => Some (JStr s)
  | VArr items =>
      Some (JArr ((fix elements (l : list value) : list json :=
                     match l with
                     | [] => []
                     | x :: rest => default JNull (stringify x) :: elements rest
                     end) items))
  | VObj props =>
      Some (JObj ((fix members (l : list (string * value)) : list (string * json) :=
                     match l with
                     | [] => []
                     | (k, x) :: rest =>
                         match stringify x with
                         | Some j => (k, j) :: members rest
                         | None => members rest
                         end
                     end) props))
  end.

(** [JSON.parse(text)] on JSON text: the members of an object are defined
    one after the other, a repeated key overwriting the earlier value.  A
    number is read exactly; the built-in reads it into a double, which is
    the same for an integer of at most 2^53 in absolute value. *)
Fixpoint parse (j : json) : value :=
  match j with
  | JNull => VNull
  | JBool b => VBool b
  | JNum z => VNum (Js.Num z)
  | JStr s => VStr s
  | JArr items =>
      VArr ((fix elements (l : list json) : list value :=
               match l with
               | [] => []
               | x :: rest => parse x :: elements rest
               end) items)
  | JObj members =>
      VObj ((fix define (l : list (string * json)) (acc : object) : object :=
               match l with
               | [] => acc
               | (k, x) :: rest => define rest (set k (parse x) acc)
               end) members [])
  end.

(** The text of a file: JSON text, identified with the document it
    denotes (printing a document with indentation 2 and parsing the text
    again is exact), or text that is not JSON. *)
Inductive text : Type :=
  | Document (j : json)
  | NotJson.

(** The files, by path; a path without a file is unmapped.  This disk has
    neither directories nor permissions: every path can be written.  The
    failures of the file system are the subject of [Store]. *)
Definition disk : Type := gmap string text.

(** [readJSONFile<T>(filePath)] *)
Definition readJSONFile (filePath : string) (d : disk) : outcome value :=
  match d !! filePath with
  | None => Throw ENOENT
  | Some NotJson => Throw SyntaxError
  | Some (Document j) => Return (parse j)
  end.

(** [writeJSONFile<T>(filePath, content)] *)
Definition writeJSONFile (filePath : string) (content : value) (d : disk)
  : outcome unit * disk :=
  match stringify content with
  | None => (Throw TypeError, d)
  | Some j => (Return tt, <[filePath := Document j]> d)
  end.

End Gateway.

(* ===================================================================== *)
(** ** Records ([src/types/user.types.ts], [src/types/book.types.ts]) *)
(* ===================================================================== *)

Module User.
(** Modelled from the spec: the declaration of [User] in
    [src/types/user.types.ts] is not among the sources.  The fields are
    those of the spec's data model, under the names the controllers use:
    identifier, username, email, password hash, created and updated
    timestamps. *)
Record t : Type := Build {
  id : string;
  username : string;
  email : string;
  password : string;
  createdAt : string;
  updatedAt : string
}.
End User.

Module Book.
(** Modelled from the spec: the declaration of [Book] in
    [src/types/book.types.ts] is not among the sources.  The fields are
    those of the spec's data model, under the names the controllers use:
    identifier, title, author, genre, published year and the owning user's
    identifier. *)
Record t : Type := Build {
  id : string;
  title : string;
  author : string;
  genre : string;
  publishedYear : Js.number;
  userId : string
}.
End Book.

(** Modelled from the spec: [UserData] ([src/types/user.types.ts]) is the
    collection document [{ users: [...] }]. *)
Record UserData : Type := { users : list User.t }.

(** [interface BookData { books: Book[] }] *)
Record BookData : Type := { books : list Book.t }.

(* ===================================================================== *)
(** ** The two documents, read and written at their types *)
(* ===================================================================== *)

(** The handlers use the gateway at two paths and two types,
    [readJSONFile<UserData>(USERS_FILE_PATH)] and
    [readJSONFile<BookData>(BOOKS_FILE_PATH)].  The store keeps, for each
    path, the state of the file: missing, not accessible, text that is not
    JSON, or the document that its text denotes.  A missing file is
    [Missing] when its directory [database] is there, so that the file can
    be created, and [NoDirectory] when the directory is missing too.  The
    serialisation itself is the subject of [Gateway]. *)
Module Store.

Inductive file (T : Type) : Type :=
  | Missing
  | NoDirectory
  | Denied
  | Malformed
  | Holds (doc : T).
Arguments Missing {T}.
Arguments NoDirectory {T}.
Arguments Denied {T}.
Arguments Malformed {T}.
Arguments Holds {T} doc.

Record FS : Type := {
  usersFile : file UserData;
  booksFile : file BookData
}.

Inductive Path : Type -> Type :=
  | USERS_FILE_PATH : Path UserData
  | BOOKS_FILE_PATH : Path BookData.

Definition fileAt {T} (p : Path T) (fs : FS) : file T :=
  match p in Path T return file T with
  | USERS_FILE_PATH => usersFile fs
  | BOOKS_FILE_PATH => booksFile fs
  end.

Definition putFile {T} (p : Path T) (f : file T) (fs : FS) : FS :=
  match p in Path T return file T -> FS with
  | USERS_FILE_PATH => fun f => {| usersFile := f; booksFile := booksFile fs |}
  | BOOKS_FILE_PATH => fun f => {| usersFile := usersFile fs; booksFile := f |}
  end f.

(** An asynchronous computation over the files: it returns or throws, and
    leaves the files in a new state. *)
Definition M (A : Type) : Type := FS -> outcome A * FS.

Definition ret {A} (a : A) : M A := fun fs => (Return a, fs).

Definition throw {A} (e : error) : M A := fun fs => (Throw e, fs).

Definition bind {A B} (m : M A) (k : A -> M B) : M B :=
  fun fs =>
    match m fs with
    | (Return a, fs') => k a fs'
    | (Throw e, fs') => (Throw e, fs')
    end.

(** [try { body } catch (error) { handler }] *)
Definition tryCatch {A} (body : M A) (handler : error -> M A) : M A :=
  fun fs =>
    match body fs with
    | (Return a, fs') => (Return a, fs')
    | (Throw e, fs') => handler e fs'
    end.

Declare Scope store_scope.
Delimit Scope store_scope with store.
Notation "x <- m ;; k" := (bind m (fun x => k))
  (at level 100, m at next level, right associativity) : store_scope.
Notation "m ;; k" := (bind m (fun _ => k))
  (at level 100, right associativity) : store_scope.

(** [readJSONFile<T>(filePath)] *)
Definition readJSONFile {T} (filePath : Path T) : M T :=
  fun fs =>
    match fileAt filePath fs with
    | Missing => (Throw ENOENT, fs)
    | NoDirectory => (Throw ENOENT, fs)
    | Denied => (Throw EACCES, fs)
    | Malformed => (Throw SyntaxError, fs)
    | Holds doc => (Return doc, fs)
    end.

(** [writeJSONFile<T>(filePath, content)]: the whole text is replaced;
    [writeFile] creates a missing file, not a missing directory. *)
Definition writeJSONFile {T} (filePath : Path T) (content : T) : M unit :=
  fun fs =>
    match fileAt filePath fs with
    | Denied => (Throw EACCES, fs)
    | NoDirectory => (Throw ENOENT, fs)
    | _ => (Return tt, putFile filePath (Holds content) fs)
    end.

End Store.

(* ===================================================================== *)
(** ** Requests and responses *)
(* ===================================================================== *)

Module Http.

Record Pagination : Type := {
  currentPage : Js.number;
  totalPages : Js.number;
  totalBooks : Z;
  hasNextPage : bool;
  hasPreviousPage : bool
}.

(** The [data] member of a response body.  User objects are sent as the
    objects that the rest pattern [{ password, ...userWithoutPassword }]
    leaves. *)
Inductive data : Type :=
  | NoData
  | DataUser (user : Json.object)
  | DataLogin (user : Json.object) (token : string)
  | DataUsers (users : list Json.object) (count : Z)
  | DataBook (book : Book.t)
  | DataBooks (books : list Book.t) (pagination : Pagination).

(** [res.status(status).cookie(...).json({ success, message, data })] *)
Record Response : Type := {
  status : Z;
  cookie : option (string * string);
  success : bool;
  message : string;
  payload : data
}.

Definition json (status : Z) (success : bool) (message : string) (d : data) : Response :=
  {| status := status; cookie := None; success := success;
     message := message; payload := d |}.

(** A reply without [data]. *)
Definition reply (status : Z) (success : bool) (message : string) : Response :=
  json status success message NoData.

(** The user objects that a response carries. *)
Definition userObjects (r : Response) : list Json.object :=
  match payload r with
  | DataUser u => [u]
  | DataLogin u _ => [u]
  | DataUsers us _ => us
  | _ => []
  end.

End Http.

(* ===================================================================== *)
(** ** User controllers ([src/controllers/user.controllers.ts]) *)
(* ===================================================================== *)

Module Users.
Import Js Store Http.
Local Open Scope store_scope.

(** What a handler takes from its surroundings: the libraries [uuid],
    [bcryptjs] and [jsonwebtoken], the clock and the process environment.
    [now k] is the result of the [k]-th [new Date().toISOString()] of the
    request. *)
Record Env : Type := {
  uuidv4 : string;
  now : nat -> string;
  bcrypt_hash : string -> Z -> string;
  bcrypt_compare : string -> string -> bool;
  jwt_sign : string -> string -> string -> string;
  env_JWT_SECRET : option string
}.

(** [process.env.JWT_SECRET || "your-secret-key"] *)
Definition JWT_SECRET (env : Env) : string :=
  match env_JWT_SECRET env with
  | Some s => if truthy s then s else "your-secret-key"
  | None => "your-secret-key"
  end.

(** [/^[^\s@]+@[^\s@]+\.[^\s@]+$/] *)
Definition emailRegex : Regex.pattern :=
  Regex.AtLeast 1 Regex.notSpaceNorAt
    (Regex.Class (Regex.literal "@")
      (Regex.AtLeast 1 Regex.notSpaceNorAt
        (Regex.Class (Regex.literal ".")
          (Regex.AtLeast 1 Regex.notSpaceNorAt
            (Regex.EndOfInput Regex.Accept))))).

Definition isValidEmail (email : string) : bool := Regex.test emailRegex email.

(** [/^(?=.*[A-Za-z])(?=.*\d)[A-Za-z\d@$!%*#?&]{6,}$/] *)
Definition passwordRegex : Regex.pattern :=
  Regex.Lookahead (Regex.AtLeast 0 Regex.dot (Regex.Class Regex.letter Regex.Accept))
    (Regex.Lookahead (Regex.AtLeast 0 Regex.dot (Regex.Class Regex.digit Regex.Accept))
      (Regex.AtLeast 6 Regex.passwordChar (Regex.EndOfInput Regex.Accept))).

Definition isValidPassword (password : string) : bool :=
  Regex.test passwordRegex password.

Definition initializeUsersFile : M unit :=
  tryCatch (_ <- readJSONFile USERS_FILE_PATH ;; ret tt)
           (fun _ => writeJSONFile USERS_FILE_PATH {| users := [] |}).

(** The object of a user record, with the properties in the order of the
    literal in [registerUser]. *)
Definition toObject (u : User.t) : Json.object :=
  [ ("id", Json.VStr (User.id u));
    ("username", Json.VStr (User.username u));
    ("email", Json.VStr (User.email u));
    ("password", Json.VStr (User.password u));
    ("createdAt", Json.VStr (User.createdAt u));
    ("updatedAt", Json.VStr (User.updatedAt u)) ].

(** [const { password, ...userWithoutPassword } = user] *)
Definition userWithoutPassword (u : User.t) : Json.object :=
  Json.omit "password" (toObject u).

(** [String.prototype.length] as a number. *)
Definition length (s : string) : Z := Z.of_nat (String.length s).

(** The fields that [registerUser] takes from [req.body]; a field that the
    body does not have is [None].  The fields are strings, as the route
    declares them; a field of another JSON type is outside the model. *)
Record RegisterBody : Type := {
  reg_username : option string;
  reg_email : option string;
  reg_password : option string
}.

Definition registerUser (env : Env) (body : RegisterBody) : M Response :=
  tryCatch
    (initializeUsersFile ;;
     let required :=
       reply 400 false "Username, email, and password are required" in
     match reg_username body, reg_email body, reg_password body with
     | Some username, Some email, Some password =>
         if negb (truthy username) || negb (truthy email) || negb (truthy password)
         then ret required
         else if negb (isValidEmail email)
         then ret (reply 400 false "Please provide a valid email address")
         else if negb (isValidPassword password)
         then ret (reply 400 false
                     "Password must be at least 6 characters long and contain at least one letter and one number")
         else if (length username <? 3) || (length username >? 20)
         then ret (reply 400 false "Username must be between 3 and 20 characters")
         else
           userData <- readJSONFile USERS_FILE_PATH ;;
           let existingUser :=
             find (fun user =>
                     strictEq (toLowerCase (User.email user)) (toLowerCase email)
                     || strictEq (toLowerCase (User.username user)) (toLowerCase username))
                  (users userData) in
           match existingUser with
           | Some _ =>
               ret (reply 409 false "User with this email or username already exists")
           | None =>
               let saltRounds := 12 in
               let hashedPassword := bcrypt_hash env password saltRounds in
               let newUser :=
                 {| User.id := uuidv4 env;
                    User.username := trim username;
                    User.email := trim (toLowerCase email);
                    User.password := hashedPassword;
                    User.createdAt := now env 0;
                    User.updatedAt := now env 1 |} in
               let userData := {| users := users userData ++ [newUser] |} in
               writeJSONFile USERS_FILE_PATH userData ;;
               ret (json 201 true "User registered successfully"
                         (DataUser (userWithoutPassword newUser)))
           end
     | _, _, _ => ret required
     end)
    (fun error =>
       match error with
       | SyntaxError =>
           ret (reply 500 false "Database corruption detected. Please contact support.")
       | ENOENT =>
           ret (reply 500 false "Database file not found. Please contact support.")
       | EACCES =>
           ret (reply 500 false "Database access denied. Please contact support.")
       | _ =>
           ret (reply 500 false "Internal server error. Please try again later.")
       end).

Definition internalError : Response :=
  reply 500 false "Internal server error. Please try again later.".

(** The fields that [loginUser] takes from [req.body]. *)
Record LoginBody : Type := {
  login_email : option string;
  login_password : option string
}.

Definition loginUser (env : Env) (body : LoginBody) : M Response :=
  tryCatch
    (initializeUsersFile ;;
     let required := reply 400 false "Email and password are required" in
     match login_email body, login_password body with
     | Some email, Some password =>
         if negb (truthy email) || negb (truthy password)
         then ret required
         else
           userData <- readJSONFile USERS_FILE_PATH ;;
           let user :=
             find (fun u => strictEq (toLowerCase (User.email u)) (toLowerCase email))
                  (users userData) in
           match user with
           | None => ret (reply 401 false "Invalid email or password")
           | Some user =>
               let isPasswordValid :=
                 bcrypt_compare env password (User.password user) in
               if negb isPasswordValid
               then ret (reply 401 false "Invalid email or password")
               else
                 let token :=
                   jwt_sign env (User.id user) (User.email user) (JWT_SECRET env) in
                 ret {| status := 200;
                        cookie := Some ("token", token);
                        success := true;
                        message := "Login successful";
                        payload := DataLogin (userWithoutPassword user) token |}
           end
     | _, _ => ret required
     end)
    (fun _ => ret internalError).

Definition getAllUsers : M Response :=
  tryCatch
    (initializeUsersFile ;;
     userData <- readJSONFile USERS_FILE_PATH ;;
     let usersWithoutPasswords := map userWithoutPassword (users userData) in
     ret (json 200 true "Users retrieved successfully"
               (DataUsers usersWithoutPasswords
                          (Z.of_nat (List.length usersWithoutPasswords)))))
    (fun _ => ret internalError).

Definition getUserById (id : string) : M Response :=
  tryCatch
    (initializeUsersFile ;;
     if negb (truthy id)
     then ret (reply 400 false "User ID is required")
     else
       userData <- readJSONFile USERS_FILE_PATH ;;
       match find (fun u => strictEq (User.id u) id) (users userData) with
       | None => ret (reply 404 false "User not found")
       | Some user =>
           ret (json 200 true "User retrieved successfully"
                     (DataUser (userWithoutPassword user)))
       end)
    (fun _ => ret internalError).

(** The fields that [updateUser] takes from [req.body]. *)
Record UpdateBody : Type := {
  upd_username : option string;
  upd_email : option string
}.

Definition updateUser (env : Env) (id : string) (body : UpdateBody) : M Response :=
  tryCatch
    (initializeUsersFile ;;
     let username := upd_username body in
     let email := upd_email body in
     if negb (truthy id)
     then ret (reply 400 false "User ID is required")
     else
       userData <- readJSONFile USERS_FILE_PATH ;;
       match findIndex (fun u => strictEq (User.id u) id) (users userData) with
       | None => ret (reply 404 false "User not found")
       | Some userIndex =>
           if andAlso email (fun email => negb (isValidEmail email))
           then ret (reply 400 false "Please provide a valid email address")
           else
             let duplicateUser :=
               if truthyOpt username || truthyOpt email
               then
                 findFrom 0
                   (fun user index =>
                      negb (index =? userIndex)%nat
                      && (andAlso username
                            (fun username =>
                               strictEq (toLowerCase (User.username user))
                                        (toLowerCase username))
                          || andAlso email
                               (fun email =>
                                  strictEq (toLowerCase (User.email user))
                                           (toLowerCase email))))
                   (users userData)
               else None in
             match duplicateUser with
             | Some _ => ret (reply 409 false "Username or email already exists")
             | None =>
                 (* [userIndex] comes from [findIndex]: the element exists *)
                 match users userData !! userIndex with
                 | None => throw TypeError
                 | Some current =>
                     let updatedUser :=
                       {| User.id := User.id current;
                          User.username := spread username trim (User.username current);
                          User.email :=
                            spread email (fun email => trim (toLowerCase email))
                                   (User.email current);
                          User.password := User.password current;
                          User.createdAt := User.createdAt current;
                          User.updatedAt := now env 0 |} in
                     let userData :=
                       {| users := <[userIndex := updatedUser]> (users userData) |} in
                     writeJSONFile USERS_FILE_PATH userData ;;
                     ret (json 200 true "User updated successfully"
                               (DataUser (userWithoutPassword updatedUser)))
                 end
             end
       end)
    (fun _ => ret internalError).

(** [deleteUser]: remove the user with the given [id]. *)
Definition deleteUser (id : string) : M Response :=
  tryCatch
    (initializeUsersFile ;;
     if negb (truthy id)
     then ret (reply 400 false "User ID is required")
     else
       userData <- readJSONFile USERS_FILE_PATH ;;
       match findIndex (fun u => strictEq (User.id u) id) (users userData) with
       | None => ret (reply 404 false "User not found")
       | Some userIndex =>
           let userData := {| users := splice1 userIndex (users userData) |} in
           writeJSONFile USERS_FILE_PATH userData ;;
           ret (reply 200 true "User deleted successfully")
       end)
    (fun _ => ret internalError).

End Users.

(* ===================================================================== *)
(** ** Book controllers ([src/controllers/book.controllers.ts]) *)
(* ===================================================================== *)

Module Books.
Import Js Store Http.
Local Open Scope store_scope.

(** [new Date().getFullYear()] at the time of the request. *)
Record Env : Type := { getFullYear : Z }.

(** [req.user], set by [isAuthenticated] from the token's payload. *)
Record AuthUser : Type := {
  auth_userId : string;
  auth_email : string
}.

Definition internalError : Response :=
  reply 500 false "Internal server error. Please try again later.".

Definition initializeBooksFile : M unit :=
  tryCatch (_ <- readJSONFile BOOKS_FILE_PATH ;; ret tt)
           (fun _ => writeJSONFile BOOKS_FILE_PATH {| books := [] |}).

(** [req.query] of the listing: a parameter that the URL does not have is
    [None], and [?page=] gives the empty string.  A parameter that the URL
    repeats (an array) is outside the model. *)
Record Query : Type := {
  q_page : option string;
  q_limit : option string;
  q_genre : option string;
  q_author : option string;
  q_title : option string
}.

(** [const { page = "1", limit = "10" } = req.query], then
    [parseInt(page as string, 10)] and [parseInt(limit as string, 10)]. *)
Definition pageNumber (query : Query) : number :=
  let page := default "1" (q_page query) in
  parseInt page.

Definition limitNumber (query : Query) : number :=
  let limit := default "10" (q_limit query) in
  parseInt limit.

(** The block [// Apply pagination] and the response that follows it,
    which [getAllBooks] and [searchBooksByGenre] share word for word. *)
Definition paginate (message : string) (filteredBooks : list Book.t)
    (pageNumber limitNumber : number) : Response :=
  let startIndex := mul (sub pageNumber (Num 1)) limitNumber in
  let endIndex := add startIndex limitNumber in
  let paginatedBooks := slice filteredBooks startIndex endIndex in
  let totalBooks := Z.of_nat (List.length filteredBooks) in
  let totalPages := ceilDiv totalBooks limitNumber in
  json 200 true message
       (DataBooks paginatedBooks
          {| currentPage := pageNumber;
             totalPages := totalPages;
             totalBooks := totalBooks;
             hasNextPage := lt pageNumber totalPages;
             hasPreviousPage := gt pageNumber (Num 1) |}).

(** [if (x) { books = books.filter(keep x) }] *)
Definition applyFilter (o : option string) (keep : string -> Book.t -> bool)
    (filteredBooks : list Book.t) : list Book.t :=
  match o with
  | Some x => if truthy x then List.filter (keep x) filteredBooks else filteredBooks
  | None => filteredBooks
  end.

(** The block [// Apply filters] of [getAllBooks]. *)
Definition applyFilters (query : Query) (filteredBooks : list Book.t) : list Book.t :=
  let filteredBooks :=
    applyFilter (q_genre query)
      (fun genre book =>
         strictEq (toLowerCase (Book.genre book)) (toLowerCase genre))
      filteredBooks in
  let filteredBooks :=
    applyFilter (q_author query)
      (fun author book =>
         includes (toLowerCase (Book.author book)) (toLowerCase author))
      filteredBooks in
  let filteredBooks :=
    applyFilter (q_title query)
      (fun title book =>
         includes (toLowerCase (Book.title book)) (toLowerCase title))
      filteredBooks in
  filteredBooks.

(** The filter of [searchBooksByGenre]. *)
Definition genreFilter (genre : string) (allBooks : list Book.t) : list Book.t :=
  List.filter
    (fun book => strictEq (toLowerCase (Book.genre book)) (toLowerCase genre))
    allBooks.

Definition getAllBooks (query : Query) : M Response :=
  tryCatch
    (initializeBooksFile ;;
     let pageNumber := pageNumber query in
     let limitNumber := limitNumber query in
     if lt pageNumber (Num 1) || lt limitNumber (Num 1)
     then ret (reply 400 false "Page and limit must be positive numbers")
     else
       bookData <- readJSONFile BOOKS_FILE_PATH ;;
       let filteredBooks := applyFilters query (books bookData) in
       ret (paginate "Books retrieved successfully" filteredBooks
                     pageNumber limitNumber))
    (fun _ => ret internalError).

Definition searchBooksByGenre (genre : string) (query : Query) : M Response :=
  tryCatch
    (initializeBooksFile ;;
     let pageNumber := pageNumber query in
     let limitNumber := limitNumber query in
     if lt pageNumber (Num 1) || lt limitNumber (Num 1)
     then ret (reply 400 false "Page and limit must be positive numbers")
     else
       bookData <- readJSONFile BOOKS_FILE_PATH ;;
       let filteredBooks := genreFilter genre (books bookData) in
       ret (paginate ("Books in genre '" ++ genre ++ "' retrieved successfully")
                     filteredBooks pageNumber limitNumber))
    (fun _ => ret internalError).

(** The fields that [updateBook] takes from [req.body]; a field that the
    body does not have is [None].  The route declares the title, the author
    and the genre as strings and [publishedYear] as an integer; a field of
    another JSON type (a year sent as a string or with a fraction) is
    outside the model. *)
Record UpdateBody : Type := {
  upd_title : option string;
  upd_author : option string;
  upd_genre : option string;
  upd_publishedYear : option Z
}.

Definition length (s : string) : Z := Z.of_nat (String.length s).

(** [x && (x.trim().length < lo || x.trim().length > hi)] *)
Definition badLength (o : option string) (lo hi : Z) : bool :=
  andAlso o (fun x => (length (trim x) <? lo) || (length (trim x) >? hi)).

Definition updateBook (env : Env) (id : string) (body : UpdateBody)
    (user : option AuthUser) : M Response :=
  tryCatch
    (initializeBooksFile ;;
     let title := upd_title body in
     let author := upd_author body in
     let genre := upd_genre body in
     let publishedYear := upd_publishedYear body in
     if negb (truthy id)
     then ret (reply 400 false "Book ID is required")
     else
       match auth_userId <$> user with
       | None => ret (reply 401 false "User authentication required")
       | Some userId =>
           if negb (truthy userId)
           then ret (reply 401 false "User authentication required")
           else
             bookData <- readJSONFile BOOKS_FILE_PATH ;;
             match findIndex (fun b => strictEq (Book.id b) id) (books bookData) with
             | None => ret (reply 404 false "Book not found")
             | Some bookIndex =>
                 (* [bookIndex] comes from [findIndex]: the element exists *)
                 match books bookData !! bookIndex with
                 | None => throw TypeError
                 | Some current =>
                     if negb (strictEq (Book.userId current) userId)
                     then ret (reply 403 false "You can only update your own books")
                     else
                       let currentYear := getFullYear env in
                       if match publishedYear with
                          | Some y =>
                              truthyNum y && ((y <? 1000) || (y >? currentYear))
                          | None => false
                          end
                       then ret (reply 400 false
                                   ("Published year must be between 1000 and "
                                      ++ numberToString currentYear))
                       else if badLength title 1 200
                       then ret (reply 400 false
                                   "Title must be between 1 and 200 characters")
                       else if badLength author 1 100
                       then ret (reply 400 false
                                   "Author must be between 1 and 100 characters")
                       else if badLength genre 1 50
                       then ret (reply 400 false
                                   "Genre must be between 1 and 50 characters")
                       else
                         let updatedBook :=
                           {| Book.id := Book.id current;
                              Book.title := spread title trim (Book.title current);
                              Book.author := spread author trim (Book.author current);
                              Book.genre := spread genre trim (Book.genre current);
                              Book.publishedYear :=
                                match publishedYear with
                                | Some y =>
                                    if truthyNum y
                                    then parseInt (numberToString y)
                                    else Book.publishedYear current
                                | None => Book.publishedYear current
                                end;
                              Book.userId := Book.userId current |} in
                         let bookData :=
                           {| books := <[bookIndex := updatedBook]> (books bookData) |} in
                         writeJSONFile BOOKS_FILE_PATH bookData ;;
                         ret (json 200 true "Book updated successfully"
                                   (DataBook updatedBook))
                 end
             end
       end)
    (fun _ => ret internalError).

Definition deleteBook (id : string) (user : option AuthUser) : M Response :=
  tryCatch
    (initializeBooksFile ;;
     if negb (truthy id)
     then ret (reply 400 false "Book ID is required")
     else
       match auth_userId <$> user with
       | None => ret (reply 401 false "User authentication required")
       | Some userId =>
           if negb (truthy userId)
           then ret (reply 401 false "User authentication required")
           else
             bookData <- readJSONFile BOOKS_FILE_PATH ;;
             match findIndex (fun b => strictEq (Book.id b) id) (books bookData) with
             | None => ret (reply 404 false "Book not found")
             | Some bookIndex =>
                 (* [bookIndex] comes from [findIndex]: the element exists *)
                 match books bookData !! bookIndex with
                 | None => throw TypeError
                 | Some current =>
                     if negb (strictEq (Book.userId current) userId)
                     then ret (reply 403 false "You can only delete your own books")
                     else
                       let bookData :=
                         {| books := splice1 bookIndex (books bookData) |} in
                       writeJSONFile BOOKS_FILE_PATH bookData ;;
                       ret (reply 200 true "Book deleted successfully")
                 end
             end
       end)
    (fun _ => ret internalError).

Definition getBookById (id : string) : M Response :=
  tryCatch
    (initializeBooksFile ;;
     if negb (truthy id)
     then ret (reply 400 false "Book ID is required")
     else
       bookData <- readJSONFile BOOKS_FILE_PATH ;;
       match find (fun b => strictEq (Book.id b) id) (books bookData) with
       | None => ret (reply 404 false "Book not found")
       | Some book => ret (json 200 true "Book retrieved successfully" (DataBook book))
       end)
    (fun _ => ret internalError).

(** The [publishedYear] of a request to [addBook]: a number of a JSON
    body (an integer), or a string of a JSON body or of a urlencoded one.
    The handler does not test the type: it compares the value with numbers
    and hands it to [parseInt]. *)
Inductive YearField : Type :=
  | YearNumber (n : Z)
  | YearString (s : string).

(** [!publishedYear] is false *)
Definition yearTruthy (publishedYear : YearField) : bool :=
  match publishedYear with
  | YearNumber n => truthyNum n
  | YearString s => truthy s
  end.

(** The number that [publishedYear < 1000] and
    [publishedYear > currentYear] compare. *)
Definition yearToNumber (publishedYear : YearField) : number :=
  match publishedYear with
  | YearNumber n => Num n
  | YearString s => toNumber s
  end.

(** [parseInt(publishedYear)]: a number is printed first, and its text has
    no radix prefix. *)
Definition yearParseInt (publishedYear : YearField) : number :=
  match publishedYear with
  | YearNumber n => parseInt (numberToString n)
  | YearString s => parseIntAuto s
  end.

(** The fields that [addBook] takes from [req.body]; a field that the body
    does not have is [None].  The title, the author and the genre are
    strings, and [publishedYear] is an integer or a string; a field of
    another JSON type is outside the model. *)
Record AddBody : Type := {
  add_title : option string;
  add_author : option string;
  add_genre : option string;
  add_publishedYear : option YearField
}.

(** [x.trim().length < lo || x.trim().length > hi] *)
Definition outOfRange (x : string) (lo hi : Z) : bool :=
  (length (trim x) <? lo) || (length (trim x) >? hi).

(** [addBook]; [uuid] is the result of [uuidv4()]. *)
Definition addBook (env : Env) (uuid : string) (body : AddBody)
    (user : option AuthUser) : M Response :=
  tryCatch
    (initializeBooksFile ;;
     let required :=
       reply 400 false "Title, author, genre, and published year are required" in
     match add_title body, add_author body, add_genre body, add_publishedYear body with
     | Some title, Some author, Some genre, Some publishedYear =>
         if negb (truthy title) || negb (truthy author) || negb (truthy genre)
            || negb (yearTruthy publishedYear)
         then ret required
         else
           match auth_userId <$> user with
           | None => ret (reply 401 false "User authentication required")
           | Some userId =>
               if negb (truthy userId)
               then ret (reply 401 false "User authentication required")
               else
                 let currentYear := getFullYear env in
                 if lt (yearToNumber publishedYear) (Num 1000)
                    || gt (yearToNumber publishedYear) (Num currentYear)
                 then ret (reply 400 false
                             ("Published year must be between 1000 and "
                                ++ numberToString currentYear))
                 else if outOfRange title 1 200
                 then ret (reply 400 false
                             "Title must be between 1 and 200 characters")
                 else if outOfRange author 1 100
                 then ret (reply 400 false
                             "Author must be between 1 and 100 characters")
                 else if outOfRange genre 1 50
                 then ret (reply 400 false
                             "Genre must be between 1 and 50 characters")
                 else
                   bookData <- readJSONFile BOOKS_FILE_PATH ;;
                   let newBook :=
                     {| Book.id := uuid;
                        Book.title := trim title;
                        Book.author := trim author;
                        Book.genre := trim genre;
                        Book.publishedYear := yearParseInt publishedYear;
                        Book.userId := userId |} in
                   let bookData := {| books := books bookData ++ [newBook] |} in
                   writeJSONFile BOOKS_FILE_PATH bookData ;;
                   ret (json 201 true "Book added successfully" (DataBook newBook))
           end
     | _, _, _, _ => ret required
     end)
    (fun _ => ret internalError).

End Books.

(* ===================================================================== *)
(** ** Authentication ([src/utils/verifyuser.ts]) *)
(* ===================================================================== *)

Module Auth.
Import Js.

(** The library [jsonwebtoken] and the process environment:
    [jwt_verify token secret] is the payload that [jwt.verify] hands to its
    callback, and [None] when it hands over an error. *)
Record Env : Type := {
  jwt_verify : string -> option string -> option Books.AuthUser;
  env_JWT_SECRET : option string
}.

(** What the middleware does with the request: [next()] with [req.user]
    set, or [next(err)] with the status and the message of the error. *)
Inductive decision : Type :=
  | Next (user : Books.AuthUser)
  | NextError (status : Z) (message : string).

(** [isAuthenticated]; [token] is [req.cookies?.token]. *)
Definition isAuthenticated (env : Env) (token : option string) : decision :=
  match token with
  | Some t =>
      if negb (truthy t)
      then NextError 401 "You should sign in first"
      else
        match jwt_verify env t (env_JWT_SECRET env) with
        | None => NextError 403 "Token is not valid"
        | Some user => Next user
        end
  | None => NextError 401 "You should sign in first"
  end.

End Auth.

(* ===================================================================== *)
(** ** The application ([src/index.ts], [src/routes/book.routes.ts]) *)
(* ===================================================================== *)

Module App.
Import Store Http.

(** The error-handling middleware of [index.ts]: whatever the error, the
    answer is status 500. *)
Definition errorHandler (status : Z) (message : string) : Response :=
  reply 500 false "Something went wrong!".

(** A route [router.verb(path, isAuthenticated, handler)]: the handler runs
    after [next()], the error handler after [next(err)]. *)
Definition guarded (auth : Auth.Env) (token : option string)
    (handler : option Books.AuthUser -> M Response) : M Response :=
  match Auth.isAuthenticated auth token with
  | Auth.Next user => handler (Some user)
  | Auth.NextError status message => ret (errorHandler status message)
  end.

(** [router.post("/book", isAuthenticated, addBook)] *)
Definition POST_book (auth : Auth.Env) (token : option string) (env : Books.Env)
    (uuid : string) (body : Books.AddBody) : M Response :=
  guarded auth token (Books.addBook env uuid body).

(** [router.put("/book/:id", isAuthenticated, updateBook)] *)
Definition PUT_book (auth : Auth.Env) (token : option string) (env : Books.Env)
    (id : string) (body : Books.UpdateBody) : M Response :=
  guarded auth token (Books.updateBook env id body).

(** [router.delete("/book/:id", isAuthenticated, deleteBook)] *)
Definition DELETE_book (auth : Auth.Env) (token : option string) (id : string)
  : M Response :=
  guarded auth token (Books.deleteBook id).

End App.

(* ===================================================================== *)
(** * Vocabulary of the properties *)
(* ===================================================================== *)

(** ** Strings as lists of code units *)

Definition chars (s : string) : list ascii := list_ascii_of_string s.

(** Every code unit of [s] satisfies [p]. *)
Fixpoint allChars (p : ascii -> bool) (s : string) : bool :=
  match s with
  | EmptyString => true
  | String c s' => p c && allChars p s'
  end.

(** Some code unit of [s] satisfies [p]. *)
Fixpoint anyChar (p : ascii -> bool) (s : string) : bool :=
  match s with
  | EmptyString => false
  | String c s' => p c || anyChar p s'
  end.

(** ** Passwords *)

(** The symbols that a password may hold besides letters and digits. *)
Definition passwordSymbols : list ascii :=
  ["@"; "$"; "!"; "%"; "*"; "#"; "?"; "&"]%char.

(** A code unit that a password may hold. *)
Definition allowedInPassword (c : ascii) : Prop :=
  Js.isLetter c = true \/ Js.isDigit c = true \/ In c passwordSymbols.

(** ** Continuations of the two patterns *)

(** The end of the pattern, [$]. *)
Definition atEnd (s : string) : bool :=
  Regex.matchHere (Regex.EndOfInput Regex.Accept) s.

(** The head of the rest is in the class [q]: what follows [.*] in a
    lookahead [(?=.*q)]. *)
Definition headIn (q : ascii -> bool) (s : string) : bool :=
  Regex.matchHere (Regex.Class q Regex.Accept) s.

(** ** Pagination *)

(** The length of page [page] when [totalMatches] records are cut into
    pages of [pageSize]. *)
Definition expectedPageLength (totalMatches page pageSize : Z) : Z :=
  let remaining := totalMatches - (page - 1) * pageSize in
  if 0 <=? remaining then Z.min pageSize remaining else 0.

(** What a handler sent when it answered with a success result that
    carries a page of books. *)
Definition listed (result : outcome Http.Response * Store.FS)
  : option (list Book.t * Http.Pagination) :=
  match fst result with
  | Return r =>
      match Http.payload r with
      | Http.DataBooks page pagination =>
          if (Http.status r =? 200) && Http.success r
          then Some (page, pagination)
          else None
      | _ => None
      end
  | Throw _ => None
  end.

(** The answer [result] is a success that serves page [page] of
    [matches], cut into pages of [pageSize]. *)
Definition servesPage (result : outcome Http.Response * Store.FS)
    (matches : list Book.t) (page pageSize : Z) : Prop :=
  exists slice pagination,
    listed result = Some (slice, pagination)
    /\ Http.totalBooks pagination = Z.of_nat (List.length matches)
    /\ Z.of_nat (List.length slice)
       = expectedPageLength (Http.totalBooks pagination) page pageSize
    /\ Z.of_nat (List.length slice) <= pageSize
    /\ (Http.totalBooks pagination <= (page - 1) * pageSize -> slice = []).

(** The answer [result] is a success whose [totalPages] is the ceiling of
    the number of matches over [pageSize], and whose flags tell whether
    page [page] of [matches] has a successor and a predecessor. *)
Definition flagsPage (result : outcome Http.Response * Store.FS)
    (matches : list Book.t) (page pageSize : Z) : Prop :=
  exists slice pagination,
    listed result = Some (slice, pagination)
    /\ Http.totalBooks pagination = Z.of_nat (List.length matches)
    /\ (exists pages,
          Http.totalPages pagination = Js.Num pages
          /\ (pages - 1) * pageSize < Http.totalBooks pagination <= pages * pageSize)
    /\ Http.hasNextPage pagination
       = Js.lt (Http.currentPage pagination) (Http.totalPages pagination)
    /\ (Http.hasNextPage pagination = true
        <-> page * pageSize < Http.totalBooks pagination)
    /\ (Http.hasPreviousPage pagination = true <-> page > 1).

(** ** Comparison up to case *)

(** [c] is a capital letter and [d] is its small letter. *)
Definition capitalOf (c d : ascii) : bool :=
  Js.hasLower c && (Js.code d =? Js.code c + 32)%N.

(** The same code unit, or the two cases of one letter. *)
Definition sameLetter (c d : ascii) : bool :=
  Ascii.eqb c d || capitalOf c d || capitalOf d c.

(** [a] and [b] have the same length and, position by position, the same
    letters up to case. *)
Fixpoint equalIgnoringCase (a b : string) : bool :=
  match a, b with
  | EmptyString, EmptyString => true
  | String c a', String d b' => sameLetter c d && equalIgnoringCase a' b'
  | _, _ => false
  end.

(** [s] begins with [p] up to case. *)
Fixpoint startsWithIgnoringCase (s p : string) : bool :=
  match p, s with
  | EmptyString, _ => true
  | String d p', String c s' => sameLetter c d && startsWithIgnoringCase s' p'
  | String _ _, EmptyString => false
  end.

(** [p] occurs in [s] up to case. *)
Fixpoint containsIgnoringCase (s p : string) : bool :=
  startsWithIgnoringCase s p ||
  match s with
  | EmptyString => false
  | String _ s' => containsIgnoringCase s' p
  end.

(** The same code unit, or the two cases of one of the letters A-Z. *)
Definition sameAsciiLetter (c d : ascii) : bool :=
  Ascii.eqb c d
  || (Js.isUpperAZ c && (Js.code d =? Js.code c + 32)%N)
  || (Js.isUpperAZ d && (Js.code c =? Js.code d + 32)%N).

(** Equality up to ASCII case. *)
Fixpoint equalUpToAsciiCase (a b : string) : bool :=
  match a, b with
  | EmptyString, EmptyString => true
  | String c a', String d b' => sameAsciiLetter c d && equalUpToAsciiCase a' b'
  | _, _ => false
  end.

(** The 256 code units of the model. *)
Definition allAscii : list ascii := List.map ascii_of_nat (List.seq 0 256).

(** ** Filters of the listing *)

(** A filter parameter as the claim reads it: an absent parameter excludes
    nothing, a supplied one must pass the test. *)
Definition suppliedPasses (parameter : option string) (test : string -> bool) : bool :=
  match parameter with
  | Some wanted => test wanted
  | None => true
  end.

(** A filter parameter as the handler reads it: an absent or empty
    parameter excludes nothing. *)
Definition nonEmptyPasses (parameter : option string) (test : string -> bool) : bool :=
  match parameter with
  | Some EmptyString => true
  | Some wanted => test wanted
  | None => true
  end.

(** The books that the filters select: genre equal up to case, author and
    title containing the parameter up to case, all three at once. *)
Definition selects (passes : option string -> (string -> bool) -> bool)
    (query : Books.Query) (book : Book.t) : bool :=
  passes (Books.q_genre query) (equalIgnoringCase (Book.genre book))
  && passes (Books.q_author query) (containsIgnoringCase (Book.author book))
  && passes (Books.q_title query) (containsIgnoringCase (Book.title book)).

(** ** Registration *)

(** The field validation of [registerUser]: the three fields are present
    and not empty, the email and the password pass their patterns, and the
    username has 3 to 20 code units. *)
Definition passesValidation (body : Users.RegisterBody) : bool :=
  match Users.reg_username body, Users.reg_email body, Users.reg_password body with
  | Some username, Some email, Some password =>
      Js.truthy username && Js.truthy email && Js.truthy password
      && Users.isValidEmail email
      && Users.isValidPassword password
      && (3 <=? Users.length username) && (Users.length username <=? 20)
  | _, _, _ => false
  end.

(** The request asks for the email, or for the username, of [existing], up
    to ASCII case. *)
Definition collidesWith (body : Users.RegisterBody) (existing : User.t) : Prop :=
  (exists email, Users.reg_email body = Some email
                 /\ equalUpToAsciiCase (User.email existing) email = true)
  \/ (exists username, Users.reg_username body = Some username
                       /\ equalUpToAsciiCase (User.username existing) username = true).

(** A reply of the validation layer: status 400, no data. *)
Definition validationError (r : Http.Response) : Prop :=
  exists message, r = Http.reply 400 false message.

(** The conflict reply of [registerUser]. *)
Definition conflict : Http.Response :=
  Http.reply 409 false "User with this email or username already exists".

(** ** Decimal digits *)

(** The number that the digits printed by [Js.digits fuel n] denote when
    they are read after the digits of [a]. *)
Fixpoint readAfter (fuel : nat) (a n : Z) : Z :=
  match fuel with
  | O => a
  | S fuel' =>
      if n / 10 =? 0
      then 10 * a + n mod 10
      else 10 * readAfter fuel' a (n / 10) + n mod 10
  end.

(** ** Partial updates *)


(** A field after a patch, as the handlers have it: a field that the patch
    has, and that is not empty, is replaced by what [write] makes of the
    value of the patch; the stored value stays otherwise. *)
Definition patched (field : option string) (write : string -> string)
    (stored : string) : string :=
  match field with
  | Some EmptyString => stored
  | Some v => write v
  | None => stored
  end.


(** A field that the patch has, and that is not empty, passes [test]. *)
Definition nonEmptyHolds (field : option string) (test : string -> bool) : bool :=
  match field with
  | Some EmptyString => false
  | Some v => test v
  | None => false
  end.



(** The user after the patch [body], at the time [updatedAt]. *)
Definition patchedUser (body : Users.UpdateBody) (updatedAt : string)
    (current : User.t) : User.t :=
  {| User.id := User.id current;
     User.username := patched (Users.upd_username body) Js.trim (User.username current);
     User.email :=
       patched (Users.upd_email body) (fun v => Js.trim (Js.toLowerCase v))
               (User.email current);
     User.password := User.password current;
     User.createdAt := User.createdAt current;
     User.updatedAt := updatedAt |}.


(** The validation of [updateUser]: an email of the patch is well formed. *)
Definition acceptsUserPatch (body : Users.UpdateBody) : bool :=
  negb (nonEmptyHolds (Users.upd_email body) (fun v => negb (Users.isValidEmail v))).

(** ** What the user handlers send *)

(** The user objects in the answer of a handler. *)
Definition sentUsers (result : outcome Http.Response * Store.FS) : list Json.object :=
  match fst result with
  | Return r => Http.userObjects r
  | Throw _ => []
  end.

(** No user object of the answer has a [password] property. *)
Definition withoutPassword (result : outcome Http.Response * Store.FS) : bool :=
  forallb (fun user => negb (Json.hasOwn "password" user)) (sentUsers result).

(** Whatever the files are, the computation sends no password. *)
Definition sendsNoPassword (m : Store.M Http.Response) : Prop :=
  forall fs, withoutPassword (m fs) = true.

(** ** Collection documents as values *)

(** No key occurs twice. *)
Fixpoint distinct (keys : list string) : bool :=
  match keys with
  | [] => true
  | k :: rest => negb (existsb (String.eqb k) rest) && distinct rest
  end.

(** A value that JSON text can denote: it holds no [undefined], its numbers
    are finite, and (as in every object) no object has a key twice. *)
Fixpoint representable (v : Json.value) : bool :=
  match v with
  | Json.VUndefined => false
  | Json.VNull => true
  | Json.VBool _ => true
  | Json.VNum (Js.Num _) => true
  | Json.VNum _ => false
  | Json.VStr _ => true
  | Json.VArr items =>
      (fix all (l : list Json.value) : bool :=
         match l with
         | [] => true
         | x :: rest => representable x && all rest
         end) items
  | Json.VObj props =>
      distinct (map fst props)
      && (fix all (l : list (string * Json.value)) : bool :=
            match l with
            | [] => true
            | (_, x) :: rest => representable x && all rest
            end) props
  end.

(** The members that [Gateway.stringify] writes for the properties of an object. *)
Fixpoint membersOf (props : list (string * Json.value)) : list (string * Json.json) :=
  match props with
  | [] => []
  | (k, x) :: rest =>
      match Gateway.stringify x with
      | Some j => (k, j) :: membersOf rest
      | None => membersOf rest
      end
  end.

(** The object that [Gateway.parse] builds from the members of an object. *)
Fixpoint defineAll (members : list (string * Json.json)) (acc : Json.object) : Json.object :=
  match members with
  | [] => acc
  | (k, x) :: rest => defineAll rest (Json.set k (Gateway.parse x) acc)
  end.

(** The object of a book record, with the properties in the order of the
    literal in [addBook]. *)
Definition bookValue (b : Book.t) : Json.value :=
  Json.VObj
    [ ("id", Json.VStr (Book.id b));
      ("title", Json.VStr (Book.title b));
      ("author", Json.VStr (Book.author b));
      ("genre", Json.VStr (Book.genre b));
      ("publishedYear", Json.VNum (Book.publishedYear b));
      ("userId", Json.VStr (Book.userId b)) ].

(** [{ books: [...] }] *)
Definition booksDocument (bd : BookData) : Json.value :=
  Json.VObj [("books", Json.VArr (map bookValue (books bd)))].

Definition userValue (u : User.t) : Json.value := Json.VObj (Users.toObject u).

(** [{ users: [...] }] *)
Definition usersDocument (ud : UserData) : Json.value :=
  Json.VObj [("users", Json.VArr (map userValue (users ud)))].

(** The year of every book is an integer. *)
Definition integerYears (bd : BookData) : Prop :=
  forall b, In b (books bd) -> exists y, Book.publishedYear b = Js.Num y.

(** ** Sample data *)

Module Sample.

Definition dune : Book.t :=
  Book.Build "b1" "Dune" "Frank Herbert" "Fiction" (Js.Num 1965) "u1".
Definition emma : Book.t :=
  Book.Build "b2" "Emma" "Jane Austen" "fiction" (Js.Num 1815) "u2".
Definition hamlet : Book.t :=
  Book.Build "b3" "Hamlet" "William Shakespeare" "Drama" (Js.Num 1603) "u1".

Definition alice : User.t :=
  User.Build "u1" "alice" "a@x.com" "$2a$12$hash" "2024-01-01T00:00:00.000Z"
             "2024-01-01T00:00:00.000Z".

Definition library : BookData := {| books := [dune; emma; hamlet] |}.

Definition members : UserData := {| users := [alice] |}.

Definition files : Store.FS :=
  {| Store.usersFile := Store.Holds members;
     Store.booksFile := Store.Holds library |}.

(** [GET /books?page=..&limit=..&genre=..] *)
Definition query (page limit genre : option string) : Books.Query :=
  {| Books.q_page := page; Books.q_limit := limit; Books.q_genre := genre;
     Books.q_author := None; Books.q_title := None |}.

(** [GET /books?page=2&limit=2] and [GET /books?page=1&limit=2] *)
Definition secondPage : Books.Query := query (Some "2") (Some "2") None.
Definition firstPage : Books.Query := query (Some "1") (Some "2") None.

(** [GET /books?genre=Fiction] and [GET /books?genre=] *)
Definition fictionQuery : Books.Query := query None None (Some "Fiction").
Definition emptyGenreQuery : Books.Query := query None None (Some "").

(** [GET /books?page=abc] *)
Definition wordPage : Books.Query := query (Some "abc") None None.

Definition userEnv : Users.Env :=
  {| Users.uuidv4 := "u9";
     Users.now := fun _ => "2024-06-01T12:00:00.000Z";
     Users.bcrypt_hash := fun password _ => "$2a$12$" ++ password;
     Users.bcrypt_compare := fun password hash => String.eqb ("$2a$12$" ++ password) hash;
     Users.jwt_sign := fun userId email secret => userId ++ "." ++ email ++ "." ++ secret;
     Users.env_JWT_SECRET := None |}.

Definition bookEnv : Books.Env := {| Books.getFullYear := 2026 |}.

(** The payload of alice's token, as [isAuthenticated] leaves it in
    [req.user]. *)
Definition aliceToken : Books.AuthUser :=
  {| Books.auth_userId := "u1"; Books.auth_email := "a@x.com" |}.

(** [{ "title": " Dune Messiah ", "publishedYear": 1969 }] *)
Definition retitle : Books.UpdateBody :=
  {| Books.upd_title := Some " Dune Messiah ";
     Books.upd_author := None;
     Books.upd_genre := None;
     Books.upd_publishedYear := Some 1969 |}.

End Sample.

Module SampleUsers.

(** [{ "username": "alice", "email": "a@x.com", "password": "abc123" }] *)
Definition first : Users.RegisterBody :=
  {| Users.reg_username := Some "alice";
     Users.reg_email := Some "a@x.com";
     Users.reg_password := Some "abc123" |}.

(** [{ "username": "bobby", "email": "A@X.com", "password": "abc123" }] *)
Definition second : Users.RegisterBody :=
  {| Users.reg_username := Some "bobby";
     Users.reg_email := Some "A@X.com";
     Users.reg_password := Some "abc123" |}.

(** No user yet. *)
Definition fresh : Store.FS :=
  {| Store.usersFile := Store.Holds {| users := [] |};
     Store.booksFile := Store.Holds {| books := [] |} |}.

(** The files after the first registration. *)
Definition afterFirst : Store.FS :=
  snd (Users.registerUser Sample.userEnv first fresh).

(** The record of the first registration. *)
Definition firstUser : User.t :=
  {| User.id := "u9";
     User.username := "alice";
     User.email := "a@x.com";
     User.password := "$2a$12$abc123";
     User.createdAt := "2024-06-01T12:00:00.000Z";
     User.updatedAt := "2024-06-01T12:00:00.000Z" |}.

End SampleUsers.

Module SamplePatch.


(** [{ "username": " alicia ", "email": "Alice@X.com" }] *)
Definition newEmail : Users.UpdateBody :=
  {| Users.upd_username := Some " alicia ";
     Users.upd_email := Some "Alice@X.com" |}.

End SamplePatch.

Module SampleDocument.

(** A book whose year is not a number, as [parseInt] leaves it for a year
    without digits. *)
Definition undated : Book.t :=
  Book.Build "b4" "Beowulf" "Anonymous" "Epic" Js.NaN "u1".

Definition path : string := "src/database/books.json".

(** The same book as it is read back. *)
Definition undatedRead : Json.value :=
  Json.VObj
    [ ("id", Json.VStr "b4");
      ("title", Json.VStr "Beowulf");
      ("author", Json.VStr "Anonymous");
      ("genre", Json.VStr "Epic");
      ("publishedYear", Json.VNull);
      ("userId", Json.VStr "u1") ].

End SampleDocument.

(* ===================================================================== *)
(** * Vocabulary of the further properties *)
(* ===================================================================== *)

(** ** Emails *)

(** A part of an email address: at least one code unit, none of them
    white space or [@]. *)
Definition emailPart (s : string) : bool :=
  (1 <=? String.length s)%nat
  && allChars (fun c => negb (Js.isSpace c || Ascii.eqb c "@")) s.

(** ** Sample files and requests *)

Module SampleFiles.

(** The books file holds text that is not JSON. *)
Definition corrupted : Store.FS :=
  {| Store.usersFile := Store.Holds {| users := [] |};
     Store.booksFile := Store.Malformed |}.

(** The users file is missing; its directory is there. *)
Definition lost : Store.FS :=
  {| Store.usersFile := Store.Missing;
     Store.booksFile := Store.Holds {| books := [] |} |}.

(** The directory of the two files is missing. *)
Definition uncreated : Store.FS :=
  {| Store.usersFile := Store.NoDirectory; Store.booksFile := Store.NoDirectory |}.

(** Neither file can be accessed. *)
Definition locked : Store.FS :=
  {| Store.usersFile := Store.Denied; Store.booksFile := Store.Denied |}.

End SampleFiles.

Module SampleAccounts.

(** [{ "username": " alice", "email": "c@x.com", "password": "abc123" }] *)
Definition padded : Users.RegisterBody :=
  {| Users.reg_username := Some " alice";
     Users.reg_email := Some "c@x.com";
     Users.reg_password := Some "abc123" |}.

End SampleAccounts.

Module SampleBooks.

(** [{ "title": " Persuasion ", "author": "Jane Austen", "genre": "Fiction",
       "publishedYear": 1817 }] *)
Definition added : Books.AddBody :=
  {| Books.add_title := Some " Persuasion ";
     Books.add_author := Some "Jane Austen";
     Books.add_genre := Some "Fiction";
     Books.add_publishedYear := Some (Books.YearNumber 1817) |}.


(** [{ "title": "Beowulf", "author": "Anonymous", "genre": "Epic",
       "publishedYear": "unknown" }] *)
Definition undated : Books.AddBody :=
  {| Books.add_title := Some "Beowulf";
     Books.add_author := Some "Anonymous";
     Books.add_genre := Some "Epic";
     Books.add_publishedYear := Some (Books.YearString "unknown") |}.

(** The record that [addBook] makes of it for alice, with the id "b9". *)
Definition beowulf : Book.t :=
  Book.Build "b9" "Beowulf" "Anonymous" "Epic" Js.NaN "u1".


(** The books file holds "Emma" twice. *)
Definition twice : Store.FS :=
  {| Store.usersFile := Store.Holds Sample.members;
     Store.booksFile :=
       Store.Holds {| books := [Sample.dune; Sample.emma; Sample.emma] |} |}.

(** The payload of the token of the owner of "Emma". *)
Definition emmaOwner : Books.AuthUser :=
  {| Books.auth_userId := "u2"; Books.auth_email := "b@x.com" |}.

(** The record that [addBook] makes of it for alice, with the id "b9". *)
Definition persuasion : Book.t :=
  Book.Build "b9" "Persuasion" "Jane Austen" "Fiction" (Js.Num 1817) "u1".

End SampleBooks.

(** ** Adding a book *)

(** The validation of [addBook], for a request as the route documents it:
    the four fields are present and truthy, the year is an integer between
    1000 and the current year, and the trimmed title, author and genre
    have at most 200, 100 and 50 code units and at least one. *)
Definition acceptsNewBook (env : Books.Env) (body : Books.AddBody) : bool :=
  match Books.add_title body, Books.add_author body, Books.add_genre body,
        Books.add_publishedYear body with
  | Some title, Some author, Some genre, Some (Books.YearNumber year) =>
      Js.truthy title && Js.truthy author && Js.truthy genre && negb (year =? 0)
      && (1000 <=? year) && (year <=? Books.getFullYear env)
      && (1 <=? Books.length (Js.trim title)) && (Books.length (Js.trim title) <=? 200)
      && (1 <=? Books.length (Js.trim author)) && (Books.length (Js.trim author) <=? 100)
      && (1 <=? Books.length (Js.trim genre)) && (Books.length (Js.trim genre) <=? 50)
  | _, _, _, _ => false
  end.

(** The record that [addBook] stores for the request [body] of the caller
    [userId], under the identifier [uuid]: its year is the integer of the
    request, or the integer that [parseInt] reads in the text of the
    request. *)
Definition newBook (uuid userId : string) (body : Books.AddBody) : Book.t :=
  {| Book.id := uuid;
     Book.title := Js.trim (default "" (Books.add_title body));
     Book.author := Js.trim (default "" (Books.add_author body));
     Book.genre := Js.trim (default "" (Books.add_genre body));
     Book.publishedYear :=
       match Books.add_publishedYear body with
       | Some (Books.YearNumber year) => Js.Num year
       | Some (Books.YearString text) => Js.parseIntAuto text
       | None => Js.NaN
       end;
     Book.userId := userId |}.

(** The title, the author and the genre of the request pass the
    validation of [addBook]: they are present and not empty, and after
    trimming they have at most 200, 100 and 50 code units and at least
    one. *)
Definition acceptsTexts (body : Books.AddBody) : bool :=
  match Books.add_title body, Books.add_author body, Books.add_genre body with
  | Some title, Some author, Some genre =>
      Js.truthy title && Js.truthy author && Js.truthy genre
      && (1 <=? Books.length (Js.trim title)) && (Books.length (Js.trim title) <=? 200)
      && (1 <=? Books.length (Js.trim author)) && (Books.length (Js.trim author) <=? 100)
      && (1 <=? Books.length (Js.trim genre)) && (Books.length (Js.trim genre) <=? 50)
  | _, _, _ => false
  end.

(** The year of a request as a number: the integer, or the number that
    the text denotes. *)
Definition yearAsNumber (year : Books.YearField) : Js.number :=
  match year with
  | Books.YearNumber n => Js.Num n
  | Books.YearString text => Js.toNumber text
  end.

(** The year of a request is 0 or the empty text. *)
Definition yearIsEmpty (year : Books.YearField) : bool :=
  match year with
  | Books.YearNumber n => n =? 0
  | Books.YearString text => String.eqb text ""
  end.

(** The request gives [addBook] a reason to refuse it: a field is missing
    or empty, the year is a number below 1000 or above the current year,
    or a trimmed text is empty or too long. *)
Definition refusesNewBook (env : Books.Env) (body : Books.AddBody) : bool :=
  match Books.add_title body, Books.add_author body, Books.add_genre body,
        Books.add_publishedYear body with
  | Some title, Some author, Some genre, Some year =>
      String.eqb title "" || String.eqb author "" || String.eqb genre ""
      || yearIsEmpty year
      || Js.lt (yearAsNumber year) (Js.Num 1000)
      || Js.gt (yearAsNumber year) (Js.Num (Books.getFullYear env))
      || negb (acceptsTexts body)
  | _, _, _, _ => true
  end.

(** The text is no number, as its beginning shows: it is not white space
    only, and after the white space and one sign it does not go on with a
    digit, a dot or the [I] of [Infinity]. *)
Definition notNumeric (text : string) : bool :=
  match Js.trimStart text with
  | EmptyString => false
  | String c r =>
      match (if Ascii.eqb c "-" || Ascii.eqb c "+" then r else String c r) with
      | EmptyString => true
      | String d _ => negb (Js.isDigit d || Ascii.eqb d "." || Ascii.eqb d "I")
      end
  end.

(** The field lengths of the data model: title 1..200, author 1..100,
    genre 1..50. *)
Definition withinLengths (b : Book.t) : Prop :=
  1 <= Books.length (Book.title b) <= 200
  /\ 1 <= Books.length (Book.author b) <= 100
  /\ 1 <= Books.length (Book.genre b) <= 50.

(** No code unit of [s] is white space. *)
Definition spaceless (s : string) : bool :=
  allChars (fun c => negb (Js.isSpace c)) s.

(** ** Registering and logging in *)

(** The request asks for no email and no username that a stored user has,
    up to case. *)
Definition unseen (body : Users.RegisterBody) (stored : list User.t) : Prop :=
  forall u, In u stored ->
    nonEmptyHolds (Users.reg_email body) (equalIgnoringCase (User.email u)) = false
    /\ nonEmptyHolds (Users.reg_username body) (equalIgnoringCase (User.username u))
       = false.

(** The record that [registerUser] stores for the request [body]. *)
Definition registered (env : Users.Env) (body : Users.RegisterBody) : User.t :=
  {| User.id := Users.uuidv4 env;
     User.username := Js.trim (default "" (Users.reg_username body));
     User.email := Js.trim (Js.toLowerCase (default "" (Users.reg_email body)));
     User.password := Users.bcrypt_hash env (default "" (Users.reg_password body)) 12;
     User.createdAt := Users.now env 0;
     User.updatedAt := Users.now env 1 |}.

(** No two stored users have the same email up to case. *)
Definition distinctEmails (stored : list User.t) : Prop :=
  forall i j u v,
    stored !! i = Some u -> stored !! j = Some v -> i <> j ->
    equalIgnoringCase (User.email u) (User.email v) = false.

(** The answer of [loginUser] to a wrong email and to a wrong password. *)
Definition invalidLogin : Http.Response :=
  Http.reply 401 false "Invalid email or password".

(** The success of [loginUser] for the stored user [u] with the token
    [token]. *)
Definition loggedIn (u : User.t) (token : string) : Http.Response :=
  {| Http.status := 200;
     Http.cookie := Some ("token", token);
     Http.success := true;
     Http.message := "Login successful";
     Http.payload := Http.DataLogin (Users.userWithoutPassword u) token |}.

(** ** Pages *)

(** The books of an answer that carries a page. *)
Definition pageBooks (r : Http.Response) : list Book.t :=
  match Http.payload r with
  | Http.DataBooks page _ => page
  | _ => []
  end.

(** The number of pages: the ceiling of [total / pageSize]. *)
Definition pageCount (total pageSize : Z) : nat :=
  Z.to_nat (- (- total / pageSize)).

(** The pages 1 to [count] of [matches], one after the other. *)
Definition allPages (message : string) (matches : list Book.t) (pageSize : Z)
    (count : nat) : list Book.t :=
  concat
    (map (fun page =>
            pageBooks (Books.paginate message matches
                         (Js.Num (Z.of_nat page)) (Js.Num pageSize)))
         (seq 1 count)).

(** ** Tokens *)

(** The request carries no token that [isAuthenticated] lets through: no
    cookie, an empty one, or one that [jwt.verify] reports as an error. *)
Definition refused (auth : Auth.Env) (token : option string) : Prop :=
  token = None \/ token = Some ""
  \/ exists t, token = Some t
       /\ Auth.jwt_verify auth t (Auth.env_JWT_SECRET auth) = None.

(** The token that [loginUser] signs for the stored user [u]. *)
Definition tokenOf (env : Users.Env) (u : User.t) : string :=
  Users.jwt_sign env (User.id u) (User.email u) (Users.JWT_SECRET env).

(** The payload that [loginUser] signs for [u]: [{ userId, email }]. *)
Definition payloadOf (u : User.t) : Books.AuthUser :=
  {| Books.auth_userId := User.id u; Books.auth_email := User.email u |}.

(** [jwt.verify], with the secret of the middleware, gives back the payload
    of the token that [loginUser] signs for [u]. *)
Definition verified (env : Users.Env) (auth : Auth.Env) (u : User.t) : Prop :=
  tokenOf env u <> ""
  /\ Auth.jwt_verify auth (tokenOf env u) (Auth.env_JWT_SECRET auth)
     = Some (payloadOf u).

(** The three routes behind [isAuthenticated] answer [r] and leave the
    files [fs]. *)
Definition guardedRoutesAnswer (auth : Auth.Env) (token : option string)
    (r : Http.Response) (fs : Store.FS) : Prop :=
  (forall env uuid body,
     App.POST_book auth token env uuid body fs = (Return r, fs))
  /\ (forall env id body,
        App.PUT_book auth token env id body fs = (Return r, fs))
  /\ (forall id, App.DELETE_book auth token id fs = (Return r, fs)).

Module SampleTokens.

(** A process with [JWT_SECRET=s3cret]. *)
Definition userEnv : Users.Env :=
  {| Users.uuidv4 := "u9";
     Users.now := fun _ => "2024-06-01T12:00:00.000Z";
     Users.bcrypt_hash := fun password _ => "$2a$12$" ++ password;
     Users.bcrypt_compare := fun password hash => String.eqb ("$2a$12$" ++ password) hash;
     Users.jwt_sign := fun userId email secret => userId ++ "." ++ email ++ "." ++ secret;
     Users.env_JWT_SECRET := Some "s3cret" |}.

(** A [jwt.verify] that knows alice's token, and reports an error without
    a secret. *)
Definition verify (token : string) (secret : option string) : option Books.AuthUser :=
  match secret with
  | Some s => if String.eqb token ("u1.a@x.com." ++ s) then Some Sample.aliceToken else None
  | None => None
  end.

Definition auth : Auth.Env :=
  {| Auth.jwt_verify := verify; Auth.env_JWT_SECRET := Some "s3cret" |}.

(** A process without [JWT_SECRET]. *)
Definition unset : Auth.Env :=
  {| Auth.jwt_verify := verify; Auth.env_JWT_SECRET := None |}.

(** [{ "email": "A@x.com", "password": "hash" }] *)
Definition aliceLogin : Users.LoginBody :=
  {| Users.login_email := Some "A@x.com"; Users.login_password := Some "hash" |}.

End SampleTokens.

Module SampleUpdate.

Definition bob : User.t :=
  User.Build "u2" "bob" "b@x.com" "$2a$12$hash" "2024-01-02T00:00:00.000Z"
             "2024-01-02T00:00:00.000Z".

Definition members : UserData := {| users := [Sample.alice; bob] |}.

Definition files : Store.FS :=
  {| Store.usersFile := Store.Holds members;
     Store.booksFile := Store.Holds Sample.library |}.

(** [{ "email": "A@X.com" }], the email of alice in capitals. *)
Definition takeEmail : Users.UpdateBody :=
  {| Users.upd_username := None; Users.upd_email := Some "A@X.com" |}.

End SampleUpdate.

(** ** Documents *)

(** No object of the document has a key twice. *)
Fixpoint uniqueKeys (j : Json.json) : bool :=
  match j with
  | Json.JArr items =>
      (fix all (l : list Json.json) : bool :=
         match l with
         | [] => true
         | x :: rest => uniqueKeys x && all rest
         end) items
  | Json.JObj members =>
      distinct (map fst members)
      && (fix all (l : list (string * Json.json)) : bool :=
            match l with
            | [] => true
            | (_, x) :: rest => uniqueKeys x && all rest
            end) members
  | _ => true
  end.

(** The properties that [Gateway.parse] defines for members with distinct
    keys. *)
Definition parsed (members : list (string * Json.json)) : Json.object :=
  map (fun kx => (fst kx, Gateway.parse (snd kx))) members.

Module SampleDisk.

(** [{ "books": [ { "id": "b1", "publishedYear": 1965 } ] }] *)
Definition single : Json.json :=
  Json.JObj
    [ ("books", Json.JArr [Json.JObj [("id", Json.JStr "b1");
                                      ("publishedYear", Json.JNum 1965)]]) ].

Definition disk : Gateway.disk := {[ SampleDocument.path := Gateway.Document single ]}.

End SampleDisk.

(** ** Numerals *)

(** The text begins with a decimal digit. *)
Definition beginsWithDigit (s : string) : bool :=
  match s with
  | String c _ => Js.isDigit c
  | EmptyString => false
  end.

Module SampleQueries.

(** [GET /books?page=2nd&limit=2.5] *)
Definition ordinal : Books.Query := Sample.query (Some "2nd") (Some "2.5") None.

(** [GET /books?page=0x10] *)
Definition hexadecimal : Books.Query := Sample.query (Some "0x10") None None.

End SampleQueries.

(** ** Documents that a read and a write keep *)

(** The document is one that [JSON.parse] and [JSON.stringify] keep as it
    is: no object has a key twice, or a key that begins with a digit (the
    keys that are array indices, which an object enumerates before its
    other keys, are among these), and every number is an integer of at
    most 2^53 in absolute value, which a double holds exactly. *)
Fixpoint stable (j : Json.json) : bool :=
  match j with
  | Json.JNum z => Z.abs z <=? 2 ^ 53
  | Json.JArr items =>
      (fix all (l : list Json.json) : bool :=
         match l with
         | [] => true
         | x :: rest => stable x && all rest
         end) items
  | Json.JObj members =>
      distinct (map fst members)
      && forallb (fun key => negb (beginsWithDigit key)) (map fst members)
      && (fix all (l : list (string * Json.json)) : bool :=
            match l with
            | [] => true
            | (_, x) :: rest => stable x && all rest
            end) members
  | _ => true
  end.

(* ===================================================================== *)
(** * Lemmas *)
(* ===================================================================== *)

(** ** Strings as lists of code units *)

Lemma allChars_spec p s :
  allChars p s = true <-> forall c, In c (chars s) -> p c = true.
Proof.
  induction s as [|c s IH]; simpl.
  - split; [intros _ c [] | reflexivity].
  - rewrite andb_true_iff, IH. split.
    + intros [Hc Hs] d [<-|Hd]; auto.
    + intros H. split; [apply H; now left | intros d Hd; apply H; now right].
Qed.

Lemma anyChar_spec p s :
  anyChar p s = true <-> exists c, In c (chars s) /\ p c = true.
Proof.
  induction s as [|c s IH]; simpl.
  - split; [discriminate | intros (c & [] & _)].
  - rewrite orb_true_iff, IH. split.
    + intros [Hc | (d & Hd & Hp)]; [exists c | exists d]; auto.
    + intros (d & [<-|Hd] & Hp); [now left | right; now exists d].
Qed.

(** ** Regular expressions: what the two repetitions accept *)

Module RegexFacts.
Import Regex.

Lemma matchHere_AtLeast n p k s :
  matchHere (AtLeast n p k) s = exactly n p (star p (matchHere k)) s.
Proof. reflexivity. Qed.

Lemma matchHere_Lookahead a k s :
  matchHere (Lookahead a k) s = matchHere a s && matchHere k s.
Proof. reflexivity. Qed.

Lemma exactly_0 p k s : exactly 0 p k s = k s.
Proof. reflexivity. Qed.

Lemma star_to_end p s : star p atEnd s = allChars p s.
Proof.
  induction s as [|c s IH]; simpl; [reflexivity|].
  now rewrite IH.
Qed.

Lemma exactly_to_end n p s :
  exactly n p (star p atEnd) s = allChars p s && (n <=? String.length s)%nat.
Proof.
  revert s. induction n as [|n IH]; intros s.
  - simpl exactly. rewrite star_to_end.
    destruct (allChars p s); reflexivity.
  - destruct s as [|c s]; simpl; [reflexivity|].
    rewrite IH. now rewrite andb_assoc.
Qed.

Lemma headIn_cons q c s : headIn q (String c s) = q c.
Proof. unfold headIn; simpl. now rewrite andb_true_r. Qed.

Lemma star_head_any p q s :
  star p (headIn q) s = true -> anyChar q s = true.
Proof.
  induction s as [|c s IH]; simpl.
  - discriminate.
  - fold (headIn q (String c s)). rewrite headIn_cons.
    intros H. apply orb_true_iff in H as [H | H].
    + now rewrite H.
    + apply andb_true_iff in H as [_ H]. rewrite (IH H). apply orb_true_r.
Qed.

Lemma any_star_head p q s :
  allChars p s = true -> anyChar q s = true -> star p (headIn q) s = true.
Proof.
  induction s as [|c s IH]; simpl.
  - discriminate.
  - fold (headIn q (String c s)). rewrite headIn_cons.
    intros Hp Hq. apply andb_true_iff in Hp as [Hc Hs].
    destruct (q c); [reflexivity|]. simpl in *.
    rewrite Hc. simpl. now apply IH.
Qed.

Lemma lookahead_any p q s :
  allChars p s = true -> star p (headIn q) s = anyChar q s.
Proof.
  intros Hp. destruct (anyChar q s) eqn:E.
  - now apply any_star_head.
  - destruct (star p (headIn q) s) eqn:F; [|reflexivity].
    apply star_head_any in F. congruence.
Qed.

Lemma passwordChar_dot c : passwordChar c = true -> dot c = true.
Proof.
  unfold passwordChar, dot, letter, digit, Js.isLineTerminator, Js.isLetter,
    Js.isUpperAZ, Js.isLowerAZ, Js.isDigit, Js.between, Js.code.
  destruct c as [[] [] [] [] [] [] [] []]; vm_compute; intros H; congruence.
Qed.

Lemma allChars_impl (p q : ascii -> bool) s :
  (forall c, p c = true -> q c = true) ->
  allChars p s = true -> allChars q s = true.
Proof.
  intros Hpq. induction s as [|c s IH]; simpl; [reflexivity|].
  intros H. apply andb_true_iff in H as [Hc Hs].
  now rewrite (Hpq _ Hc), IH.
Qed.

End RegexFacts.

(** ** The password pattern *)

Lemma passwordChar_allowed c :
  Regex.passwordChar c = true <-> allowedInPassword c.
Proof.
  unfold Regex.passwordChar, allowedInPassword, Regex.letter, Regex.digit.
  rewrite !orb_true_iff, existsb_exists. split.
  - intros [[H|H]|(x & Hx & Hc)]; auto.
    apply Ascii.eqb_eq in Hc. subst. auto.
  - intros [H|[H|H]]; auto. right. exists c. split; [assumption|apply Ascii.eqb_refl].
Qed.

Lemma isValidPassword_bool password :
  Users.isValidPassword password =
    anyChar Js.isLetter password && anyChar Js.isDigit password
    && allChars Regex.passwordChar password
    && (6 <=? String.length password)%nat.
Proof.
  unfold Users.isValidPassword, Regex.test, Users.passwordRegex.
  rewrite !RegexFacts.matchHere_Lookahead, !RegexFacts.matchHere_AtLeast.
  rewrite !RegexFacts.exactly_0.
  change (Regex.matchHere (Regex.EndOfInput Regex.Accept)) with atEnd.
  change (Regex.matchHere (Regex.Class Regex.letter Regex.Accept))
    with (headIn Regex.letter).
  change (Regex.matchHere (Regex.Class Regex.digit Regex.Accept))
    with (headIn Regex.digit).
  rewrite RegexFacts.exactly_to_end.
  destruct (allChars Regex.passwordChar password) eqn:Hall.
  - assert (Hdot : allChars Regex.dot password = true)
      by (eapply RegexFacts.allChars_impl; [apply RegexFacts.passwordChar_dot | exact Hall]).
    rewrite !(RegexFacts.lookahead_any _ _ _ Hdot).
    change (anyChar Regex.letter password) with (anyChar Js.isLetter password).
    change (anyChar Regex.digit password) with (anyChar Js.isDigit password).
    rewrite andb_true_r, andb_assoc. reflexivity.
  - simpl. now rewrite !andb_false_r.
Qed.

(** ** Arrays and strings *)

Module ArrayFacts.
Import Js.

Lemma findIndex_lookup {A} (p : A -> bool) (arr : list A) (i : nat) :
  findIndex p arr = Some i -> exists x, arr !! i = Some x /\ p x = true.
Proof.
  revert i. induction arr as [|x arr IH]; intros i; simpl; [discriminate|].
  destruct (p x) eqn:Hp.
  - intros [= <-]. now exists x.
  - destruct (findIndex p arr) as [j|]; [|discriminate].
    intros [= <-]. exact (IH j eq_refl).
Qed.

(** [find] returns the element at the index that [findIndex] returns. *)
Lemma find_findIndex {A} (p : A -> bool) (arr : list A) :
  find p arr = findIndex p arr ≫= (fun i => arr !! i).
Proof.
  unfold find. induction arr as [|x arr IH]; simpl; [reflexivity|].
  destruct (p x); [reflexivity|]. rewrite IH.
  now destruct (findIndex p arr).
Qed.

Lemma find_Some_index {A} (p : A -> bool) (arr : list A) (x : A) :
  find p arr = Some x ->
  exists i, findIndex p arr = Some i /\ arr !! i = Some x.
Proof.
  rewrite find_findIndex. destruct (findIndex p arr) as [i|]; [|discriminate].
  intros H. now exists i.
Qed.

Lemma truthy_nonempty s : s <> "" -> truthy s = true.
Proof. unfold truthy. intros H. now destruct s. Qed.

Lemma strictEq_false a b : a <> b -> strictEq a b = false.
Proof. intros H. unfold strictEq. now apply String.eqb_neq. Qed.

Lemma strictEq_true a b : strictEq a b = true <-> a = b.
Proof. unfold strictEq. apply String.eqb_eq. Qed.

End ArrayFacts.

(** ** Comparison up to case *)

Module CaseFacts.
Import Js.

Lemma In_allAscii c : In c allAscii.
Proof.
  unfold allAscii. rewrite <- (ascii_nat_embedding c).
  apply in_map, in_seq. pose proof (nat_ascii_bounded c). lia.
Qed.

(** A property of code units that holds on the 256 of them. *)
Lemma forall_ascii (f : ascii -> bool) :
  forallb f allAscii = true -> forall c, f c = true.
Proof. intros H c. eapply forallb_forall in H; [exact H | apply In_allAscii]. Qed.

Lemma forall_ascii2 (f : ascii -> ascii -> bool) :
  forallb (fun c => forallb (f c) allAscii) allAscii = true ->
  forall c d, f c d = true.
Proof.
  intros H c d. apply forall_ascii with (f := f c).
  now apply (forall_ascii _ H c).
Qed.

Lemma sameLetter_lower c d :
  sameLetter c d = Ascii.eqb (toLowerChar c) (toLowerChar d).
Proof.
  apply Bool.eqb_prop.
  revert c d. apply forall_ascii2. vm_compute. reflexivity.
Qed.

Lemma sameAsciiLetter_lower c d :
  sameAsciiLetter c d = true -> toLowerChar c = toLowerChar d.
Proof.
  intros H. apply Ascii.eqb_eq. revert H.
  generalize (forall_ascii2
    (fun c d => implb (sameAsciiLetter c d) (Ascii.eqb (toLowerChar c) (toLowerChar d)))
    ltac:(vm_compute; reflexivity) c d).
  destruct (sameAsciiLetter c d); simpl; congruence.
Qed.

Lemma equalIgnoringCase_lower a b :
  equalIgnoringCase a b = strictEq (toLowerCase a) (toLowerCase b).
Proof.
  unfold strictEq. revert b.
  induction a as [|c a IH]; intros [|d b]; simpl; try reflexivity.
  now rewrite sameLetter_lower, IH.
Qed.

Lemma equalUpToAsciiCase_lower a b :
  equalUpToAsciiCase a b = true -> toLowerCase a = toLowerCase b.
Proof.
  revert b. induction a as [|c a IH]; intros [|d b]; simpl; try congruence.
  intros H. apply andb_true_iff in H as [Hc Hs].
  now rewrite (sameAsciiLetter_lower _ _ Hc), (IH _ Hs).
Qed.

Lemma prefix_cons c s d p :
  String.prefix (String d p) (String c s) = Ascii.eqb c d && String.prefix p s.
Proof.
  simpl. destruct (ascii_dec d c) as [->|Hne].
  - now rewrite Ascii.eqb_refl.
  - destruct (Ascii.eqb_spec c d); [congruence | reflexivity].
Qed.

Lemma startsWithIgnoringCase_lower s p :
  startsWithIgnoringCase s p = String.prefix (toLowerCase p) (toLowerCase s).
Proof.
  revert s. induction p as [|d p IH]; intros s.
  - destruct s; reflexivity.
  - destruct s as [|c s]; [reflexivity|].
    cbn [startsWithIgnoringCase toLowerCase].
    now rewrite prefix_cons, sameLetter_lower, IH.
Qed.

Lemma containsIgnoringCase_lower s p :
  containsIgnoringCase s p = includes (toLowerCase s) (toLowerCase p).
Proof.
  induction s as [|c s IH].
  - cbn [containsIgnoringCase includes toLowerCase].
    now rewrite startsWithIgnoringCase_lower.
  - cbn [containsIgnoringCase includes toLowerCase].
    rewrite startsWithIgnoringCase_lower, IH. reflexivity.
Qed.

End CaseFacts.

(** ** Printing an integer and reading it back *)

Module DigitFacts.
Import Js.

Lemma digitChar_digit d :
  0 <= d < 10 -> isDigit (digitChar d) = true /\ digitValue (digitChar d) = d.
Proof.
  intros H.
  assert (d = 0 \/ d = 1 \/ d = 2 \/ d = 3 \/ d = 4 \/ d = 5 \/ d = 6
          \/ d = 7 \/ d = 8 \/ d = 9) as Hd by lia.
  repeat (destruct Hd as [->|Hd]; [split; reflexivity|]).
  subst. split; reflexivity.
Qed.

Lemma digitsPrefix_digit acc c s :
  isDigit c = true ->
  digitsPrefix acc (String c s) = digitsPrefix (Some (10 * default 0 acc + digitValue c)) s.
Proof. intros H. simpl. now rewrite H. Qed.

Lemma read_digits fuel n a tail :
  digitsPrefix (Some a) (digits fuel n tail) = digitsPrefix (Some (readAfter fuel a n)) tail.
Proof.
  revert n tail. induction fuel as [|fuel IH]; intros n tail; [reflexivity|].
  cbn [digits readAfter].
  destruct (digitChar_digit (n mod 10)) as [Hd Hv];
    [apply Z.mod_pos_bound; lia|].
  destruct (n / 10 =? 0).
  - rewrite digitsPrefix_digit by assumption. now rewrite Hv.
  - rewrite IH, digitsPrefix_digit by assumption. now rewrite Hv.
Qed.

Lemma readAfter_zero fuel n :
  0 <= n < 2 ^ Z.of_nat fuel -> readAfter fuel 0 n = n.
Proof.
  revert n. induction fuel as [|fuel IH]; intros n Hn.
  - simpl in *. lia.
  - cbn [readAfter].
    pose proof (Z.div_mod n 10 ltac:(lia)) as Hdm.
    destruct (Z.eqb_spec (n / 10) 0) as [H0|H0]; [lia|].
    rewrite IH; [lia|].
    rewrite Nat2Z.inj_succ, Z.pow_succ_r in Hn by lia.
    split; [apply Z.div_pos; lia|].
    apply Z.div_lt_upper_bound; lia.
Qed.

Lemma digitCount_enough n : 0 <= n -> 0 <= n < 2 ^ Z.of_nat (digitCount n).
Proof.
  intros Hn. split; [assumption|]. unfold digitCount.
  rewrite Nat2Z.inj_succ, Z2Nat.id by apply Z.log2_nonneg.
  destruct (Z.eq_dec n 0) as [->|Hne]; [reflexivity|].
  apply Z.log2_spec. lia.
Qed.

(** The digits begin with a digit. *)
Lemma digits_head fuel n tail :
  exists c rest, digits (S fuel) n tail = String c rest /\ isDigit c = true.
Proof.
  revert n tail. induction fuel as [|fuel IH]; intros n tail.
  - cbn [digits]. destruct (n / 10 =? 0);
      eexists _, _; (split; [reflexivity|]);
      apply digitChar_digit, Z.mod_pos_bound; lia.
  - change (digits (S (S fuel)) n tail)
      with (let tail' := String (digitChar (n mod 10)) tail in
            if n / 10 =? 0 then tail' else digits (S fuel) (n / 10) tail').
    cbv zeta. destruct (n / 10 =? 0).
    + eexists _, _. split; [reflexivity|].
      apply digitChar_digit, Z.mod_pos_bound; lia.
    + apply IH.
Qed.

Lemma parseInt_digit_head c rest :
  isDigit c = true ->
  parseInt (String c rest) =
    match digitsPrefix (Some 0) (String c rest) with
    | Some v => Num v
    | None => NaN
    end.
Proof.
  destruct c as [[] [] [] [] [] [] [] []]; try discriminate; intros _; reflexivity.
Qed.

Lemma parseInt_minus_digit c rest :
  isDigit c = true ->
  parseInt (String "-" (String c rest)) =
    match digitsPrefix (Some 0) (String c rest) with
    | Some v => Num (- v)
    | None => NaN
    end.
Proof.
  intros H. unfold parseInt.
  change (trimStart (String "-" (String c rest))) with (String "-" (String c rest)).
  cbv iota. rewrite !digitsPrefix_digit by assumption. reflexivity.
Qed.

Lemma read_natural n :
  0 <= n -> digitsPrefix (Some 0) (digits (digitCount n) n "") = Some n.
Proof.
  intros Hn. rewrite read_digits, readAfter_zero by now apply digitCount_enough.
  reflexivity.
Qed.

(** [parseInt(String(z))] is [z]. *)
Lemma parseInt_numberToString z : parseInt (numberToString z) = Num z.
Proof.
  unfold numberToString. destruct (Z.ltb_spec z 0) as [Hneg|Hpos].
  - pose proof (read_natural (- z) ltac:(lia)) as Hread.
    unfold digitCount in *.
    destruct (digits_head (Z.to_nat (Z.log2 (- z))) (- z) "") as (c & rest & Heq & Hc).
    rewrite Heq in *. rewrite parseInt_minus_digit, Hread by assumption.
    f_equal. lia.
  - pose proof (read_natural z Hpos) as Hread.
    unfold digitCount in *.
    destruct (digits_head (Z.to_nat (Z.log2 z)) z "") as (c & rest & Heq & Hc).
    rewrite Heq in *. now rewrite parseInt_digit_head, Hread.
Qed.

End DigitFacts.

(** ** Running the handlers *)

Module Run.
Import Js Store Http.

Lemma initializeBooksFile_holds fs bd :
  booksFile fs = Holds bd -> Books.initializeBooksFile fs = (Return tt, fs).
Proof.
  intros H. unfold Books.initializeBooksFile, tryCatch, bind, readJSONFile.
  simpl. now rewrite H.
Qed.

Lemma initializeUsersFile_holds fs ud :
  usersFile fs = Holds ud -> Users.initializeUsersFile fs = (Return tt, fs).
Proof.
  intros H. unfold Users.initializeUsersFile, tryCatch, bind, readJSONFile.
  simpl. now rewrite H.
Qed.

Lemma readBooks_holds fs bd :
  booksFile fs = Holds bd -> readJSONFile BOOKS_FILE_PATH fs = (Return bd, fs).
Proof. intros H. unfold readJSONFile. simpl. now rewrite H. Qed.

Lemma readUsers_holds fs ud :
  usersFile fs = Holds ud -> readJSONFile USERS_FILE_PATH fs = (Return ud, fs).
Proof. intros H. unfold readJSONFile. simpl. now rewrite H. Qed.

(** The page and limit that a query asks for, with the defaults. *)
Lemma getAllBooks_run query fs bd :
  booksFile fs = Holds bd ->
  Books.getAllBooks query fs =
    (Return
       (if lt (Books.pageNumber query) (Num 1) || lt (Books.limitNumber query) (Num 1)
        then reply 400 false "Page and limit must be positive numbers"
        else Books.paginate "Books retrieved successfully"
               (Books.applyFilters query (books bd))
               (Books.pageNumber query) (Books.limitNumber query)),
     fs).
Proof.
  intros H. unfold Books.getAllBooks, tryCatch, bind.
  rewrite (initializeBooksFile_holds _ _ H).
  fold (Books.pageNumber query) (Books.limitNumber query).
  destruct (lt (Books.pageNumber query) (Num 1) || lt (Books.limitNumber query) (Num 1)).
  - reflexivity.
  - now rewrite (readBooks_holds _ _ H).
Qed.

End Run.

(** ** Pagination arithmetic *)

Module PaginationFacts.
Import Js Store Http.

Lemma slice_window_length {A} (arr : list A) (page pageSize : Z) :
  1 <= page -> 1 <= pageSize ->
  Z.of_nat (List.length
              (slice arr (Num ((page - 1) * pageSize))
                         (Num ((page - 1) * pageSize + pageSize))))
  = expectedPageLength (Z.of_nat (List.length arr)) page pageSize.
Proof.
  intros Hp Hs. unfold slice, expectedPageLength, clampIndex.
  assert (Hstart : 0 <= (page - 1) * pageSize) by nia.
  set (start := (page - 1) * pageSize) in *.
  set (len := Z.of_nat (List.length arr)).
  destruct (Z.ltb_spec start 0) as [?|_]; [lia|].
  destruct (Z.ltb_spec (start + pageSize) 0) as [?|_]; [lia|].
  rewrite length_take, length_drop.
  destruct (Z.leb_spec 0 (len - start)); subst len; lia.
Qed.

Lemma ceil_quotient (total pageSize : Z) :
  1 <= pageSize -> 0 <= total ->
  forall page, page < - (- total / pageSize) <-> page * pageSize < total.
Proof.
  intros Hs Ht page.
  pose proof (Z.div_mod (- total) pageSize ltac:(lia)) as Hdm.
  pose proof (Z.mod_pos_bound (- total) pageSize ltac:(lia)) as Hb.
  set (q := - total / pageSize) in *.
  set (r := (- total) mod pageSize) in *.
  split; intros H; nia.
Qed.

(** [- (- total / pageSize)] is the ceiling of [total / pageSize]. *)
Lemma ceil_bounds (total pageSize : Z) :
  1 <= pageSize -> 0 <= total ->
  (- (- total / pageSize) - 1) * pageSize < total <= - (- total / pageSize) * pageSize.
Proof.
  intros Hs Ht.
  pose proof (Z.div_mod (- total) pageSize ltac:(lia)) as Hdm.
  pose proof (Z.mod_pos_bound (- total) pageSize ltac:(lia)) as Hb.
  set (q := - total / pageSize) in *.
  set (r := (- total) mod pageSize) in *.
  split; nia.
Qed.

Lemma paginate_Num message arr page pageSize :
  1 <= pageSize ->
  Books.paginate message arr (Num page) (Num pageSize) =
    json 200 true message
      (DataBooks
         (slice arr (Num ((page - 1) * pageSize))
                    (Num ((page - 1) * pageSize + pageSize)))
         {| currentPage := Num page;
            totalPages := Num (- (- Z.of_nat (List.length arr) / pageSize));
            totalBooks := Z.of_nat (List.length arr);
            hasNextPage := page <? - (- Z.of_nat (List.length arr) / pageSize);
            hasPreviousPage := 1 <? page |}).
Proof.
  intros Hs. unfold Books.paginate.
  destruct pageSize as [|s|s]; try lia. reflexivity.
Qed.

End PaginationFacts.

(** ** The two listings *)

Module Listing.
Import Js Store Http.

Lemma searchBooksByGenre_run genre query fs bd :
  booksFile fs = Holds bd ->
  Books.searchBooksByGenre genre query fs =
    (Return
       (if lt (Books.pageNumber query) (Num 1) || lt (Books.limitNumber query) (Num 1)
        then reply 400 false "Page and limit must be positive numbers"
        else Books.paginate ("Books in genre '" ++ genre ++ "' retrieved successfully")
               (Books.genreFilter genre (books bd))
               (Books.pageNumber query) (Books.limitNumber query)),
     fs).
Proof.
  intros H. unfold Books.searchBooksByGenre, tryCatch, bind.
  rewrite (Run.initializeBooksFile_holds _ _ H).
  destruct (lt (Books.pageNumber query) (Num 1) || lt (Books.limitNumber query) (Num 1)).
  - reflexivity.
  - now rewrite (Run.readBooks_holds _ _ H).
Qed.

Lemma guard_passes page pageSize :
  1 <= page -> 1 <= pageSize -> lt (Num page) (Num 1) || lt (Num pageSize) (Num 1) = false.
Proof.
  intros Hp Hs. unfold lt.
  destruct (Z.ltb_spec page 1), (Z.ltb_spec pageSize 1); simpl; solve [lia | reflexivity].
Qed.

Lemma paginate_serves message fs matches page pageSize :
  1 <= page -> 1 <= pageSize ->
  servesPage (Return (Books.paginate message matches (Num page) (Num pageSize)), fs)
             matches page pageSize.
Proof.
  intros Hp Hs. rewrite PaginationFacts.paginate_Num by assumption.
  eexists _, _. split; [reflexivity|]. cbn [totalBooks].
  pose proof (PaginationFacts.slice_window_length matches page pageSize Hp Hs) as Hlen.
  split; [reflexivity|]. split; [exact Hlen|].
  unfold expectedPageLength in Hlen.
  split.
  - destruct (Z.leb_spec 0 (Z.of_nat (List.length matches) - (page - 1) * pageSize)); lia.
  - intros Hbeyond.
    destruct (Z.leb_spec 0 (Z.of_nat (List.length matches) - (page - 1) * pageSize));
      apply length_zero_iff_nil; lia.
Qed.

Lemma paginate_flags message fs matches page pageSize :
  1 <= page -> 1 <= pageSize ->
  flagsPage (Return (Books.paginate message matches (Num page) (Num pageSize)), fs)
            matches page pageSize.
Proof.
  intros Hp Hs. rewrite PaginationFacts.paginate_Num by assumption.
  eexists _, _. split; [reflexivity|].
  cbn [totalBooks hasNextPage hasPreviousPage currentPage totalPages].
  split; [reflexivity|]. split; [|split; [reflexivity|split]].
  - eexists. split; [reflexivity|].
    apply PaginationFacts.ceil_bounds; lia.
  - rewrite Z.ltb_lt. apply PaginationFacts.ceil_quotient; lia.
  - rewrite Z.ltb_lt. lia.
Qed.

End Listing.

(** ** Filters *)

Module FilterFacts.
Import Js.

Lemma filter_filter {A} (f g : A -> bool) (l : list A) :
  List.filter g (List.filter f l) = List.filter (fun x => f x && g x) l.
Proof.
  induction l as [|x l IH]; simpl; [reflexivity|].
  destruct (f x); simpl; [destruct (g x)|]; now rewrite IH.
Qed.

Lemma filter_all {A} (l : list A) : List.filter (fun _ => true) l = l.
Proof. induction l as [|x l IH]; simpl; congruence. Qed.

Lemma filter_pointwise {A} (f g : A -> bool) (l : list A) :
  (forall x, f x = g x) -> List.filter f l = List.filter g l.
Proof. intros H. induction l as [|x l IH]; simpl; [reflexivity|]. now rewrite H, IH. Qed.

Lemma nonEmptyPasses_ext parameter (f g : string -> bool) :
  (forall wanted, f wanted = g wanted) ->
  nonEmptyPasses parameter f = nonEmptyPasses parameter g.
Proof. intros H. destruct parameter as [[|c w]|]; simpl; auto. Qed.

Lemma applyFilter_filter parameter keep l :
  Books.applyFilter parameter keep l =
    List.filter (fun book => nonEmptyPasses parameter (fun wanted => keep wanted book)) l.
Proof.
  unfold Books.applyFilter, nonEmptyPasses, truthy.
  destruct parameter as [[|c wanted]|]; simpl; now rewrite ?filter_all.
Qed.

Lemma applyFilters_selects query l :
  Books.applyFilters query l = List.filter (selects nonEmptyPasses query) l.
Proof.
  unfold Books.applyFilters. rewrite !applyFilter_filter, !filter_filter.
  apply filter_pointwise. intros book. unfold selects.
  rewrite (nonEmptyPasses_ext (Books.q_genre query) _
             (equalIgnoringCase (Book.genre book)))
    by (intros w; symmetry; apply CaseFacts.equalIgnoringCase_lower).
  rewrite (nonEmptyPasses_ext (Books.q_author query) _
             (containsIgnoringCase (Book.author book)))
    by (intros w; symmetry; apply CaseFacts.containsIgnoringCase_lower).
  rewrite (nonEmptyPasses_ext (Books.q_title query) _
             (containsIgnoringCase (Book.title book)))
    by (intros w; symmetry; apply CaseFacts.containsIgnoringCase_lower).
  apply andb_assoc.
Qed.

Lemma genreFilter_selects genre l :
  Books.genreFilter genre l =
    List.filter (fun book => equalIgnoringCase (Book.genre book) genre) l.
Proof.
  unfold Books.genreFilter. apply filter_pointwise. intros book.
  symmetry. apply CaseFacts.equalIgnoringCase_lower.
Qed.

End FilterFacts.

(** ** Registration *)

Module RegisterFacts.
Import Js Store Http.

Lemma find_exists {A} (p : A -> bool) (arr : list A) (x : A) :
  In x arr -> p x = true -> exists y, find p arr = Some y.
Proof.
  unfold find. induction arr as [|a arr IH]; simpl; [intros []|].
  intros [->|Hin] Hp.
  - rewrite Hp. eauto.
  - destruct (p a); eauto.
Qed.

(** The test of [registerUser] finds a user that the request collides
    with. *)
Lemma collision_is_found username email password body existing arr :
  Users.reg_username body = Some username ->
  Users.reg_email body = Some email ->
  Users.reg_password body = Some password ->
  In existing arr -> collidesWith body existing ->
  exists found,
    find (fun user =>
            strictEq (toLowerCase (User.email user)) (toLowerCase email)
            || strictEq (toLowerCase (User.username user)) (toLowerCase username))
         arr = Some found.
Proof.
  intros Hu He Hp Hin Hcol. apply find_exists with (x := existing); [assumption|].
  apply orb_true_iff.
  destruct Hcol as [(e & He' & Hsame) | (u & Hu' & Hsame)].
  - left. rewrite He in He'. injection He' as <-.
    apply ArrayFacts.strictEq_true. now apply CaseFacts.equalUpToAsciiCase_lower.
  - right. rewrite Hu in Hu'. injection Hu' as <-.
    apply ArrayFacts.strictEq_true. now apply CaseFacts.equalUpToAsciiCase_lower.
Qed.

End RegisterFacts.

(** ** Partial updates *)

Module PatchFacts.
Import Js Store Http.

Lemma spread_patched field write stored :
  spread field write stored = patched field write stored.
Proof. now destruct field as [[|c v]|]. Qed.

Lemma andAlso_nonEmptyHolds field test :
  andAlso field test = nonEmptyHolds field test.
Proof. now destruct field as [[|c v]|]. Qed.

Lemma nonEmptyHolds_ext field (f g : string -> bool) :
  (forall v, f v = g v) -> nonEmptyHolds field f = nonEmptyHolds field g.
Proof. intros H. destruct field as [[|c v]|]; simpl; auto. Qed.





End PatchFacts.

(** ** User objects *)

Module PasswordFacts.
Import Js Store Http.

Lemma hasOwn_userWithoutPassword u :
  Json.hasOwn "password" (Users.userWithoutPassword u) = false.
Proof. reflexivity. Qed.

Lemma ret_clean r :
  forallb (fun user => negb (Json.hasOwn "password" user)) (userObjects r) = true ->
  sendsNoPassword (ret r).
Proof. intros H fs. exact H. Qed.

Lemma throw_clean e : sendsNoPassword (throw e).
Proof. intros fs. reflexivity. Qed.

Lemma bind_clean {A} (m : M A) (k : A -> M Response) :
  (forall a, sendsNoPassword (k a)) -> sendsNoPassword (bind m k).
Proof.
  intros H fs. unfold bind. destruct (m fs) as [[a|e] fs'].
  - apply H.
  - reflexivity.
Qed.

Lemma tryCatch_clean (body : M Response) (handler : error -> M Response) :
  sendsNoPassword body -> (forall e, sendsNoPassword (handler e)) ->
  sendsNoPassword (tryCatch body handler).
Proof.
  intros Hb Hh fs. unfold tryCatch.
  specialize (Hb fs). destruct (body fs) as [[r|e] fs'].
  - exact Hb.
  - apply Hh.
Qed.

Lemma users_clean (l : list User.t) :
  forallb (fun user => negb (Json.hasOwn "password" user))
          (map Users.userWithoutPassword l) = true.
Proof. induction l as [|u l IH]; [reflexivity|]. cbn [map forallb]. now rewrite IH. Qed.

(** One step through the text of a handler. *)
Ltac clean_step :=
  first
    [ apply tryCatch_clean; [|intros []]
    | apply bind_clean; intros ?
    | apply throw_clean
    | apply ret_clean; first [reflexivity | apply users_clean]
    | match goal with
      | |- sendsNoPassword (if ?b then _ else _) => destruct b
      | |- sendsNoPassword (match ?x with _ => _ end) => destruct x
      end ].

Lemma registerUser_clean env body : sendsNoPassword (Users.registerUser env body).
Proof. unfold Users.registerUser. repeat clean_step. Qed.

Lemma loginUser_clean env body : sendsNoPassword (Users.loginUser env body).
Proof. unfold Users.loginUser. repeat clean_step. Qed.

Lemma getAllUsers_clean : sendsNoPassword Users.getAllUsers.
Proof. unfold Users.getAllUsers. repeat clean_step. Qed.

Lemma getUserById_clean id : sendsNoPassword (Users.getUserById id).
Proof. unfold Users.getUserById. repeat clean_step. Qed.

Lemma updateUser_clean env id body : sendsNoPassword (Users.updateUser env id body).
Proof. unfold Users.updateUser. repeat clean_step. Qed.

End PasswordFacts.

(** ** The gateway *)

Module GatewayFacts.
Import Json Gateway.

Lemma value_ind_nested (P : value -> Prop) :
  P VUndefined -> P VNull -> (forall b, P (VBool b)) -> (forall n, P (VNum n)) ->
  (forall s, P (VStr s)) ->
  (forall items, Forall P items -> P (VArr items)) ->
  (forall props, Forall (fun kv => P (snd kv)) props -> P (VObj props)) ->
  forall v, P v.
Proof.
  intros Hu Hn Hb Hnum Hs Harr Hobj. fix IH 1.
  intros [| |b|n|s|items|props].
  - exact Hu.
  - exact Hn.
  - apply Hb.
  - apply Hnum.
  - apply Hs.
  - apply Harr. induction items as [|x items IHitems]; constructor.
    + apply IH.
    + exact IHitems.
  - apply Hobj. induction props as [|[k x] props IHprops]; constructor.
    + apply IH.
    + exact IHprops.
Qed.

Lemma stringify_VArr items :
  stringify (VArr items) = Some (JArr (map (fun x => default JNull (stringify x)) items)).
Proof.
  reflexivity.
Qed.

Lemma parse_JArr items : parse (JArr items) = VArr (map parse items).
Proof.
  reflexivity.
Qed.

Lemma stringify_VObj props : stringify (VObj props) = Some (JObj (membersOf props)).
Proof.
  reflexivity.
Qed.

Lemma parse_JObj members : parse (JObj members) = VObj (defineAll members []).
Proof.
  reflexivity.
Qed.

Lemma representable_VArr items :
  representable (VArr items) = forallb representable items.
Proof.
  reflexivity.
Qed.

Lemma representable_VObj props :
  representable (VObj props) =
    distinct (map fst props) && forallb (fun kv => representable (snd kv)) props.
Proof.
  cbn [representable]. f_equal.
  induction props as [|[k x] props IH]; [reflexivity|]. cbn [forallb snd].
  now rewrite IH.
Qed.

Lemma set_fresh k v (acc : object) :
  existsb (String.eqb k) (map fst acc) = false -> set k v acc = (acc ++ [(k, v)])%list.
Proof.
  induction acc as [|[k' w] acc IH]; [reflexivity|].
  cbn [map fst existsb set]. intros H. apply orb_false_iff in H as [Hk Hrest].
  rewrite String.eqb_sym in Hk. rewrite Hk. cbn [app]. now rewrite IH.
Qed.

Lemma existsb_eqb_false k (keys : list string) :
  existsb (String.eqb k) keys = false <-> ~ In k keys.
Proof.
  split.
  - intros H Hin. assert (existsb (String.eqb k) keys = true); [|congruence].
    apply existsb_exists. exists k. split; [assumption | apply String.eqb_refl].
  - intros H. destruct (existsb (String.eqb k) keys) eqn:E; [|reflexivity].
    apply existsb_exists in E as (k' & Hin & Heq).
    apply String.eqb_eq in Heq. subst. contradiction.
Qed.

(** Defining the members of a written object, whose keys are distinct and
    not yet defined, appends its properties. *)
Lemma defineAll_fresh props acc :
  Forall (fun kv => representable (snd kv) = true ->
                    exists j, stringify (snd kv) = Some j /\ parse j = snd kv) props ->
  distinct (map fst props) = true ->
  forallb (fun kv => representable (snd kv)) props = true ->
  (forall k, In k (map fst props) -> ~ In k (map fst acc)) ->
  defineAll (membersOf props) acc = (acc ++ props)%list.
Proof.
  intros HP. revert acc.
  induction HP as [|[k x] props Hx HP IH]; intros acc Hdist Hrep Hfresh.
  - cbn. now rewrite app_nil_r.
  - cbn [map fst distinct] in Hdist. apply andb_true_iff in Hdist as [Hk Hdist].
    apply negb_true_iff, existsb_eqb_false in Hk.
    cbn [forallb snd] in Hrep. apply andb_true_iff in Hrep as [Hrx Hrep].
    destruct (Hx Hrx) as (j & Hj & Hparse). cbn [snd] in Hj, Hparse.
    cbn [membersOf]. rewrite Hj. cbn [defineAll]. rewrite Hparse.
    rewrite set_fresh by (apply existsb_eqb_false, Hfresh; now left).
    rewrite IH; [now rewrite <- app_assoc | assumption | assumption |].
    intros k' Hin. rewrite map_app, in_app_iff. cbn [map fst In].
    intros [Hacc | [<- | []]].
    + apply (Hfresh k'); [now right | assumption].
    + contradiction.
Qed.

Lemma elements_back items :
  Forall (fun x => representable x = true ->
                   exists j, stringify x = Some j /\ parse j = x) items ->
  forallb representable items = true ->
  map parse (map (fun x => default JNull (stringify x)) items) = items.
Proof.
  induction 1 as [|x items Hx HP IH]; [reflexivity|].
  cbn [forallb map]. intros H. apply andb_true_iff in H as [Hrx Hrep].
  destruct (Hx Hrx) as (j & Hj & Hparse). rewrite Hj.
  change (default JNull (Some j)) with j. now rewrite Hparse, IH.
Qed.

(** A representable value has JSON text, and its text denotes it. *)
Lemma parse_stringify v :
  representable v = true -> exists j, stringify v = Some j /\ parse j = v.
Proof.
  induction v as [| |b|n|s|items IH|props IH] using value_ind_nested; intros Hrep.
  - discriminate.
  - now exists JNull.
  - now exists (JBool b).
  - destruct n as [|z| |]; try discriminate. now exists (JNum z).
  - now exists (JStr s).
  - rewrite representable_VArr in Hrep. rewrite stringify_VArr.
    eexists. split; [reflexivity|].
    now rewrite parse_JArr, elements_back.
  - rewrite representable_VObj in Hrep. apply andb_true_iff in Hrep as [Hdist Hall].
    rewrite stringify_VObj. eexists. split; [reflexivity|].
    rewrite parse_JObj, defineAll_fresh; auto.
Qed.

Lemma read_after_write path content d :
  representable content = true ->
  exists d',
    writeJSONFile path content d = (Return tt, d')
    /\ readJSONFile path d' = Return content.
Proof.
  intros Hrep. destruct (parse_stringify content Hrep) as (j & Hj & Hparse).
  unfold writeJSONFile, readJSONFile, disk in *. rewrite Hj.
  eexists. split; [reflexivity|].
  now rewrite lookup_insert_eq, Hparse.
Qed.

Lemma document_representable key items :
  forallb representable items = true ->
  representable (VObj [(key, VArr items)]) = true.
Proof.
  intros H. rewrite representable_VObj. cbn [map fst distinct existsb negb forallb snd].
  now rewrite representable_VArr, H.
Qed.

Lemma usersDocument_representable ud : representable (usersDocument ud) = true.
Proof.
  apply document_representable.
  induction (users ud) as [|u l IH]; [reflexivity|].
  cbn [map forallb]. rewrite IH. reflexivity.
Qed.

Lemma booksDocument_representable bd :
  integerYears bd -> representable (booksDocument bd) = true.
Proof.
  unfold integerYears. intros Hyears. apply document_representable.
  induction (books bd) as [|b l IH]; [reflexivity|].
  cbn [map forallb]. rewrite IH by (intros b' Hb'; apply Hyears; now right).
  destruct (Hyears b (or_introl eq_refl)) as (y & Hy).
  unfold bookValue. rewrite Hy. reflexivity.
Qed.

End GatewayFacts.

(* ===================================================================== *)
(** * The claims *)
(* ===================================================================== *)

(** ** C1: the ownership check *)

(** C1.  An update or a delete request that addresses a book whose stored
    owner differs from the authenticated caller is answered with status
    403, and the files are left as they were.  The route [/book/:id] binds
    a non-empty [id], and an authenticated caller has a non-empty user
    id. *)
Theorem foreign_book_is_protected
    (env : Books.Env) (id : string) (body : Books.UpdateBody)
    (caller : Books.AuthUser) (fs : Store.FS) (bd : BookData) (book : Book.t)
    (Hfile : Store.booksFile fs = Store.Holds bd)
    (Hid : id <> "")
    (Hcaller : Books.auth_userId caller <> "")
    (Hbook : Js.find (fun b => Js.strictEq (Book.id b) id) (books bd) = Some book)
    (Howner : Book.userId book <> Books.auth_userId caller) :
  Books.updateBook env id body (Some caller) fs =
    (Return (Http.reply 403 false "You can only update your own books"), fs)
  /\ Books.deleteBook id (Some caller) fs =
       (Return (Http.reply 403 false "You can only delete your own books"), fs).
Proof.
  apply ArrayFacts.find_Some_index in Hbook as (i & Hi & Hlook).
  unfold Books.updateBook, Books.deleteBook, Store.tryCatch, Store.bind.
  rewrite (Run.initializeBooksFile_holds _ _ Hfile).
  rewrite (ArrayFacts.truthy_nonempty _ Hid). cbn [negb fmap option_fmap option_map].
  rewrite (ArrayFacts.truthy_nonempty _ Hcaller). cbn [negb].
  rewrite (Run.readBooks_holds _ _ Hfile), Hi, Hlook.
  rewrite (ArrayFacts.strictEq_false _ _ Howner). split; reflexivity.
Qed.

Lemma foreign_book_is_protected_witness :
  Store.booksFile Sample.files = Store.Holds Sample.library
  /\ Js.find (fun b => Js.strictEq (Book.id b) "b2") (books Sample.library)
     = Some Sample.emma
  /\ Books.updateBook Sample.bookEnv "b2" Sample.retitle (Some Sample.aliceToken)
       Sample.files
     = (Return (Http.reply 403 false "You can only update your own books"),
        Sample.files)
  /\ Books.deleteBook "b2" (Some Sample.aliceToken) Sample.files
     = (Return (Http.reply 403 false "You can only delete your own books"),
        Sample.files).
Proof.
  split; [reflexivity|]. split; [reflexivity|].
  apply (foreign_book_is_protected Sample.bookEnv "b2" Sample.retitle
           Sample.aliceToken Sample.files Sample.library Sample.emma);
    solve [reflexivity | discriminate].
Defined.

(** ** C2, C3: the page and its flags *)

(** C2.  For every stored book list, every filter and every page >= 1 and
    page size >= 1, the listing and the genre search answer with a success
    whose slice has min(pageSize, totalMatches - (page-1)*pageSize)
    elements when that is not negative and none otherwise, hence at most
    pageSize; a page beyond the last one is an empty slice. *)
Theorem page_slice_length
    (query : Books.Query) (genre : string) (fs : Store.FS) (bd : BookData)
    (page pageSize : Z)
    (Hfile : Store.booksFile fs = Store.Holds bd)
    (Hpage : Books.pageNumber query = Js.Num page)
    (Hlimit : Books.limitNumber query = Js.Num pageSize)
    (Hp : 1 <= page) (Hs : 1 <= pageSize) :
  servesPage (Books.getAllBooks query fs)
             (Books.applyFilters query (books bd)) page pageSize
  /\ servesPage (Books.searchBooksByGenre genre query fs)
                (Books.genreFilter genre (books bd)) page pageSize.
Proof.
  rewrite (Run.getAllBooks_run _ _ _ Hfile),
    (Listing.searchBooksByGenre_run _ _ _ _ Hfile), Hpage, Hlimit.
  rewrite (Listing.guard_passes _ _ Hp Hs).
  split; now apply Listing.paginate_serves.
Qed.

Lemma page_slice_length_witness :
  Store.booksFile Sample.files = Store.Holds Sample.library
  /\ Books.pageNumber Sample.secondPage = Js.Num 2
  /\ Books.limitNumber Sample.secondPage = Js.Num 2
  /\ servesPage (Books.getAllBooks Sample.secondPage Sample.files)
                (Books.applyFilters Sample.secondPage (books Sample.library)) 2 2
  /\ servesPage (Books.searchBooksByGenre "FICTION" Sample.secondPage Sample.files)
                (Books.genreFilter "FICTION" (books Sample.library)) 2 2.
Proof.
  split; [reflexivity|]. split; [reflexivity|]. split; [reflexivity|].
  apply (page_slice_length Sample.secondPage "FICTION" Sample.files Sample.library 2 2);
    solve [reflexivity | lia].
Defined.

(** C3.  For every page >= 1 and page size >= 1 and every filtered list,
    [totalPages] is the ceiling of totalMatches / pageSize, [hasNextPage]
    is [page < totalPages] and holds exactly when
    page * pageSize < totalMatches, and [hasPreviousPage] holds exactly
    when page > 1. *)
Theorem page_flags
    (query : Books.Query) (genre : string) (fs : Store.FS) (bd : BookData)
    (page pageSize : Z)
    (Hfile : Store.booksFile fs = Store.Holds bd)
    (Hpage : Books.pageNumber query = Js.Num page)
    (Hlimit : Books.limitNumber query = Js.Num pageSize)
    (Hp : 1 <= page) (Hs : 1 <= pageSize) :
  flagsPage (Books.getAllBooks query fs)
            (Books.applyFilters query (books bd)) page pageSize
  /\ flagsPage (Books.searchBooksByGenre genre query fs)
               (Books.genreFilter genre (books bd)) page pageSize.
Proof.
  rewrite (Run.getAllBooks_run _ _ _ Hfile),
    (Listing.searchBooksByGenre_run _ _ _ _ Hfile), Hpage, Hlimit.
  rewrite (Listing.guard_passes _ _ Hp Hs).
  split; now apply Listing.paginate_flags.
Qed.

Lemma page_flags_witness :
  Store.booksFile Sample.files = Store.Holds Sample.library
  /\ Books.pageNumber Sample.firstPage = Js.Num 1
  /\ Books.limitNumber Sample.firstPage = Js.Num 2
  /\ flagsPage (Books.getAllBooks Sample.firstPage Sample.files)
               (Books.applyFilters Sample.firstPage (books Sample.library)) 1 2
  /\ flagsPage (Books.searchBooksByGenre "FICTION" Sample.firstPage Sample.files)
               (Books.genreFilter "FICTION" (books Sample.library)) 1 2.
Proof.
  split; [reflexivity|]. split; [reflexivity|]. split; [reflexivity|].
  apply (page_flags Sample.firstPage "FICTION" Sample.files Sample.library 1 2);
    solve [reflexivity | lia].
Defined.

(** ** C4: the filters of the listing *)

(** C4, as the handler has it.  For every stored book list and every
    combination of genre, author and title parameters, the listing pages
    exactly the books that pass all the filters whose parameter is present
    and not empty: the genre equal up to case, the author and the title
    containing the parameter up to case.  A parameter that is absent or
    empty excludes nothing.  The genre search pages exactly the books whose
    genre equals the path parameter up to case.  Over the genres "Fiction",
    "fiction" and "Drama", the genre "Fiction" selects the first two. *)
Theorem listing_selects
    (query : Books.Query) (genre : string) (fs : Store.FS) (bd : BookData)
    (Hfile : Store.booksFile fs = Store.Holds bd)
    (Hguard : Js.lt (Books.pageNumber query) (Js.Num 1)
              || Js.lt (Books.limitNumber query) (Js.Num 1) = false) :
  Books.getAllBooks query fs =
    (Return (Books.paginate "Books retrieved successfully"
               (List.filter (selects nonEmptyPasses query) (books bd))
               (Books.pageNumber query) (Books.limitNumber query)), fs)
  /\ Books.searchBooksByGenre genre query fs =
       (Return (Books.paginate ("Books in genre '" ++ genre ++ "' retrieved successfully")
                  (List.filter (fun book => equalIgnoringCase (Book.genre book) genre)
                               (books bd))
                  (Books.pageNumber query) (Books.limitNumber query)), fs)
  /\ List.filter (selects nonEmptyPasses Sample.fictionQuery)
                 [Sample.dune; Sample.emma; Sample.hamlet]
     = [Sample.dune; Sample.emma].
Proof.
  rewrite (Run.getAllBooks_run _ _ _ Hfile),
    (Listing.searchBooksByGenre_run _ _ _ _ Hfile), Hguard.
  rewrite FilterFacts.applyFilters_selects, FilterFacts.genreFilter_selects.
  repeat split.
Qed.

Lemma listing_selects_witness :
  Store.booksFile Sample.files = Store.Holds Sample.library
  /\ fst (Books.getAllBooks Sample.fictionQuery Sample.files) =
       Return (Books.paginate "Books retrieved successfully"
                 [Sample.dune; Sample.emma] (Js.Num 1) (Js.Num 10)).
Proof.
  split; [reflexivity|].
  destruct (listing_selects Sample.fictionQuery "Fiction" Sample.files Sample.library
              eq_refl eq_refl) as (Hlist & _ & Hex).
  rewrite Hlist. reflexivity.
Defined.

(** The claim as it is stated fails for a parameter that is present and
    empty: [GET /books?genre=] lists every book, and no book has the empty
    genre. *)
Lemma empty_genre_parameter_excludes_nothing :
  fst <$> listed (Books.getAllBooks Sample.emptyGenreQuery Sample.files)
    = Some [Sample.dune; Sample.emma; Sample.hamlet]
  /\ List.filter (selects suppliedPasses Sample.emptyGenreQuery)
                 (books Sample.library) = [].
Proof. split; reflexivity. Qed.

(** ** C5: uniqueness of email and username *)

(** C5.  For every stored user collection and every registration request
    whose email, or whose username, equals that of a stored user up to
    ASCII case, no record is inserted, and the registration (a request
    that passes the field validation, as the two of the example do) is
    answered with the conflict, status 409.  A request that the field
    validation refuses is answered by it, status 400, before the
    uniqueness test is reached. *)
Theorem colliding_registration_is_refused
    (env : Users.Env) (body : Users.RegisterBody) (fs : Store.FS)
    (ud : UserData) (existing : User.t)
    (Hfile : Store.usersFile fs = Store.Holds ud)
    (Hstored : In existing (users ud))
    (Hcollides : collidesWith body existing) :
  snd (Users.registerUser env body fs) = fs
  /\ (passesValidation body = true ->
      fst (Users.registerUser env body fs) = Return conflict)
  /\ (passesValidation body = false ->
      exists r, fst (Users.registerUser env body fs) = Return r /\ validationError r).
Proof.
  unfold Users.registerUser, Store.tryCatch, Store.bind, passesValidation.
  rewrite (Run.initializeUsersFile_holds _ _ Hfile).
  destruct (Users.reg_username body) as [username|] eqn:Hu;
    [destruct (Users.reg_email body) as [email|] eqn:He;
       [destruct (Users.reg_password body) as [password|] eqn:Hp|]|].
  2-4: cbn; split; [reflexivity|]; split; [discriminate|];
       intros _; eexists; split; [reflexivity|]; eexists; reflexivity.
  destruct (Js.truthy username); cbn [negb orb andb];
    [|cbn; split; [reflexivity|]; split; [discriminate|];
      intros _; eexists; split; [reflexivity|]; eexists; reflexivity].
  destruct (Js.truthy email); cbn [negb orb andb];
    [|cbn; split; [reflexivity|]; split; [discriminate|];
      intros _; eexists; split; [reflexivity|]; eexists; reflexivity].
  destruct (Js.truthy password); cbn [negb orb andb];
    [|cbn; split; [reflexivity|]; split; [discriminate|];
      intros _; eexists; split; [reflexivity|]; eexists; reflexivity].
  destruct (Users.isValidEmail email); cbn [negb orb andb];
    [|cbn; split; [reflexivity|]; split; [discriminate|];
      intros _; eexists; split; [reflexivity|]; eexists; reflexivity].
  destruct (Users.isValidPassword password); cbn [negb orb andb];
    [|cbn; split; [reflexivity|]; split; [discriminate|];
      intros _; eexists; split; [reflexivity|]; eexists; reflexivity].
  rewrite Z.gtb_ltb.
  destruct (Z.ltb_spec (Users.length username) 3) as [Hlo|Hlo];
    [|destruct (Z.ltb_spec 20 (Users.length username)) as [Hhi|Hhi]].
  - cbn. split; [reflexivity|]. split.
    + intros H. apply andb_true_iff in H as [H _]. apply Z.leb_le in H. lia.
    + intros _. eexists. split; [reflexivity|]. eexists. reflexivity.
  - cbn. split; [reflexivity|]. split.
    + intros H. apply andb_true_iff in H as [_ H]. apply Z.leb_le in H. lia.
    + intros _. eexists. split; [reflexivity|]. eexists. reflexivity.
  - cbn [orb]. rewrite (Run.readUsers_holds _ _ Hfile).
    destruct (RegisterFacts.collision_is_found username email password body
                existing (users ud) Hu He Hp Hstored Hcollides) as (found & ->).
    cbn. split; [reflexivity|]. split; [reflexivity|].
    intros H. apply andb_false_iff in H as [H|H]; apply Z.leb_gt in H; lia.
Qed.

Lemma colliding_registration_is_refused_witness :
  Store.usersFile SampleUsers.afterFirst
    = Store.Holds {| users := [SampleUsers.firstUser] |}
  /\ equalUpToAsciiCase (User.email SampleUsers.firstUser) "A@X.com" = true
  /\ passesValidation SampleUsers.second = true
  /\ Users.registerUser Sample.userEnv SampleUsers.second SampleUsers.afterFirst
     = (Return conflict, SampleUsers.afterFirst).
Proof.
  split; [reflexivity|]. split; [reflexivity|]. split; [reflexivity|].
  destruct (colliding_registration_is_refused Sample.userEnv SampleUsers.second
              SampleUsers.afterFirst {| users := [SampleUsers.firstUser] |}
              SampleUsers.firstUser eq_refl (or_introl eq_refl)
              (or_introl (ex_intro _ "A@X.com" (conj eq_refl eq_refl))))
    as (Hfiles & Hconflict & _).
  rewrite (surjective_pairing (Users.registerUser _ _ _)).
  now rewrite Hfiles, (Hconflict eq_refl).
Defined.

(** ** C6: the password validator *)

(** C6.  The password validator accepts a string exactly when it has at
    least six code units, holds an ASCII letter and a digit, and consists
    only of letters, digits and the symbols [@ $ ! % * # ? &]; it accepts
    "abc123" and rejects "abcdef" and "123456". *)
Theorem isValidPassword_accepts_exactly :
  (forall password : string,
     Users.isValidPassword password = true <->
       (6 <= String.length password)%nat
       /\ (exists c, In c (chars password) /\ Js.isLetter c = true)
       /\ (exists c, In c (chars password) /\ Js.isDigit c = true)
       /\ (forall c, In c (chars password) -> allowedInPassword c))
  /\ Users.isValidPassword "abc123" = true
  /\ Users.isValidPassword "abcdef" = false
  /\ Users.isValidPassword "123456" = false.
Proof.
  split; [|repeat split; reflexivity].
  intros password. rewrite isValidPassword_bool, !andb_true_iff.
  rewrite !anyChar_spec, allChars_spec, Nat.leb_le.
  split.
  - intros [[[Hl Hd] Ha] Hn]. repeat split; auto.
    intros c Hc. now apply passwordChar_allowed, Ha.
  - intros (Hn & Hl & Hd & Ha). repeat split; auto.
    intros c Hc. now apply passwordChar_allowed, Ha.
Qed.

(** ** C7: the guard on page and limit *)

(** C7.  A page that is not a number is not rejected: [parseInt] gives
    [NaN], and [NaN < 1] is false, so that the guard lets the request
    through; the listing and the genre search then answer with status 200
    and an empty slice instead of the validation error. *)
Theorem unreadable_page_is_served
    (query : Books.Query) (genre : string) (fs : Store.FS) (bd : BookData)
    (Hfile : Store.booksFile fs = Store.Holds bd)
    (Hpage : Books.pageNumber query = Js.NaN)
    (Hlimit : Js.lt (Books.limitNumber query) (Js.Num 1) = false) :
  (exists pagination,
     listed (Books.getAllBooks query fs) = Some ([], pagination)
     /\ snd (Books.getAllBooks query fs) = fs)
  /\ (exists pagination,
        listed (Books.searchBooksByGenre genre query fs) = Some ([], pagination)
        /\ snd (Books.searchBooksByGenre genre query fs) = fs).
Proof.
  rewrite (Run.getAllBooks_run _ _ _ Hfile),
    (Listing.searchBooksByGenre_run _ _ _ _ Hfile), Hpage, Hlimit.
  cbn [Js.lt orb].
  split; eexists; (split; [|reflexivity]); unfold listed, Books.paginate;
    cbn [fst Http.payload Http.json Http.status Http.success Z.eqb andb
         Js.sub Js.add Js.neg Js.mul];
    reflexivity.
Qed.

Lemma unreadable_page_is_served_witness :
  Books.pageNumber Sample.wordPage = Js.NaN
  /\ Books.getAllBooks Sample.wordPage Sample.files =
       (Return
          (Http.json 200 true "Books retrieved successfully"
             (Http.DataBooks []
                {| Http.currentPage := Js.NaN;
                   Http.totalPages := Js.Num 1;
                   Http.totalBooks := 3;
                   Http.hasNextPage := false;
                   Http.hasPreviousPage := false |})),
        Sample.files)
  /\ fst <$> listed (Books.searchBooksByGenre "fiction" Sample.wordPage Sample.files)
     = Some [].
Proof.
  split; [reflexivity|]. split; [reflexivity|].
  destruct (unreadable_page_is_served Sample.wordPage "fiction" Sample.files
              Sample.library eq_refl eq_refl eq_refl) as (_ & pagination & Hlisted & _).
  now rewrite Hlisted.
Defined.

(** ** C8: partial updates *)




(** ** C9: reading back what was written *)

(** C9, as the gateway has it.  Writing a value that JSON text can denote
    (no [undefined], no number that is not finite) and reading the file
    back gives the value again.  Every users document is such a value, and
    so is every books document whose years are integers. *)
Theorem read_after_write_is_identity :
  (forall (path : string) (content : Json.value) (d : Gateway.disk),
     representable content = true ->
     exists d',
       Gateway.writeJSONFile path content d = (Return tt, d')
       /\ Gateway.readJSONFile path d' = Return content)
  /\ (forall ud : UserData, representable (usersDocument ud) = true)
  /\ (forall bd : BookData, integerYears bd -> representable (booksDocument bd) = true).
Proof.
  split; [|split].
  - apply GatewayFacts.read_after_write.
  - apply GatewayFacts.usersDocument_representable.
  - apply GatewayFacts.booksDocument_representable.
Qed.

Lemma read_after_write_is_identity_witness :
  integerYears Sample.library
  /\ Gateway.readJSONFile SampleDocument.path
       (snd (Gateway.writeJSONFile SampleDocument.path
               (booksDocument Sample.library) ∅))
     = Return (booksDocument Sample.library).
Proof.
  assert (Hyears : integerYears Sample.library).
  { intros b [<-|[<-|[<-|[]]]]; eexists; reflexivity. }
  split; [exact Hyears|].
  destruct read_after_write_is_identity as (Hround & _ & Hbooks).
  destruct (Hround SampleDocument.path (booksDocument Sample.library) ∅
              (Hbooks Sample.library Hyears)) as (d' & Hwrite & Hread).
  rewrite Hwrite. exact Hread.
Defined.

(** The claim as it is stated fails for a document that holds a number that
    is not finite: the year [NaN] is written as [null], and [null] is read
    back. *)
Lemma nan_year_is_read_back_as_null :
  Gateway.readJSONFile SampleDocument.path
    (snd (Gateway.writeJSONFile SampleDocument.path
            (booksDocument {| books := [SampleDocument.undated] |}) ∅))
  = Return (Json.VObj [("books", Json.VArr [SampleDocument.undatedRead])])
  /\ Json.VObj [("books", Json.VArr [SampleDocument.undatedRead])]
     <> booksDocument {| books := [SampleDocument.undated] |}.
Proof.
  split.
  - vm_compute. reflexivity.
  - discriminate.
Qed.

(** ** C10: no password in an answer *)

(** C10.  Whatever the request and the files, no user object in an answer
    of registration, login, list-all-users, get-user-by-id or update-user
    has a [password] property; a success carries the five other
    properties of the record. *)
Theorem answers_carry_no_password :
  (forall (env : Users.Env) (registration : Users.RegisterBody)
          (login : Users.LoginBody) (id : string) (patch : Users.UpdateBody)
          (fs : Store.FS),
     withoutPassword (Users.registerUser env registration fs) = true
     /\ withoutPassword (Users.loginUser env login fs) = true
     /\ withoutPassword (Users.getAllUsers fs) = true
     /\ withoutPassword (Users.getUserById id fs) = true
     /\ withoutPassword (Users.updateUser env id patch fs) = true)
  /\ sentUsers (Users.getUserById "u1" Sample.files)
     = [[("id", Json.VStr "u1"); ("username", Json.VStr "alice");
         ("email", Json.VStr "a@x.com");
         ("createdAt", Json.VStr "2024-01-01T00:00:00.000Z");
         ("updatedAt", Json.VStr "2024-01-01T00:00:00.000Z")]].
Proof.
  split; [|reflexivity]. intros env registration login id patch fs.
  repeat split.
  - apply PasswordFacts.registerUser_clean.
  - apply PasswordFacts.loginUser_clean.
  - apply PasswordFacts.getAllUsers_clean.
  - apply PasswordFacts.getUserById_clean.
  - apply PasswordFacts.updateUser_clean.
Qed.

(* ===================================================================== *)
(** * Further properties of the code *)
(* ===================================================================== *)

(** ** The email pattern *)

Module EmailFacts.
Import Regex.

(** Unfold the appends whose first argument begins with a constructor. *)
Ltac append_step :=
  repeat match goal with
    | H : context [String.append (String ?c ?a) ?b] |- _ =>
        change (String.append (String c a) b) with (String c (String.append a b)) in H
    | H : context [String.append EmptyString ?b] |- _ =>
        change (String.append EmptyString b) with b in H
    | |- context [String.append (String ?c ?a) ?b] =>
        change (String.append (String c a) b) with (String c (String.append a b))
    | |- context [String.append EmptyString ?b] =>
        change (String.append EmptyString b) with b
    end.

Lemma append_empty s : s ++ "" = s.
Proof. induction s as [|c s IH]; append_step; [reflexivity | now rewrite IH]. Qed.

Lemma star_splits p k s :
  star p k s = true <->
  exists pre rest, s = pre ++ rest /\ allChars p pre = true /\ k rest = true.
Proof.
  induction s as [|c s IH]; cbn [star].
  - rewrite orb_false_r. split.
    + intros H. now exists "", "".
    + intros (pre & rest & Heq & _ & Hk).
      destruct pre; append_step; [|discriminate]. now subst.
  - rewrite orb_true_iff, andb_true_iff, IH. split.
    + intros [Hk | (Hc & pre & rest & -> & Hpre & Hk)].
      * now exists "", (String c s).
      * exists (String c pre), rest. cbn [allChars]. now rewrite Hc, Hpre.
    + intros (pre & rest & Heq & Hpre & Hk). destruct pre as [|d pre]; append_step.
      * left. now subst.
      * right. cbn [allChars] in Hpre. injection Heq as <- ->.
        apply andb_true_iff in Hpre as [Hc Hpre]. split; [assumption|].
        now exists pre, rest.
Qed.

Lemma atLeast_splits n p k s :
  exactly n p (star p k) s = true <->
  exists pre rest,
    s = pre ++ rest /\ (n <= String.length pre)%nat
    /\ allChars p pre = true /\ k rest = true.
Proof.
  revert s. induction n as [|n IH]; intros s.
  - cbn [exactly]. rewrite star_splits. split.
    + intros (pre & rest & H1 & H2 & H3). exists pre, rest. repeat split; auto. lia.
    + intros (pre & rest & H1 & _ & H2 & H3). now exists pre, rest.
  - destruct s as [|c s]; cbn [exactly].
    + split; [discriminate|]. intros (pre & rest & Heq & Hlen & _).
      destruct pre; append_step; cbn [String.length] in Hlen; [lia | discriminate].
    + rewrite andb_true_iff, IH. split.
      * intros (Hc & pre & rest & -> & Hlen & Hpre & Hk).
        exists (String c pre), rest. cbn [allChars String.length].
        rewrite Hc, Hpre. repeat split; auto. lia.
      * intros (pre & rest & Heq & Hlen & Hpre & Hk).
        destruct pre as [|d pre]; append_step; cbn [String.length allChars] in *.
        -- lia.
        -- injection Heq as <- ->.
           apply andb_true_iff in Hpre as [Hc Hpre]. split; [assumption|].
           exists pre, rest. repeat split; auto. lia.
Qed.

Lemma literal_head x k s :
  matchHere (Class (literal x) k) s = true <->
  exists rest, s = String x rest /\ matchHere k rest = true.
Proof.
  destruct s as [|c s]; cbn [matchHere].
  - split; [discriminate | intros (rest & H & _); discriminate].
  - unfold literal. rewrite andb_true_iff, Ascii.eqb_eq. split.
    + intros [-> Hk]. now exists s.
    + intros (rest & [= -> ->] & Hk). now split.
Qed.

Lemma end_of_input s : matchHere (EndOfInput Accept) s = true <-> s = "".
Proof. destruct s; cbn; split; congruence. Qed.

End EmailFacts.

(** X1.  The email validator accepts exactly the strings
    [local @ domain . rest] whose three parts are not empty and hold
    neither white space nor [@]. *)
Theorem isValidEmail_accepts_exactly (email : string) :
  Users.isValidEmail email = true <->
  exists local domain rest,
    email = local ++ "@" ++ domain ++ "." ++ rest
    /\ emailPart local = true /\ emailPart domain = true /\ emailPart rest = true.
Proof.
  unfold Users.isValidEmail, Regex.test, Users.emailRegex, emailPart.
  change (fun c : ascii => negb (Js.isSpace c || Ascii.eqb c "@"))
    with Regex.notSpaceNorAt.
  rewrite RegexFacts.matchHere_AtLeast, EmailFacts.atLeast_splits. split.
  - intros (local & r1 & -> & Hl & Hlocal & H1).
    apply EmailFacts.literal_head in H1 as (r2 & -> & H2).
    rewrite RegexFacts.matchHere_AtLeast in H2.
    apply EmailFacts.atLeast_splits in H2 as (domain & r3 & -> & Hd & Hdomain & H3).
    apply EmailFacts.literal_head in H3 as (r4 & -> & H4).
    rewrite RegexFacts.matchHere_AtLeast in H4.
    apply EmailFacts.atLeast_splits in H4 as (rest & r5 & -> & Hr & Hrest & H5).
    apply EmailFacts.end_of_input in H5 as ->.
    exists local, domain, rest. rewrite Hlocal, Hdomain, Hrest.
    repeat split.
    + now rewrite EmailFacts.append_empty.
    + apply andb_true_iff; split; [now apply Nat.leb_le | reflexivity].
    + apply andb_true_iff; split; [now apply Nat.leb_le | reflexivity].
    + apply andb_true_iff; split; [now apply Nat.leb_le | reflexivity].
  - intros (local & domain & rest & -> & Hlocal & Hdomain & Hrest).
    apply andb_true_iff in Hlocal as [Hl Hlocal].
    apply andb_true_iff in Hdomain as [Hd Hdomain].
    apply andb_true_iff in Hrest as [Hr Hrest].
    apply Nat.leb_le in Hl, Hd, Hr.
    exists local, ("@" ++ domain ++ "." ++ rest). repeat split; auto.
    apply EmailFacts.literal_head. exists (domain ++ "." ++ rest). split; [reflexivity|].
    rewrite RegexFacts.matchHere_AtLeast. apply EmailFacts.atLeast_splits.
    exists domain, ("." ++ rest). repeat split; auto.
    apply EmailFacts.literal_head. exists rest. split; [reflexivity|].
    rewrite RegexFacts.matchHere_AtLeast. apply EmailFacts.atLeast_splits.
    exists rest, "". repeat split; auto. now rewrite EmailFacts.append_empty.
Qed.

(** ** Files that cannot be read *)

Module InitFacts.
Import Js Store Http.

Lemma initializeBooksFile_recovers fs :
  booksFile fs = Missing \/ booksFile fs = Malformed ->
  Books.initializeBooksFile fs =
    (Return tt, putFile BOOKS_FILE_PATH (Holds {| books := [] |}) fs).
Proof.
  intros [H|H]; unfold Books.initializeBooksFile, tryCatch, bind, readJSONFile,
    writeJSONFile; simpl; rewrite H; simpl; rewrite ?H; reflexivity.
Qed.

Lemma initializeUsersFile_recovers fs :
  usersFile fs = Missing \/ usersFile fs = Malformed ->
  Users.initializeUsersFile fs =
    (Return tt, putFile USERS_FILE_PATH (Holds {| users := [] |}) fs).
Proof.
  intros [H|H]; unfold Users.initializeUsersFile, tryCatch, bind, readJSONFile,
    writeJSONFile; simpl; rewrite H; simpl; rewrite ?H; reflexivity.
Qed.

Lemma initializeBooksFile_denied fs :
  booksFile fs = Denied -> Books.initializeBooksFile fs = (Throw EACCES, fs).
Proof.
  intros H; unfold Books.initializeBooksFile, tryCatch, bind, readJSONFile,
    writeJSONFile; simpl; rewrite H; simpl; rewrite ?H; reflexivity.
Qed.

Lemma initializeUsersFile_denied fs :
  usersFile fs = Denied -> Users.initializeUsersFile fs = (Throw EACCES, fs).
Proof.
  intros H; unfold Users.initializeUsersFile, tryCatch, bind, readJSONFile,
    writeJSONFile; simpl; rewrite H; simpl; rewrite ?H; reflexivity.
Qed.

Lemma initializeBooksFile_stranded fs :
  booksFile fs = NoDirectory -> Books.initializeBooksFile fs = (Throw ENOENT, fs).
Proof.
  intros H; unfold Books.initializeBooksFile, tryCatch, bind, readJSONFile,
    writeJSONFile; simpl; rewrite H; simpl; rewrite ?H; reflexivity.
Qed.

Lemma initializeUsersFile_stranded fs :
  usersFile fs = NoDirectory -> Users.initializeUsersFile fs = (Throw ENOENT, fs).
Proof.
  intros H; unfold Users.initializeUsersFile, tryCatch, bind, readJSONFile,
    writeJSONFile; simpl; rewrite H; simpl; rewrite ?H; reflexivity.
Qed.

End InitFacts.

(** X2.  A request that finds the books file (the users file) missing in
    its directory, or holding text that is not JSON, replaces it by the
    empty collection and goes on: the listing answers with a success over
    no book, and list-all-users with a success over no user.  When the
    directory is missing too, the file cannot be created: the listing and
    list-all-users answer with the generic status 500, [registerUser] with
    the status 500 of a file that is not found, and nothing is written. *)
Theorem unreadable_file_becomes_empty_collection :
  (forall (query : Books.Query) (fs : Store.FS),
     Store.booksFile fs = Store.Missing \/ Store.booksFile fs = Store.Malformed ->
     Js.lt (Books.pageNumber query) (Js.Num 1)
     || Js.lt (Books.limitNumber query) (Js.Num 1) = false ->
     Books.getAllBooks query fs =
       (Return (Books.paginate "Books retrieved successfully" []
                  (Books.pageNumber query) (Books.limitNumber query)),
        Store.putFile Store.BOOKS_FILE_PATH (Store.Holds {| books := [] |}) fs))
  /\ (forall fs : Store.FS,
        Store.usersFile fs = Store.Missing \/ Store.usersFile fs = Store.Malformed ->
        Users.getAllUsers fs =
          (Return (Http.json 200 true "Users retrieved successfully"
                     (Http.DataUsers [] 0)),
           Store.putFile Store.USERS_FILE_PATH (Store.Holds {| users := [] |}) fs))
  /\ (forall (env : Users.Env) (registration : Users.RegisterBody)
             (query : Books.Query) (fs : Store.FS),
        Store.usersFile fs = Store.NoDirectory ->
        Store.booksFile fs = Store.NoDirectory ->
        Users.registerUser env registration fs =
          (Return (Http.reply 500 false
                     "Database file not found. Please contact support."), fs)
        /\ Users.getAllUsers fs = (Return Users.internalError, fs)
        /\ Books.getAllBooks query fs = (Return Books.internalError, fs)).
Proof.
  split; [|split].
  - intros query fs Hfile Hguard.
    unfold Books.getAllBooks, Store.tryCatch, Store.bind.
    rewrite (InitFacts.initializeBooksFile_recovers _ Hfile), Hguard.
    unfold Books.applyFilters, Books.applyFilter.
    destruct (Books.q_genre query) as [g|], (Books.q_author query) as [a|],
      (Books.q_title query) as [t|];
      repeat match goal with |- context [Js.truthy ?x] => destruct (Js.truthy x) end;
      reflexivity.
  - intros fs Hfile.
    unfold Users.getAllUsers, Store.tryCatch, Store.bind.
    now rewrite (InitFacts.initializeUsersFile_recovers _ Hfile).
  - intros env registration query fs Husers Hbooks.
    unfold Users.registerUser, Users.getAllUsers, Books.getAllBooks,
      Store.tryCatch, Store.bind.
    rewrite (InitFacts.initializeUsersFile_stranded _ Husers),
      (InitFacts.initializeBooksFile_stranded _ Hbooks).
    repeat split.
Qed.

Lemma unreadable_file_becomes_empty_collection_witness :
  Books.getAllBooks Sample.firstPage SampleFiles.corrupted =
    (Return (Books.paginate "Books retrieved successfully" [] (Js.Num 1) (Js.Num 2)),
     SampleUsers.fresh)
  /\ Users.getAllUsers SampleFiles.lost =
       (Return (Http.json 200 true "Users retrieved successfully"
                  (Http.DataUsers [] 0)),
        SampleUsers.fresh)
  /\ Users.registerUser Sample.userEnv SampleUsers.first SampleFiles.uncreated =
       (Return (Http.reply 500 false
                  "Database file not found. Please contact support."),
        SampleFiles.uncreated).
Proof.
  destruct unreadable_file_becomes_empty_collection as (Hbooks & Husers & Hnone).
  split; [|split].
  - rewrite (Hbooks Sample.firstPage SampleFiles.corrupted (or_intror eq_refl) eq_refl).
    reflexivity.
  - rewrite (Husers SampleFiles.lost (or_introl eq_refl)). reflexivity.
  - apply (Hnone Sample.userEnv SampleUsers.first Sample.firstPage
             SampleFiles.uncreated eq_refl eq_refl).
Defined.

(** X3.  When a file cannot be accessed, every handler that works on it
    answers with status 500 and leaves the files as they were; the answer
    of [registerUser] names the access, the others are generic. *)
Theorem inaccessible_file_is_a_server_error :
  (forall (env : Users.Env) (registration : Users.RegisterBody)
          (login : Users.LoginBody) (id : string) (patch : Users.UpdateBody)
          (fs : Store.FS),
     Store.usersFile fs = Store.Denied ->
     Users.registerUser env registration fs =
       (Return (Http.reply 500 false "Database access denied. Please contact support."),
        fs)
     /\ Users.loginUser env login fs = (Return Users.internalError, fs)
     /\ Users.getAllUsers fs = (Return Users.internalError, fs)
     /\ Users.getUserById id fs = (Return Users.internalError, fs)
     /\ Users.updateUser env id patch fs = (Return Users.internalError, fs)
     /\ Users.deleteUser id fs = (Return Users.internalError, fs))
  /\ (forall (env : Books.Env) (query : Books.Query) (genre id uuid : string)
             (added : Books.AddBody) (patch : Books.UpdateBody)
             (user : option Books.AuthUser) (fs : Store.FS),
        Store.booksFile fs = Store.Denied ->
        Books.getAllBooks query fs = (Return Books.internalError, fs)
        /\ Books.searchBooksByGenre genre query fs = (Return Books.internalError, fs)
        /\ Books.getBookById id fs = (Return Books.internalError, fs)
        /\ Books.addBook env uuid added user fs = (Return Books.internalError, fs)
        /\ Books.updateBook env id patch user fs = (Return Books.internalError, fs)
        /\ Books.deleteBook id user fs = (Return Books.internalError, fs)).
Proof.
  split.
  - intros env registration login id patch fs Hfile.
    unfold Users.registerUser, Users.loginUser, Users.getAllUsers, Users.getUserById,
      Users.updateUser, Users.deleteUser, Store.tryCatch, Store.bind.
    rewrite (InitFacts.initializeUsersFile_denied _ Hfile). repeat split.
  - intros env query genre id uuid added patch user fs Hfile.
    unfold Books.getAllBooks, Books.searchBooksByGenre, Books.getBookById,
      Books.addBook, Books.updateBook, Books.deleteBook, Store.tryCatch, Store.bind.
    rewrite (InitFacts.initializeBooksFile_denied _ Hfile). repeat split.
Qed.

Lemma inaccessible_file_is_a_server_error_witness :
  Store.usersFile SampleFiles.locked = Store.Denied
  /\ Store.booksFile SampleFiles.locked = Store.Denied
  /\ Users.registerUser Sample.userEnv SampleUsers.first SampleFiles.locked =
       (Return (Http.reply 500 false "Database access denied. Please contact support."),
        SampleFiles.locked)
  /\ Books.getAllBooks Sample.firstPage SampleFiles.locked =
       (Return Books.internalError, SampleFiles.locked).
Proof.
  destruct inaccessible_file_is_a_server_error as [Husers Hbooks].
  split; [reflexivity|]. split; [reflexivity|]. split.
  - apply (Husers Sample.userEnv SampleUsers.first
             {| Users.login_email := None; Users.login_password := None |}
             "u1" SamplePatch.newEmail SampleFiles.locked eq_refl).
  - apply (Hbooks Sample.bookEnv Sample.firstPage "fiction" "b1" "b9"
             SampleBooks.added Sample.retitle None SampleFiles.locked eq_refl).
Defined.

(** ** Looking up, adding and deleting books *)

Module BookFacts.
Import Js Store Http.

Lemma getBookById_run id fs bd :
  booksFile fs = Holds bd -> id <> "" ->
  Books.getBookById id fs =
    (Return
       match find (fun b => strictEq (Book.id b) id) (books bd) with
       | None => reply 404 false "Book not found"
       | Some book => json 200 true "Book retrieved successfully" (DataBook book)
       end, fs).
Proof.
  intros Hfile Hid. unfold Books.getBookById, tryCatch, bind.
  rewrite (Run.initializeBooksFile_holds _ _ Hfile),
    (ArrayFacts.truthy_nonempty _ Hid). cbn [negb].
  rewrite (Run.readBooks_holds _ _ Hfile).
  now destruct (find _ (books bd)).
Qed.

Lemma find_none {A} (p : A -> bool) (arr : list A) :
  find p arr = None <-> forall x, In x arr -> p x = false.
Proof.
  unfold find. split.
  - intros H x Hin. now apply (find_none p arr H).
  - intros H. induction arr as [|a arr IH]; [reflexivity|]. cbn.
    rewrite (H a (or_introl eq_refl)). apply IH. intros x Hx. apply H. now right.
Qed.

Lemma find_some {A} (p : A -> bool) (arr : list A) (x : A) :
  find p arr = Some x -> In x arr /\ p x = true.
Proof. unfold find. apply List.find_some. Qed.

(** The first element with a property that no earlier element has. *)
Lemma find_app_fresh {A} (p : A -> bool) (arr : list A) (x : A) :
  (forall y, In y arr -> p y = false) -> p x = true ->
  find p (arr ++ [x]) = Some x.
Proof.
  intros Hnone Hx. unfold find.
  induction arr as [|a arr IH]; cbn.
  - now rewrite Hx.
  - rewrite (Hnone a (or_introl eq_refl)). apply IH.
    intros y Hy. apply Hnone. now right.
Qed.

Lemma strictEq_refl s : strictEq s s = true.
Proof. apply String.eqb_refl. Qed.

Lemma writeBooks_holds fs bd content :
  booksFile fs = Holds bd ->
  writeJSONFile BOOKS_FILE_PATH content fs =
    (Return tt, putFile BOOKS_FILE_PATH (Holds content) fs).
Proof. intros H. unfold writeJSONFile. cbn [fileAt]. now rewrite H. Qed.

Lemma writeUsers_holds fs ud content :
  usersFile fs = Holds ud ->
  writeJSONFile USERS_FILE_PATH content fs =
    (Return tt, putFile USERS_FILE_PATH (Holds content) fs).
Proof. intros H. unfold writeJSONFile. cbn [fileAt]. now rewrite H. Qed.

Lemma outOfRange_false x lo hi :
  (lo <=? Books.length (trim x)) = true ->
  (Books.length (trim x) <=? hi) = true ->
  Books.outOfRange x lo hi = false.
Proof.
  intros H1 H2. apply Z.leb_le in H1, H2. unfold Books.outOfRange.
  rewrite Z.gtb_ltb. apply orb_false_iff. split; apply Z.ltb_ge; lia.
Qed.

Lemma addBook_stores env uuid body caller fs bd :
  booksFile fs = Holds bd ->
  Books.auth_userId caller <> "" ->
  acceptsNewBook env body = true ->
  Books.addBook env uuid body (Some caller) fs =
    (Return (json 201 true "Book added successfully"
               (DataBook (newBook uuid (Books.auth_userId caller) body))),
     putFile BOOKS_FILE_PATH
       (Holds {| books := books bd ++ [newBook uuid (Books.auth_userId caller) body] |})
       fs).
Proof.
  intros Hfile Hcaller Hacc. unfold acceptsNewBook, newBook in *.
  unfold Books.addBook, tryCatch, bind.
  rewrite (Run.initializeBooksFile_holds _ _ Hfile).
  destruct (Books.add_title body) as [title|]; [|discriminate].
  destruct (Books.add_author body) as [author|]; [|discriminate].
  destruct (Books.add_genre body) as [genre|]; [|discriminate].
  destruct (Books.add_publishedYear body) as [[year|text]|]; try discriminate.
  repeat (apply andb_true_iff in Hacc as [Hacc ?]).
  match goal with H : negb (year =? 0) = true |- _ => rename H into Hyear end.
  unfold gt. cbn [Books.yearTruthy Books.yearToNumber Books.yearParseInt lt].
  unfold truthyNum. rewrite Hacc, Hyear.
  repeat match goal with H : truthy _ = true |- _ => rewrite H; clear H end.
  cbn [negb orb fmap option_fmap option_map].
  rewrite (ArrayFacts.truthy_nonempty _ Hcaller). cbn [negb].
  assert (Hrange : (year <? 1000) || (Books.getFullYear env <? year) = false).
  { apply orb_false_iff.
    split; apply Z.ltb_ge; [apply Z.leb_le | apply Z.leb_le]; assumption. }
  rewrite Hrange, !outOfRange_false by assumption.
  rewrite (Run.readBooks_holds _ _ Hfile), DigitFacts.parseInt_numberToString.
  cbv zeta. rewrite (writeBooks_holds _ bd) by assumption. reflexivity.
Qed.

Lemma deleteBook_removes id caller fs bd i current :
  booksFile fs = Holds bd -> id <> "" -> Books.auth_userId caller <> "" ->
  findIndex (fun b => strictEq (Book.id b) id) (books bd) = Some i ->
  books bd !! i = Some current ->
  Book.userId current = Books.auth_userId caller ->
  Books.deleteBook id (Some caller) fs =
    (Return (reply 200 true "Book deleted successfully"),
     putFile BOOKS_FILE_PATH (Holds {| books := delete i (books bd) |}) fs).
Proof.
  intros Hfile Hid Hcaller Hi Hlook Howner.
  unfold Books.deleteBook, tryCatch, bind.
  rewrite (Run.initializeBooksFile_holds _ _ Hfile),
    (ArrayFacts.truthy_nonempty _ Hid). cbn [negb fmap option_fmap option_map].
  rewrite (ArrayFacts.truthy_nonempty _ Hcaller). cbn [negb].
  rewrite (Run.readBooks_holds _ _ Hfile), Hi, Hlook.
  rewrite (proj2 (ArrayFacts.strictEq_true _ _) Howner). cbn [negb].
  cbv zeta. unfold splice1. rewrite (writeBooks_holds _ bd) by assumption. reflexivity.
Qed.

(** After [putFile], the books file holds the document put. *)
Lemma booksFile_put fs content :
  booksFile (putFile BOOKS_FILE_PATH (Holds content) fs) = Holds content.
Proof. reflexivity. Qed.

End BookFacts.

(** X4.  Over a readable books file, get-book-by-id never changes the
    files; it answers 404 when no stored book has the identifier, and
    otherwise 200 with a stored book that has it. *)
Theorem getBookById_finds_stored_ids
    (id : string) (fs : Store.FS) (bd : BookData)
    (Hfile : Store.booksFile fs = Store.Holds bd) (Hid : id <> "") :
  snd (Books.getBookById id fs) = fs
  /\ ((forall b, In b (books bd) -> Book.id b <> id) ->
      fst (Books.getBookById id fs) = Return (Http.reply 404 false "Book not found"))
  /\ ((exists b, In b (books bd) /\ Book.id b = id) ->
      exists b,
        fst (Books.getBookById id fs)
        = Return (Http.json 200 true "Book retrieved successfully" (Http.DataBook b))
        /\ In b (books bd) /\ Book.id b = id).
Proof.
  rewrite (BookFacts.getBookById_run _ _ _ Hfile Hid). cbn [fst snd].
  split; [reflexivity|]. split.
  - intros Hnone.
    assert (Js.find (fun b => Js.strictEq (Book.id b) id) (books bd) = None) as ->;
      [|reflexivity].
    apply BookFacts.find_none. intros b Hb.
    now apply ArrayFacts.strictEq_false, Hnone.
  - intros (b & Hb & Hidb).
    destruct (Js.find (fun b => Js.strictEq (Book.id b) id) (books bd)) as [found|] eqn:E.
    + apply BookFacts.find_some in E as [Hin Heq].
      apply ArrayFacts.strictEq_true in Heq. now exists found.
    + exfalso. pose proof (proj1 (BookFacts.find_none _ _) E b Hb) as Hf.
      cbn in Hf. rewrite Hidb, BookFacts.strictEq_refl in Hf. discriminate.
Qed.

Lemma getBookById_finds_stored_ids_witness :
  Books.getBookById "b2" Sample.files
    = (Return (Http.json 200 true "Book retrieved successfully"
                 (Http.DataBook Sample.emma)), Sample.files)
  /\ Books.getBookById "b7" Sample.files
     = (Return (Http.reply 404 false "Book not found"), Sample.files).
Proof.
  destruct (getBookById_finds_stored_ids "b7" Sample.files Sample.library eq_refl
              ltac:(discriminate)) as (Hfiles & Hnone & _).
  split; [reflexivity|].
  rewrite (surjective_pairing (Books.getBookById "b7" Sample.files)), Hfiles, Hnone;
    [reflexivity|].
  intros b [<-|[<-|[<-|[]]]]; discriminate.
Defined.

(** X5.  An add-book request of an authenticated caller that passes the
    validation, with an integer as its year, answers 201 and appends one
    record to the stored list, whatever the list holds: the record has the
    identifier drawn for it, the caller as owner, the trimmed title, author
    and genre within the length bounds, and the year of the request; the
    users file is untouched.  When the identifier is not empty and no
    stored book has it, get-book-by-id then returns this record. *)
Theorem added_book_is_stored_and_found
    (env : Books.Env) (uuid : string) (body : Books.AddBody)
    (caller : Books.AuthUser) (fs : Store.FS) (bd : BookData)
    (Hfile : Store.booksFile fs = Store.Holds bd)
    (Hcaller : Books.auth_userId caller <> "")
    (Haccepts : acceptsNewBook env body = true) :
  exists fs',
    Books.addBook env uuid body (Some caller) fs =
      (Return (Http.json 201 true "Book added successfully"
                 (Http.DataBook (newBook uuid (Books.auth_userId caller) body))),
       fs')
    /\ Store.booksFile fs'
       = Store.Holds
           {| books := books bd ++ [newBook uuid (Books.auth_userId caller) body] |}
    /\ Store.usersFile fs' = Store.usersFile fs
    /\ withinLengths (newBook uuid (Books.auth_userId caller) body)
    /\ (uuid <> "" ->
        (forall b, In b (books bd) -> Book.id b <> uuid) ->
        Books.getBookById uuid fs' =
          (Return (Http.json 200 true "Book retrieved successfully"
                     (Http.DataBook (newBook uuid (Books.auth_userId caller) body))),
           fs')).
Proof.
  eexists. split;
    [exact (BookFacts.addBook_stores env uuid body caller fs bd Hfile Hcaller Haccepts)|].
  split; [reflexivity|]. split; [reflexivity|]. split.
  - unfold acceptsNewBook in Haccepts. unfold withinLengths, newBook.
    destruct (Books.add_title body) as [title|]; [|discriminate].
    destruct (Books.add_author body) as [author|]; [|discriminate].
    destruct (Books.add_genre body) as [genre|]; [|discriminate].
    destruct (Books.add_publishedYear body) as [[year|text]|]; try discriminate.
    repeat (apply andb_true_iff in Haccepts as [Haccepts ?]).
    repeat match goal with H : (_ <=? _) = true |- _ => apply Z.leb_le in H end.
    cbn [Book.title Book.author Book.genre]. cbv [default from_option id]. lia.
  - intros Huuid Hfresh.
    rewrite (BookFacts.getBookById_run _ _ _ (BookFacts.booksFile_put _ _) Huuid).
    cbn [books]. rewrite BookFacts.find_app_fresh; [reflexivity| |].
    + intros b Hb. now apply ArrayFacts.strictEq_false, Hfresh.
    + apply BookFacts.strictEq_refl.
Qed.

Lemma added_book_is_stored_and_found_witness :
  acceptsNewBook Sample.bookEnv SampleBooks.added = true
  /\ newBook "b9" "u1" SampleBooks.added = SampleBooks.persuasion
  /\ Store.booksFile
       (snd (Books.addBook Sample.bookEnv "b9" SampleBooks.added
               (Some Sample.aliceToken) Sample.files))
     = Store.Holds
         {| books := [Sample.dune; Sample.emma; Sample.hamlet; SampleBooks.persuasion] |}
  /\ Store.booksFile
       (snd (Books.addBook Sample.bookEnv "b1" SampleBooks.added
               (Some Sample.aliceToken) Sample.files))
     = Store.Holds
         {| books := [Sample.dune; Sample.emma; Sample.hamlet;
                      newBook "b1" "u1" SampleBooks.added] |}.
Proof.
  split; [reflexivity|]. split; [reflexivity|]. split.
  - destruct (added_book_is_stored_and_found Sample.bookEnv "b9" SampleBooks.added
                Sample.aliceToken Sample.files Sample.library eq_refl
                ltac:(discriminate) eq_refl)
      as (fs' & Hadd & Hbooks & _).
    rewrite Hadd. cbn [snd]. rewrite Hbooks. reflexivity.
  - destruct (added_book_is_stored_and_found Sample.bookEnv "b1" SampleBooks.added
                Sample.aliceToken Sample.files Sample.library eq_refl
                ltac:(discriminate) eq_refl)
      as (fs' & Hadd & Hbooks & _).
    rewrite Hadd. cbn [snd]. rewrite Hbooks. reflexivity.
Defined.



(** ** Deleting *)

Module DeleteFacts.
Import Js Store Http.

Lemma In_delete {A} (l : list A) (i : nat) (x : A) :
  In x (delete i l) -> exists j, j <> i /\ l !! j = Some x.
Proof.
  intros Hin. apply list_elem_of_In, list_elem_of_lookup in Hin as [k Hk].
  destruct (Nat.lt_ge_cases k i) as [Hlt|Hge].
  - rewrite list_lookup_delete_lt in Hk by assumption. exists k. split; [lia|assumption].
  - rewrite list_lookup_delete_ge in Hk by assumption. exists (S k). split; [lia|assumption].
Qed.

Lemma deleteUser_removes id fs ud i :
  usersFile fs = Holds ud -> id <> "" ->
  findIndex (fun u => strictEq (User.id u) id) (users ud) = Some i ->
  Users.deleteUser id fs =
    (Return (reply 200 true "User deleted successfully"),
     putFile USERS_FILE_PATH (Holds {| users := delete i (users ud) |}) fs).
Proof.
  intros Hfile Hid Hi. unfold Users.deleteUser, tryCatch, bind.
  rewrite (Run.initializeUsersFile_holds _ _ Hfile),
    (ArrayFacts.truthy_nonempty _ Hid). cbn [negb].
  rewrite (Run.readUsers_holds _ _ Hfile), Hi. cbv zeta. unfold splice1.
  rewrite (BookFacts.writeUsers_holds _ ud) by assumption. reflexivity.
Qed.

Lemma getUserById_run id fs ud :
  usersFile fs = Holds ud -> id <> "" ->
  Users.getUserById id fs =
    (Return
       match find (fun u => strictEq (User.id u) id) (users ud) with
       | None => reply 404 false "User not found"
       | Some user =>
           json 200 true "User retrieved successfully"
                (DataUser (Users.userWithoutPassword user))
       end, fs).
Proof.
  intros Hfile Hid. unfold Users.getUserById, tryCatch, bind.
  rewrite (Run.initializeUsersFile_holds _ _ Hfile),
    (ArrayFacts.truthy_nonempty _ Hid). cbn [negb].
  rewrite (Run.readUsers_holds _ _ Hfile).
  now destruct (find _ (users ud)).
Qed.

Lemma findIndex_none {A} (p : A -> bool) (arr : list A) :
  (forall x, In x arr -> p x = false) -> findIndex p arr = None.
Proof.
  induction arr as [|a arr IH]; intros H; [reflexivity|]. cbn [findIndex].
  rewrite (H a (or_introl eq_refl)), IH; [reflexivity|].
  intros x Hx. apply H. now right.
Qed.

Lemma usersFile_put fs content :
  usersFile (putFile USERS_FILE_PATH (Holds content) fs) = Holds content.
Proof. reflexivity. Qed.

End DeleteFacts.

(** X7.  A delete request of the owner of the first stored book with the
    identifier answers 200 and writes the stored list without this one
    element, every other record staying in its order, also a later book
    with the same identifier; the users file is untouched.  When no other
    stored book has the identifier, get-book-by-id then answers 404. *)
Theorem deleted_book_is_gone
    (id : string) (caller : Books.AuthUser) (fs : Store.FS) (bd : BookData)
    (i : nat) (current : Book.t)
    (Hfile : Store.booksFile fs = Store.Holds bd)
    (Hid : id <> "")
    (Hcaller : Books.auth_userId caller <> "")
    (Hindex : Js.findIndex (fun b => Js.strictEq (Book.id b) id) (books bd) = Some i)
    (Hcurrent : books bd !! i = Some current)
    (Howner : Book.userId current = Books.auth_userId caller) :
  exists fs',
    Books.deleteBook id (Some caller) fs =
      (Return (Http.reply 200 true "Book deleted successfully"), fs')
    /\ Store.booksFile fs' = Store.Holds {| books := delete i (books bd) |}
    /\ Store.usersFile fs' = Store.usersFile fs
    /\ ((forall j b, books bd !! j = Some b -> j <> i -> Book.id b <> id) ->
        Books.getBookById id fs' =
          (Return (Http.reply 404 false "Book not found"), fs')).
Proof.
  eexists. split;
    [exact (BookFacts.deleteBook_removes id caller fs bd i current
              Hfile Hid Hcaller Hindex Hcurrent Howner)|].
  split; [reflexivity|]. split; [reflexivity|]. intros Hunique.
  rewrite (BookFacts.getBookById_run _ _ _ (BookFacts.booksFile_put _ _) Hid).
  cbn [books].
  assert (Js.find (fun b => Js.strictEq (Book.id b) id) (delete i (books bd)) = None)
    as ->; [|reflexivity].
  apply BookFacts.find_none. intros b Hb.
  apply DeleteFacts.In_delete in Hb as (j & Hj & Hlook).
  apply ArrayFacts.strictEq_false. now apply (Hunique j).
Qed.

Lemma deleted_book_is_gone_witness :
  Js.findIndex (fun b => Js.strictEq (Book.id b) "b2") (books Sample.library)
    = Some 1%nat
  /\ Store.booksFile (snd (Books.deleteBook "b2" (Some SampleBooks.emmaOwner) Sample.files))
     = Store.Holds {| books := [Sample.dune; Sample.hamlet] |}
  /\ Store.booksFile
       (snd (Books.deleteBook "b2" (Some SampleBooks.emmaOwner) SampleBooks.twice))
     = Store.Holds {| books := [Sample.dune; Sample.emma] |}.
Proof.
  split; [reflexivity|]. split.
  - destruct (deleted_book_is_gone "b2" SampleBooks.emmaOwner Sample.files
                Sample.library 1%nat Sample.emma eq_refl ltac:(discriminate)
                ltac:(discriminate) eq_refl eq_refl eq_refl)
      as (fs' & Hdelete & Hbooks & _).
    rewrite Hdelete. exact Hbooks.
  - destruct (deleted_book_is_gone "b2" SampleBooks.emmaOwner SampleBooks.twice
                {| books := [Sample.dune; Sample.emma; Sample.emma] |} 1%nat
                Sample.emma eq_refl ltac:(discriminate) ltac:(discriminate)
                eq_refl eq_refl eq_refl)
      as (fs' & Hdelete & Hbooks & _).
    rewrite Hdelete. exact Hbooks.
Defined.

(** X8.  Deleting a user answers 404, without changing the files, when no
    stored user has the identifier.  Otherwise it answers 200 and writes
    the stored list without the first user that has it; the books file is
    untouched, so that the books of the user stay.  When no other stored
    user has the identifier, get-user-by-id then answers 404. *)
Theorem deleted_user_is_gone
    (id : string) (fs : Store.FS) (ud : UserData)
    (Hfile : Store.usersFile fs = Store.Holds ud) (Hid : id <> "") :
  ((forall u, In u (users ud) -> User.id u <> id) ->
   Users.deleteUser id fs = (Return (Http.reply 404 false "User not found"), fs))
  /\ (forall i,
        Js.findIndex (fun u => Js.strictEq (User.id u) id) (users ud) = Some i ->
        exists fs',
          Users.deleteUser id fs =
            (Return (Http.reply 200 true "User deleted successfully"), fs')
          /\ Store.usersFile fs' = Store.Holds {| users := delete i (users ud) |}
          /\ Store.booksFile fs' = Store.booksFile fs
          /\ ((forall j u, users ud !! j = Some u -> j <> i -> User.id u <> id) ->
              Users.getUserById id fs' =
                (Return (Http.reply 404 false "User not found"), fs'))).
Proof.
  split.
  - intros Hnone. unfold Users.deleteUser, Store.tryCatch, Store.bind.
    rewrite (Run.initializeUsersFile_holds _ _ Hfile),
      (ArrayFacts.truthy_nonempty _ Hid). cbn [negb].
    rewrite (Run.readUsers_holds _ _ Hfile), DeleteFacts.findIndex_none; [reflexivity|].
    intros u Hu. now apply ArrayFacts.strictEq_false, Hnone.
  - intros i Hi. eexists. split;
      [exact (DeleteFacts.deleteUser_removes id fs ud i Hfile Hid Hi)|].
    split; [reflexivity|]. split; [reflexivity|]. intros Hunique.
    rewrite (DeleteFacts.getUserById_run _ _ _ (DeleteFacts.usersFile_put _ _) Hid).
    cbn [users].
    assert (Js.find (fun u => Js.strictEq (User.id u) id) (delete i (users ud)) = None)
      as ->; [|reflexivity].
    apply BookFacts.find_none. intros u Hu.
    apply DeleteFacts.In_delete in Hu as (j & Hj & Hlook).
    apply ArrayFacts.strictEq_false. now apply (Hunique j).
Qed.

Lemma deleted_user_is_gone_witness :
  Users.deleteUser "u1" Sample.files =
    (Return (Http.reply 200 true "User deleted successfully"),
     {| Store.usersFile := Store.Holds {| users := [] |};
        Store.booksFile := Store.Holds Sample.library |})
  /\ Users.deleteUser "u7" Sample.files =
       (Return (Http.reply 404 false "User not found"), Sample.files).
Proof.
  destruct (deleted_user_is_gone "u1" Sample.files Sample.members eq_refl
              ltac:(discriminate)) as [_ Hfound].
  destruct (Hfound 0%nat eq_refl) as (fs' & Hdelete & _).
  split; [reflexivity|].
  apply (deleted_user_is_gone "u7" Sample.files Sample.members eq_refl
           ltac:(discriminate)).
  intros u [<-|[]]. discriminate.
Defined.

(** ** Lower case and white space *)

Module TrimFacts.
Import Js.

Lemma toLowerChar_idem c : toLowerChar (toLowerChar c) = toLowerChar c.
Proof.
  apply Ascii.eqb_eq. revert c. apply CaseFacts.forall_ascii. vm_compute. reflexivity.
Qed.

Lemma toLowerCase_idem s : toLowerCase (toLowerCase s) = toLowerCase s.
Proof.
  induction s as [|c s IH]; [reflexivity|]. cbn [toLowerCase].
  now rewrite toLowerChar_idem, IH.
Qed.

Lemma isSpace_toLowerChar c : isSpace (toLowerChar c) = isSpace c.
Proof.
  apply Bool.eqb_prop. revert c. apply CaseFacts.forall_ascii. vm_compute. reflexivity.
Qed.

Lemma spaceless_toLowerCase s : spaceless (toLowerCase s) = spaceless s.
Proof.
  unfold spaceless. induction s as [|c s IH]; [reflexivity|].
  cbn [toLowerCase allChars]. now rewrite isSpace_toLowerChar, IH.
Qed.

Lemma trimEnd_spaceless s : spaceless s = true -> trimEnd s = s.
Proof.
  unfold spaceless. induction s as [|c s IH]; [reflexivity|].
  cbn [allChars trimEnd]. intros H. apply andb_true_iff in H as [Hc Hs].
  rewrite (IH Hs). apply negb_true_iff in Hc. rewrite Hc. now destruct s.
Qed.

Lemma trim_spaceless s : spaceless s = true -> trim s = s.
Proof.
  intros H. unfold trim.
  assert (trimStart s = s) as ->; [|now apply trimEnd_spaceless].
  destruct s as [|c s]; [reflexivity|]. cbn [trimStart].
  unfold spaceless in H. cbn [allChars] in H. apply andb_true_iff in H as [Hc _].
  apply negb_true_iff in Hc. now rewrite Hc.
Qed.

Lemma allChars_append p a b :
  allChars p (a ++ b) = allChars p a && allChars p b.
Proof.
  induction a as [|c a IH]; EmailFacts.append_step; [reflexivity|].
  cbn [allChars]. now rewrite IH, andb_assoc.
Qed.

Lemma notSpaceNorAt_spaceless s :
  allChars Regex.notSpaceNorAt s = true -> spaceless s = true.
Proof.
  apply RegexFacts.allChars_impl. intros c. unfold Regex.notSpaceNorAt.
  now destruct (isSpace c).
Qed.

(** An email that passes the pattern holds no white space. *)
Lemma valid_email_spaceless email :
  Users.isValidEmail email = true -> spaceless email = true.
Proof.
  unfold Users.isValidEmail, Regex.test, Users.emailRegex.
  rewrite RegexFacts.matchHere_AtLeast. intros H.
  apply EmailFacts.atLeast_splits in H as (local & r1 & -> & _ & Hlocal & H1).
  apply EmailFacts.literal_head in H1 as (r2 & -> & H2).
  rewrite RegexFacts.matchHere_AtLeast in H2.
  apply EmailFacts.atLeast_splits in H2 as (domain & r3 & -> & _ & Hdomain & H3).
  apply EmailFacts.literal_head in H3 as (r4 & -> & H4).
  rewrite RegexFacts.matchHere_AtLeast in H4.
  apply EmailFacts.atLeast_splits in H4 as (rest & r5 & -> & _ & Hrest & H5).
  apply EmailFacts.end_of_input in H5 as ->.
  unfold spaceless. rewrite allChars_append. cbn [allChars].
  rewrite allChars_append. cbn [allChars]. rewrite allChars_append. cbn [allChars].
  fold (spaceless local) (spaceless domain) (spaceless rest).
  now rewrite !notSpaceNorAt_spaceless.
Qed.

End TrimFacts.

(** ** Registering and logging in *)

Module AccountFacts.
Import Js Store Http.

(** The test of [registerUser], as the vocabulary says it. *)
Lemma check_takes body u username email :
  Users.reg_username body = Some username ->
  Users.reg_email body = Some email ->
  truthy username = true -> truthy email = true ->
  strictEq (toLowerCase (User.email u)) (toLowerCase email)
  || strictEq (toLowerCase (User.username u)) (toLowerCase username)
  = nonEmptyHolds (Users.reg_email body) (equalIgnoringCase (User.email u))
    || nonEmptyHolds (Users.reg_username body) (equalIgnoringCase (User.username u)).
Proof.
  intros -> -> Hu He. rewrite <- !CaseFacts.equalIgnoringCase_lower.
  destruct username, email; try discriminate. reflexivity.
Qed.

Lemma registerUser_succeeds env body fs ud :
  usersFile fs = Holds ud ->
  passesValidation body = true ->
  unseen body (users ud) ->
  Users.registerUser env body fs =
    (Return (json 201 true "User registered successfully"
               (DataUser (Users.userWithoutPassword (registered env body)))),
     putFile USERS_FILE_PATH
       (Holds {| users := users ud ++ [registered env body] |}) fs).
Proof.
  intros Hfile Hvalid Hunseen. unfold passesValidation, registered in *.
  assert (Hcheck : forall username email,
            Users.reg_username body = Some username ->
            Users.reg_email body = Some email ->
            truthy username = true -> truthy email = true ->
            find (fun user =>
                    strictEq (toLowerCase (User.email user)) (toLowerCase email)
                    || strictEq (toLowerCase (User.username user)) (toLowerCase username))
                 (users ud) = None).
  { intros username email Hu He Htu Hte. apply BookFacts.find_none. intros u Hin.
    rewrite (check_takes body u username email Hu He Htu Hte).
    destruct (Hunseen u Hin) as [-> ->]. reflexivity. }
  unfold Users.registerUser, tryCatch, bind.
  rewrite (Run.initializeUsersFile_holds _ _ Hfile).
  destruct (Users.reg_username body) as [username|]; [|discriminate].
  destruct (Users.reg_email body) as [email|]; [|discriminate].
  destruct (Users.reg_password body) as [password|]; [|discriminate].
  repeat (apply andb_true_iff in Hvalid as [Hvalid ?]).
  specialize (Hcheck username email eq_refl eq_refl).
  repeat match goal with
    | H : truthy _ = true |- _ => rewrite H
    | H : Users.isValidEmail _ = true |- _ => rewrite H
    | H : Users.isValidPassword _ = true |- _ => rewrite H
    end.
  cbn [negb orb].
  assert (Hlen : (Users.length username <? 3) || (Users.length username >? 20) = false).
  { rewrite Z.gtb_ltb. apply orb_false_iff.
    split; apply Z.ltb_ge; apply Z.leb_le; assumption. }
  rewrite Hlen, (Run.readUsers_holds _ _ Hfile). cbv zeta.
  rewrite Hcheck by assumption.
  rewrite (BookFacts.writeUsers_holds _ ud) by assumption. reflexivity.
Qed.

(** Apart from a success, [registerUser] writes nothing. *)
Lemma registerUser_files env body fs ud :
  usersFile fs = Holds ud ->
  snd (Users.registerUser env body fs) = fs
  \/ (passesValidation body = true
      /\ (forall u, In u (users ud) ->
            nonEmptyHolds (Users.reg_email body) (equalIgnoringCase (User.email u))
            = false)
      /\ snd (Users.registerUser env body fs) =
           putFile USERS_FILE_PATH
             (Holds {| users := users ud ++ [registered env body] |}) fs).
Proof.
  intros Hfile. unfold passesValidation, registered.
  unfold Users.registerUser, tryCatch, bind.
  rewrite (Run.initializeUsersFile_holds _ _ Hfile).
  destruct (Users.reg_username body) as [username|] eqn:Hu; [|now left].
  destruct (Users.reg_email body) as [email|] eqn:He; [|now left].
  destruct (Users.reg_password body) as [password|] eqn:Hp; [|now left].
  destruct (truthy username) eqn:Htu; [|now left].
  destruct (truthy email) eqn:Hte; [|now left].
  destruct (truthy password); [|now left].
  destruct (Users.isValidEmail email); [|now left].
  destruct (Users.isValidPassword password); [|now left].
  cbn [negb orb andb]. rewrite Z.gtb_ltb.
  destruct (Z.ltb_spec (Users.length username) 3); [now left|].
  destruct (Z.ltb_spec 20 (Users.length username)); [now left|].
  cbn [orb]. rewrite (Run.readUsers_holds _ _ Hfile).
  destruct (find _ (users ud)) as [found|] eqn:Hfind; [now left|].
  right. split; [|split].
  - apply andb_true_iff. split; apply Z.leb_le; lia.
  - intros u Hin. pose proof (proj1 (BookFacts.find_none _ _) Hfind u Hin) as Hnone.
    cbn beta in Hnone.
    rewrite (check_takes body u username email Hu He Htu Hte) in Hnone.
    apply orb_false_iff in Hnone as [Hnone _]. now rewrite He in Hnone.
  - cbv zeta. rewrite (BookFacts.writeUsers_holds _ ud) by assumption. reflexivity.
Qed.

Lemma equalIgnoringCase_sym a b : equalIgnoringCase a b = equalIgnoringCase b a.
Proof.
  rewrite !CaseFacts.equalIgnoringCase_lower. unfold strictEq. apply String.eqb_sym.
Qed.

(** The stored email of a valid request is the request's email in lower
    case. *)
Lemma stored_email email :
  Users.isValidEmail email = true -> trim (toLowerCase email) = toLowerCase email.
Proof.
  intros H. apply TrimFacts.trim_spaceless.
  rewrite TrimFacts.spaceless_toLowerCase. now apply TrimFacts.valid_email_spaceless.
Qed.

Lemma valid_email body :
  passesValidation body = true ->
  exists email, Users.reg_email body = Some email
                /\ email <> "" /\ Users.isValidEmail email = true.
Proof.
  unfold passesValidation.
  destruct (Users.reg_username body); [|discriminate].
  destruct (Users.reg_email body) as [email|]; [|discriminate].
  destruct (Users.reg_password body); [|discriminate].
  intros H. repeat (apply andb_true_iff in H as [H ?]).
  exists email. repeat split; auto.
  match goal with H : truthy email = true |- _ => intros ->; discriminate H end.
Qed.

Lemma find_pointwise {A} (p q : A -> bool) (arr : list A) :
  (forall x, p x = q x) -> find p arr = find q arr.
Proof.
  intros H. unfold find. induction arr as [|a arr IH]; [reflexivity|]. cbn [List.find].
  now rewrite H, IH.
Qed.

End AccountFacts.

(** X9.  A registration that passes the validation and asks for no stored
    email or username answers 201 and appends one record, with the
    username trimmed, the email in lower case and the hash of the password.
    When the hash of a password verifies against that password, a login
    with the same password and with the email in any case then succeeds,
    and its token is signed for the new identifier and the stored email. *)
Theorem registered_user_can_log_in
    (env : Users.Env) (body : Users.RegisterBody) (fs : Store.FS) (ud : UserData)
    (email password loginEmail : string)
    (Hfile : Store.usersFile fs = Store.Holds ud)
    (Hvalid : passesValidation body = true)
    (Hunseen : unseen body (users ud))
    (Hemail : Users.reg_email body = Some email)
    (Hpassword : Users.reg_password body = Some password)
    (Hsame : equalIgnoringCase loginEmail email = true)
    (Hbcrypt : Users.bcrypt_compare env password
                 (Users.bcrypt_hash env password 12) = true) :
  exists fs',
    Users.registerUser env body fs =
      (Return (Http.json 201 true "User registered successfully"
                 (Http.DataUser (Users.userWithoutPassword (registered env body)))),
       fs')
    /\ Store.usersFile fs'
       = Store.Holds {| users := users ud ++ [registered env body] |}
    /\ User.email (registered env body) = Js.toLowerCase email
    /\ Users.loginUser env
         {| Users.login_email := Some loginEmail;
            Users.login_password := Some password |} fs' =
       (Return (loggedIn (registered env body)
                  (Users.jwt_sign env (Users.uuidv4 env) (Js.toLowerCase email)
                     (Users.JWT_SECRET env))),
        fs').
Proof.
  destruct (AccountFacts.valid_email body Hvalid) as (email' & He' & Hne & Hve).
  rewrite Hemail in He'. injection He' as <-.
  assert (Hstored : User.email (registered env body) = Js.toLowerCase email).
  { unfold registered. rewrite Hemail. cbn [User.email].
    now apply AccountFacts.stored_email. }
  assert (Hlower : Js.toLowerCase loginEmail = Js.toLowerCase email).
  { rewrite CaseFacts.equalIgnoringCase_lower in Hsame.
    now apply ArrayFacts.strictEq_true. }
  assert (Htl : Js.truthy loginEmail = true).
  { destruct loginEmail; [|reflexivity]. destruct email; [congruence|discriminate]. }
  assert (Htp : Js.truthy password = true).
  { unfold passesValidation in Hvalid. rewrite Hemail, Hpassword in Hvalid.
    destruct (Users.reg_username body); [|discriminate].
    repeat (apply andb_true_iff in Hvalid as [Hvalid ?]). assumption. }
  eexists. split; [exact (AccountFacts.registerUser_succeeds env body fs ud
                            Hfile Hvalid Hunseen)|].
  split; [reflexivity|]. split; [exact Hstored|].
  unfold Users.loginUser, Store.tryCatch, Store.bind.
  rewrite (Run.initializeUsersFile_holds _ _ (DeleteFacts.usersFile_put _ _)).
  cbn [Users.login_email Users.login_password]. rewrite Htl, Htp. cbn [negb orb].
  rewrite (Run.readUsers_holds _ _ (DeleteFacts.usersFile_put _ _)). cbn [users].
  rewrite BookFacts.find_app_fresh.
  - assert (Hhash : User.password (registered env body)
                    = Users.bcrypt_hash env password 12)
      by (unfold registered; now rewrite Hpassword).
    rewrite Hhash, Hbcrypt. cbn [negb]. rewrite Hstored. reflexivity.
  - intros u Hu. destruct (Hunseen u Hu) as [Hu1 _].
    rewrite Hemail in Hu1. rewrite Hlower, <- CaseFacts.equalIgnoringCase_lower.
    destruct email; [congruence | exact Hu1].
  - rewrite Hstored, Hlower, TrimFacts.toLowerCase_idem.
    apply BookFacts.strictEq_refl.
Qed.

Lemma registered_user_can_log_in_witness :
  passesValidation SampleUsers.first = true
  /\ equalIgnoringCase "A@X.com" "a@x.com" = true
  /\ Users.loginUser Sample.userEnv
       {| Users.login_email := Some "A@X.com";
          Users.login_password := Some "abc123" |} SampleUsers.afterFirst
     = (Return (loggedIn SampleUsers.firstUser "u9.a@x.com.your-secret-key"),
        SampleUsers.afterFirst).
Proof.
  split; [reflexivity|]. split; [reflexivity|].
  destruct (registered_user_can_log_in Sample.userEnv SampleUsers.first
              SampleUsers.fresh {| users := [] |} "a@x.com" "abc123" "A@X.com"
              eq_refl eq_refl ltac:(intros u []) eq_refl eq_refl eq_refl eq_refl)
    as (fs' & Hregister & _ & _ & Hlogin).
  unfold SampleUsers.afterFirst. rewrite Hregister. cbn [snd]. rewrite Hlogin.
  reflexivity.
Defined.

(** X10.  Registration keeps the emails distinct: when no two stored users
    have the same email up to case, this still holds of the list that
    [registerUser] leaves, which is the stored list or the stored list
    with one record appended. *)
Theorem registration_keeps_emails_distinct
    (env : Users.Env) (body : Users.RegisterBody) (fs : Store.FS) (ud : UserData)
    (Hfile : Store.usersFile fs = Store.Holds ud)
    (Hdistinct : distinctEmails (users ud)) :
  exists ud',
    Store.usersFile (snd (Users.registerUser env body fs)) = Store.Holds ud'
    /\ (users ud' = users ud \/ exists u : User.t, users ud' = (users ud ++ [u])%list)
    /\ distinctEmails (users ud').
Proof.
  destruct (AccountFacts.registerUser_files env body fs ud Hfile)
    as [-> | (Hvalid & Hnone & ->)].
  - exists ud. split; [assumption|]. split; [now left | assumption].
  - eexists. split; [reflexivity|]. cbn [users]. split; [right; eauto|].
    destruct (AccountFacts.valid_email body Hvalid) as (email & He & Hne & Hve).
    assert (Hnew : forall u, In u (users ud) ->
              equalIgnoringCase (User.email u) (User.email (registered env body))
              = false).
    { intros u Hu. specialize (Hnone u Hu). rewrite He in Hnone.
      unfold registered. rewrite He. cbn [User.email].
      change (default "" (Some email)) with email.
      rewrite (AccountFacts.stored_email _ Hve).
      rewrite CaseFacts.equalIgnoringCase_lower, TrimFacts.toLowerCase_idem,
        <- CaseFacts.equalIgnoringCase_lower.
      destruct email; [congruence | exact Hnone]. }
    intros i j u v Hi Hj Hij.
    apply lookup_snoc_Some in Hi as [[Hil Hi] | [Hil <-]];
      apply lookup_snoc_Some in Hj as [[Hjl Hj] | [Hjl <-]].
    + now apply (Hdistinct i j).
    + apply Hnew. now apply list_elem_of_In, (list_elem_of_lookup_2 _ i).
    + rewrite AccountFacts.equalIgnoringCase_sym. apply Hnew.
      now apply list_elem_of_In, (list_elem_of_lookup_2 _ j).
    + lia.
Qed.

Lemma registration_keeps_emails_distinct_witness :
  distinctEmails (users Sample.members)
  /\ exists ud',
       Store.usersFile (snd (Users.registerUser Sample.userEnv SampleUsers.second
                               Sample.files)) = Store.Holds ud'
       /\ (users ud' = users Sample.members
           \/ exists u : User.t, users ud' = (users Sample.members ++ [u])%list)
       /\ distinctEmails (users ud').
Proof.
  assert (H : distinctEmails (users Sample.members)).
  { intros [|i] [|j] u v Hi Hj Hij; try congruence; discriminate. }
  split; [exact H|].
  exact (registration_keeps_emails_distinct Sample.userEnv SampleUsers.second
           Sample.files Sample.members eq_refl H).
Defined.

(** X11.  Registration does not keep the usernames distinct: the test
    compares the username as it is sent, and the record stores it trimmed.
    A valid request whose username is a stored username with white space
    around it, and which the test lets through, is answered 201 and
    appends a second record with the stored username. *)
Theorem padded_username_is_stored_twice
    (env : Users.Env) (body : Users.RegisterBody) (fs : Store.FS) (ud : UserData)
    (existing : User.t) (requested : string)
    (Hfile : Store.usersFile fs = Store.Holds ud)
    (Hstored : In existing (users ud))
    (Hrequested : Users.reg_username body = Some requested)
    (Hpadded : Js.trim requested = User.username existing)
    (Hvalid : passesValidation body = true)
    (Hunseen : unseen body (users ud)) :
  exists fs' u,
    Users.registerUser env body fs =
      (Return (Http.json 201 true "User registered successfully"
                 (Http.DataUser (Users.userWithoutPassword u))), fs')
    /\ Store.usersFile fs' = Store.Holds {| users := users ud ++ [u] |}
    /\ User.username u = User.username existing.
Proof.
  eexists _, _. split;
    [exact (AccountFacts.registerUser_succeeds env body fs ud Hfile Hvalid Hunseen)|].
  split; [reflexivity|].
  unfold registered. rewrite Hrequested. exact Hpadded.
Qed.

Lemma padded_username_is_stored_twice_witness :
  passesValidation SampleAccounts.padded = true
  /\ Store.usersFile (snd (Users.registerUser Sample.userEnv SampleAccounts.padded
                             Sample.files))
     = Store.Holds
         {| users := [Sample.alice;
                      User.Build "u9" "alice" "c@x.com" "$2a$12$abc123"
                                 "2024-06-01T12:00:00.000Z"
                                 "2024-06-01T12:00:00.000Z"] |}.
Proof.
  split; [reflexivity|].
  destruct (padded_username_is_stored_twice Sample.userEnv SampleAccounts.padded
              Sample.files Sample.members Sample.alice " alice"
              eq_refl (or_introl eq_refl) eq_refl eq_refl eq_refl)
    as (fs' & u & Hregister & Hfile & Hname).
  - intros u [<-|[]]. split; reflexivity.
  - reflexivity.
Defined.

(** X12.  Over a readable users file, a login with an email that no
    stored user has (up to case), and a login with the email of a stored
    user and a password that does not verify, get the same answer, status
    401 with one message, and change nothing. *)
Theorem failed_logins_look_alike
    (env : Users.Env) (fs : Store.FS) (ud : UserData) (email password : string)
    (Hfile : Store.usersFile fs = Store.Holds ud)
    (Hemail : email <> "") (Hpassword : password <> "")
    (Hwrong :
       (forall u, In u (users ud) -> equalIgnoringCase (User.email u) email = false)
       \/ (exists u,
             Js.find (fun u => equalIgnoringCase (User.email u) email) (users ud)
             = Some u
             /\ Users.bcrypt_compare env password (User.password u) = false)) :
  Users.loginUser env
    {| Users.login_email := Some email; Users.login_password := Some password |} fs
  = (Return invalidLogin, fs).
Proof.
  unfold Users.loginUser, Store.tryCatch, Store.bind.
  rewrite (Run.initializeUsersFile_holds _ _ Hfile).
  cbn [Users.login_email Users.login_password].
  rewrite !ArrayFacts.truthy_nonempty by assumption. cbn [negb orb].
  rewrite (Run.readUsers_holds _ _ Hfile).
  assert (Hfind :
    Js.find (fun u => Js.strictEq (Js.toLowerCase (User.email u)) (Js.toLowerCase email))
            (users ud)
    = Js.find (fun u => equalIgnoringCase (User.email u) email) (users ud)).
  { apply AccountFacts.find_pointwise. intros u. symmetry.
    apply CaseFacts.equalIgnoringCase_lower. }
  rewrite Hfind. destruct Hwrong as [Hnone | (u & Hu & Hcompare)].
  - rewrite (proj2 (BookFacts.find_none _ _) Hnone). reflexivity.
  - rewrite Hu, Hcompare. reflexivity.
Qed.

Lemma failed_logins_look_alike_witness :
  Users.loginUser Sample.userEnv
    {| Users.login_email := Some "nobody@x.com";
       Users.login_password := Some "abc123" |} SampleUsers.afterFirst
  = (Return invalidLogin, SampleUsers.afterFirst)
  /\ Users.loginUser Sample.userEnv
       {| Users.login_email := Some "a@x.com";
          Users.login_password := Some "abc124" |} SampleUsers.afterFirst
     = (Return invalidLogin, SampleUsers.afterFirst).
Proof.
  split.
  - apply (failed_logins_look_alike Sample.userEnv SampleUsers.afterFirst
             {| users := [SampleUsers.firstUser] |} "nobody@x.com" "abc123" eq_refl);
      [discriminate | discriminate |].
    left. intros u [<-|[]]. reflexivity.
  - apply (failed_logins_look_alike Sample.userEnv SampleUsers.afterFirst
             {| users := [SampleUsers.firstUser] |} "a@x.com" "abc124" eq_refl);
      [discriminate | discriminate |].
    right. exists SampleUsers.firstUser. split; reflexivity.
Defined.

(** ** Pages *)

Module PageFacts.
Import Js.

Lemma slice_window {A} (arr : list A) (page : nat) (pageSize : Z) :
  (1 <= page)%nat -> 1 <= pageSize ->
  slice arr (Num ((Z.of_nat page - 1) * pageSize))
            (Num ((Z.of_nat page - 1) * pageSize + pageSize))
  = take (Z.to_nat pageSize) (drop ((page - 1) * Z.to_nat pageSize) arr).
Proof.
  intros Hp Hs. unfold slice, clampIndex.
  assert (Hstart : 0 <= (Z.of_nat page - 1) * pageSize) by nia.
  assert (Hnat : Z.to_nat ((Z.of_nat page - 1) * pageSize)
                 = ((page - 1) * Z.to_nat pageSize)%nat) by nia.
  set (start := (Z.of_nat page - 1) * pageSize) in *.
  set (len := Z.of_nat (List.length arr)).
  destruct (Z.ltb_spec start 0) as [?|_]; [lia|].
  destruct (Z.ltb_spec (start + pageSize) 0) as [?|_]; [lia|].
  rewrite <- Hnat.
  destruct (Z.le_gt_cases len start) as [Hbeyond|Hwithin].
  - rewrite (Z.min_r start len), (Z.min_r (start + pageSize) len) by lia.
    rewrite !drop_ge by (subst len; lia). now rewrite !take_nil.
  - rewrite (Z.min_l start len) by lia.
    destruct (Z.le_gt_cases (start + pageSize) len) as [Hfull|Hshort].
    + rewrite (Z.min_l (start + pageSize) len) by lia. f_equal. lia.
    + rewrite (Z.min_r (start + pageSize) len) by lia.
      rewrite !take_ge; [reflexivity| |]; rewrite length_drop; subst len; lia.
Qed.

Lemma windows_partition {A} (n s : nat) (l : list A) :
  (List.length l <= n * s)%nat ->
  concat (map (fun page => take s (drop ((page - 1) * s) l)) (seq 1 n)) = l.
Proof.
  revert l. induction n as [|n IH]; intros l Hlen.
  - cbn. destruct l; [reflexivity | simpl in Hlen; lia].
  - cbn [seq map concat].
    replace ((1 - 1) * s)%nat with 0%nat by lia. change (drop 0 l) with l.
    transitivity ((take s l ++ drop s l)%list); [|apply take_drop]. f_equal.
    rewrite <- seq_shift, map_map.
    etransitivity; [|apply (IH (drop s l)); rewrite length_drop; lia].
    f_equal. apply map_ext_in. intros page Hin. apply in_seq in Hin.
    rewrite drop_drop. do 2 f_equal.
    destruct page as [|p]; [lia|].
    replace (S (S p) - 1)%nat with (S p) by lia.
    replace (S p - 1)%nat with p by lia. reflexivity.
Qed.

End PageFacts.

(** X13.  The pages partition the matches: for every page size >= 1, the
    slices of the pages 1 to [totalPages], one after the other, are the
    filtered list, each match once and in its order. *)
Theorem pages_partition_the_matches
    (message : string) (matches : list Book.t) (pageSize : Z)
    (Hs : 1 <= pageSize) :
  Http.payload (Books.paginate message matches (Js.Num 1) (Js.Num pageSize))
  = Http.DataBooks
      (pageBooks (Books.paginate message matches (Js.Num 1) (Js.Num pageSize)))
      {| Http.currentPage := Js.Num 1;
         Http.totalPages :=
           Js.Num (Z.of_nat (pageCount (Z.of_nat (List.length matches)) pageSize));
         Http.totalBooks := Z.of_nat (List.length matches);
         Http.hasNextPage :=
           1 <? Z.of_nat (pageCount (Z.of_nat (List.length matches)) pageSize);
         Http.hasPreviousPage := false |}
  /\ allPages message matches pageSize
       (pageCount (Z.of_nat (List.length matches)) pageSize)
     = matches.
Proof.
  pose proof (PaginationFacts.ceil_bounds (Z.of_nat (List.length matches)) pageSize
                Hs ltac:(lia)) as [Hlow Hhigh].
  assert (Hcount : Z.of_nat (pageCount (Z.of_nat (List.length matches)) pageSize)
                   = - (- Z.of_nat (List.length matches) / pageSize)).
  { unfold pageCount. apply Z2Nat.id. nia. }
  split.
  - rewrite PaginationFacts.paginate_Num by assumption. unfold pageBooks.
    cbn [Http.payload Http.json]. now rewrite Hcount.
  - unfold allPages.
    rewrite <- (PageFacts.windows_partition
                  (pageCount (Z.of_nat (List.length matches)) pageSize)
                  (Z.to_nat pageSize) matches) at 2 by nia.
    f_equal. apply map_ext_in. intros page Hin. apply in_seq in Hin.
    rewrite PaginationFacts.paginate_Num by assumption. unfold pageBooks.
    cbn [Http.payload Http.json].
    apply PageFacts.slice_window; lia.
Qed.

Lemma pages_partition_the_matches_witness :
  pageCount 3 2 = 2%nat
  /\ allPages "Books retrieved successfully" [Sample.dune; Sample.emma; Sample.hamlet]
       2 2
     = [Sample.dune; Sample.emma; Sample.hamlet].
Proof.
  split; [reflexivity|].
  apply (pages_partition_the_matches "Books retrieved successfully"
           [Sample.dune; Sample.emma; Sample.hamlet] 2). lia.
Defined.

(** ** Tokens and the guarded routes *)

Module TokenFacts.

Lemma loginUser_succeeds env fs ud u email password :
  Store.usersFile fs = Store.Holds ud ->
  email <> "" -> password <> "" ->
  Js.find (fun u => equalIgnoringCase (User.email u) email) (users ud) = Some u ->
  Users.bcrypt_compare env password (User.password u) = true ->
  Users.loginUser env
    {| Users.login_email := Some email; Users.login_password := Some password |} fs
  = (Return (loggedIn u (tokenOf env u)), fs).
Proof.
  intros Hfile Hemail Hpassword Hfound Hcompare.
  unfold Users.loginUser, Store.tryCatch, Store.bind.
  rewrite (Run.initializeUsersFile_holds _ _ Hfile).
  cbn [Users.login_email Users.login_password].
  rewrite !ArrayFacts.truthy_nonempty by assumption. cbn [negb orb].
  rewrite (Run.readUsers_holds _ _ Hfile).
  rewrite (AccountFacts.find_pointwise
             (fun u => Js.strictEq (Js.toLowerCase (User.email u)) (Js.toLowerCase email))
             (fun u => equalIgnoringCase (User.email u) email))
    by (intros v; symmetry; apply CaseFacts.equalIgnoringCase_lower).
  rewrite Hfound, Hcompare. reflexivity.
Qed.

Lemma guarded_refused auth token handler fs :
  refused auth token ->
  App.guarded auth token handler fs
  = (Return (Http.reply 500 false "Something went wrong!"), fs).
Proof.
  unfold App.guarded, Auth.isAuthenticated.
  intros [-> | [-> | (t & -> & Hverify)]]; [reflexivity | reflexivity |].
  destruct (Js.truthy t); [|reflexivity]. cbn [negb]. now rewrite Hverify.
Qed.

Lemma routes_refused auth token fs :
  refused auth token ->
  guardedRoutesAnswer auth token (Http.reply 500 false "Something went wrong!") fs.
Proof.
  intros H. repeat split; intros; apply guarded_refused; assumption.
Qed.

End TokenFacts.

(** X14.  A request to one of the three routes behind [isAuthenticated]
    that carries no token, an empty token, or a token that does not verify
    never reaches its handler: the files stay as they were, and the answer
    is the one of the error middleware, status 500 with a generic message,
    and not the status 401 or 403 that [isAuthenticated] puts on its
    error. *)
Theorem refused_token_is_answered_500
    (auth : Auth.Env) (token : option string) (fs : Store.FS)
    (Hrefused : refused auth token) :
  guardedRoutesAnswer auth token (Http.reply 500 false "Something went wrong!") fs
  /\ (Auth.isAuthenticated auth token = Auth.NextError 401 "You should sign in first"
      \/ Auth.isAuthenticated auth token = Auth.NextError 403 "Token is not valid").
Proof.
  split; [now apply TokenFacts.routes_refused|].
  unfold Auth.isAuthenticated.
  destruct Hrefused as [-> | [-> | (t & -> & Hverify)]];
    [left; reflexivity | left; reflexivity |].
  destruct (Js.truthy t); cbn [negb]; [|left; reflexivity].
  right. now rewrite Hverify.
Qed.

Lemma refused_token_is_answered_500_witness :
  refused SampleTokens.auth (Some "u2.b@x.com.guess")
  /\ App.DELETE_book SampleTokens.auth (Some "u2.b@x.com.guess") "b2" Sample.files
     = (Return (Http.reply 500 false "Something went wrong!"), Sample.files)
  /\ App.POST_book SampleTokens.auth None Sample.bookEnv "b9" SampleBooks.added
       Sample.files
     = (Return (Http.reply 500 false "Something went wrong!"), Sample.files).
Proof.
  assert (H : refused SampleTokens.auth (Some "u2.b@x.com.guess")).
  { right. right. eexists. split; reflexivity. }
  split; [exact H|]. split.
  - apply (refused_token_is_answered_500 SampleTokens.auth
             (Some "u2.b@x.com.guess") Sample.files H).
  - apply (refused_token_is_answered_500 SampleTokens.auth None Sample.files).
    left. reflexivity.
Defined.

(** X15.  The token of a login opens the guarded routes for its user: when
    [jwt.verify] gives back the payload that [loginUser] signed, an
    accepted add-book request that carries the token of the login answers
    201 and stores a book whose owner is the identifier of the user who
    logged in. *)
Theorem login_token_makes_the_owner
    (uenv : Users.Env) (auth : Auth.Env) (benv : Books.Env)
    (fs : Store.FS) (ud : UserData) (bd : BookData) (u : User.t)
    (email password uuid : string) (body : Books.AddBody)
    (Husers : Store.usersFile fs = Store.Holds ud)
    (Hbooks : Store.booksFile fs = Store.Holds bd)
    (Hemail : email <> "") (Hpassword : password <> "")
    (Hfound : Js.find (fun u => equalIgnoringCase (User.email u) email) (users ud)
              = Some u)
    (Hcompare : Users.bcrypt_compare uenv password (User.password u) = true)
    (Hid : User.id u <> "")
    (Hverified : verified uenv auth u)
    (Haccepts : acceptsNewBook benv body = true) :
  exists token fs',
    Users.loginUser uenv
      {| Users.login_email := Some email; Users.login_password := Some password |} fs
    = (Return (loggedIn u token), fs)
    /\ App.POST_book auth (Some token) benv uuid body fs
       = (Return (Http.json 201 true "Book added successfully"
                    (Http.DataBook (newBook uuid (User.id u) body))), fs')
    /\ Store.booksFile fs'
       = Store.Holds {| books := books bd ++ [newBook uuid (User.id u) body] |}
    /\ Book.userId (newBook uuid (User.id u) body) = User.id u.
Proof.
  destruct Hverified as [Htoken Hverify].
  exists (tokenOf uenv u). eexists.
  split; [now apply TokenFacts.loginUser_succeeds with (ud := ud)|].
  split; [|split; [|reflexivity]].
  - unfold App.POST_book, App.guarded, Auth.isAuthenticated.
    rewrite (ArrayFacts.truthy_nonempty _ Htoken). cbn [negb]. rewrite Hverify.
    exact (BookFacts.addBook_stores benv uuid body (payloadOf u) fs bd
             Hbooks Hid Haccepts).
  - apply BookFacts.booksFile_put.
Qed.

Lemma login_token_makes_the_owner_witness :
  verified SampleTokens.userEnv SampleTokens.auth Sample.alice
  /\ exists token fs',
       Users.loginUser SampleTokens.userEnv SampleTokens.aliceLogin Sample.files
       = (Return (loggedIn Sample.alice token), Sample.files)
       /\ App.POST_book SampleTokens.auth (Some token) Sample.bookEnv "b9"
            SampleBooks.added Sample.files
          = (Return (Http.json 201 true "Book added successfully"
                       (Http.DataBook SampleBooks.persuasion)), fs')
       /\ Store.booksFile fs'
          = Store.Holds
              {| books := [Sample.dune; Sample.emma; Sample.hamlet;
                           SampleBooks.persuasion] |}.
Proof.
  assert (H : verified SampleTokens.userEnv SampleTokens.auth Sample.alice)
    by (split; [discriminate | reflexivity]).
  split; [exact H|].
  destruct (login_token_makes_the_owner SampleTokens.userEnv SampleTokens.auth
              Sample.bookEnv Sample.files Sample.members Sample.library Sample.alice
              "A@x.com" "hash" "b9" SampleBooks.added eq_refl eq_refl
              ltac:(discriminate) ltac:(discriminate) eq_refl eq_refl
              ltac:(discriminate) H eq_refl)
    as (token & fs' & Hlogin & Hpost & Hfile & _).
  exists token, fs'. split; [exact Hlogin|]. split; [exact Hpost|exact Hfile].
Defined.

(** X16.  Signing falls back on a default secret, verifying does not: in a
    process without [JWT_SECRET], [loginUser] signs its token with
    ["your-secret-key"], and [isAuthenticated] hands [jwt.verify] no secret.
    When [jwt.verify] reports an error for every call without a secret, a
    login succeeds and its token is refused by the three guarded routes. *)
Theorem fallback_secret_is_not_verified
    (uenv : Users.Env) (auth : Auth.Env)
    (fs : Store.FS) (ud : UserData) (u : User.t) (email password : string)
    (Husers : Store.usersFile fs = Store.Holds ud)
    (Hemail : email <> "") (Hpassword : password <> "")
    (Hfound : Js.find (fun u => equalIgnoringCase (User.email u) email) (users ud)
              = Some u)
    (Hcompare : Users.bcrypt_compare uenv password (User.password u) = true)
    (Hunset : Users.env_JWT_SECRET uenv = None /\ Auth.env_JWT_SECRET auth = None)
    (Hlibrary : forall token, Auth.jwt_verify auth token None = None) :
  exists token,
    token = Users.jwt_sign uenv (User.id u) (User.email u) "your-secret-key"
    /\ Users.loginUser uenv
         {| Users.login_email := Some email; Users.login_password := Some password |} fs
       = (Return (loggedIn u token), fs)
    /\ guardedRoutesAnswer auth (Some token)
         (Http.reply 500 false "Something went wrong!") fs.
Proof.
  destruct Hunset as [Hsign Hcheck].
  exists (tokenOf uenv u). split; [|split].
  - unfold tokenOf, Users.JWT_SECRET. now rewrite Hsign.
  - now apply TokenFacts.loginUser_succeeds with (ud := ud).
  - apply TokenFacts.routes_refused.
    destruct (tokenOf uenv u) as [|c rest] eqn:Htoken;
      [right; left; reflexivity|].
    right. right. eexists. split; [reflexivity|]. rewrite Hcheck. apply Hlibrary.
Qed.

Lemma fallback_secret_is_not_verified_witness :
  Users.loginUser Sample.userEnv SampleTokens.aliceLogin Sample.files
  = (Return (loggedIn Sample.alice "u1.a@x.com.your-secret-key"), Sample.files)
  /\ App.PUT_book SampleTokens.unset (Some "u1.a@x.com.your-secret-key")
       Sample.bookEnv "b1" Sample.retitle Sample.files
     = (Return (Http.reply 500 false "Something went wrong!"), Sample.files).
Proof.
  destruct (fallback_secret_is_not_verified Sample.userEnv SampleTokens.unset
              Sample.files Sample.members Sample.alice "A@x.com" "hash"
              eq_refl ltac:(discriminate) ltac:(discriminate) eq_refl eq_refl
              (conj eq_refl eq_refl) (fun _ => eq_refl))
    as (token & -> & Hlogin & _ & Hput & _).
  split; [exact Hlogin | apply Hput].
Defined.

(** ** Updating a user *)

Module UpdateFacts.
Import Js Store Http.

Lemma findFrom_clear {A} (p : A -> nat -> bool) (arr : list A) (k : nat) :
  findFrom k p arr = None ->
  forall j x, arr !! j = Some x -> p x (k + j)%nat = false.
Proof.
  revert k. induction arr as [|a arr IH]; intros k H j x Hj; [discriminate|].
  cbn [findFrom] in H. destruct (p a k) eqn:Hp; [discriminate|].
  destruct j as [|j].
  - injection Hj as <-. now rewrite Nat.add_0_r.
  - replace (k + S j)%nat with (S k + j)%nat by lia. now apply IH.
Qed.

(** Apart from a success, [updateUser] writes nothing. *)
Lemma updateUser_files env id body fs ud :
  usersFile fs = Holds ud ->
  snd (Users.updateUser env id body fs) = fs
  \/ exists i current,
       users ud !! i = Some current
       /\ acceptsUserPatch body = true
       /\ (forall j other, users ud !! j = Some other -> j <> i ->
             nonEmptyHolds (Users.upd_email body) (equalIgnoringCase (User.email other))
             = false)
       /\ snd (Users.updateUser env id body fs) =
            putFile USERS_FILE_PATH
              (Holds {| users := <[i := patchedUser body (Users.now env 0) current]>
                                   (users ud) |}) fs.
Proof.
  intros Hfile. unfold Users.updateUser, tryCatch, bind.
  rewrite (Run.initializeUsersFile_holds _ _ Hfile).
  destruct (truthy id); [|now left]. cbn [negb].
  rewrite (Run.readUsers_holds _ _ Hfile).
  destruct (findIndex _ (users ud)) as [i|]; [|now left].
  rewrite PatchFacts.andAlso_nonEmptyHolds.
  destruct (nonEmptyHolds (Users.upd_email body) _) eqn:Hacc; [now left|].
  cbv zeta.
  destruct (if truthyOpt (Users.upd_username body) || truthyOpt (Users.upd_email body)
            then _ else None) eqn:Hdup; [now left|].
  destruct (users ud !! i) as [current|] eqn:Hlook; [|now left].
  right. exists i, current. split; [exact Hlook|]. split; [|split].
  - unfold acceptsUserPatch. now rewrite Hacc.
  - intros j other Hj Hne.
    destruct (truthyOpt (Users.upd_email body)) eqn:Hte.
    + rewrite orb_true_r in Hdup.
      pose proof (findFrom_clear _ _ _ Hdup j other Hj) as Hp. cbn beta in Hp.
      cbn [Nat.add] in Hp. rewrite (proj2 (Nat.eqb_neq j i) Hne) in Hp.
      cbn [negb andb] in Hp. apply orb_false_iff in Hp as [_ Hp].
      rewrite PatchFacts.andAlso_nonEmptyHolds in Hp. rewrite <- Hp.
      apply PatchFacts.nonEmptyHolds_ext. intros v.
      apply CaseFacts.equalIgnoringCase_lower.
    + destruct (Users.upd_email body) as [[|c v]|]; try reflexivity. discriminate.
  - rewrite !PatchFacts.spread_patched.
    fold (patchedUser body (Users.now env 0) current).
    unfold writeJSONFile. cbn [fileAt]. rewrite Hfile. reflexivity.
Qed.

End UpdateFacts.

(** X17.  [updateUser] keeps the emails distinct: when no two stored users
    have the same email up to case, this still holds of the list that
    [updateUser] leaves, whatever its answer; the list has the identifiers
    it had, in their order. *)
Theorem update_keeps_emails_distinct
    (env : Users.Env) (id : string) (body : Users.UpdateBody)
    (fs : Store.FS) (ud : UserData)
    (Hfile : Store.usersFile fs = Store.Holds ud)
    (Hdistinct : distinctEmails (users ud)) :
  exists ud',
    Store.usersFile (snd (Users.updateUser env id body fs)) = Store.Holds ud'
    /\ map User.id (users ud') = map User.id (users ud)
    /\ distinctEmails (users ud').
Proof.
  destruct (UpdateFacts.updateUser_files env id body fs ud Hfile)
    as [-> | (i & current & Hlook & Hacc & Hfree & ->)].
  - exists ud. split; [assumption|]. split; [reflexivity | assumption].
  - eexists. split; [reflexivity|]. cbn [users]. split.
    + change (map User.id ?l) with (User.id <$> l).
      rewrite list_fmap_insert. apply list_insert_id.
      rewrite list_lookup_fmap, Hlook. reflexivity.
    + assert (Hnew : forall j other, users ud !! j = Some other -> j <> i ->
                equalIgnoringCase
                  (User.email (patchedUser body (Users.now env 0) current))
                  (User.email other) = false).
      { intros j other Hj Hne. specialize (Hfree j other Hj Hne).
        unfold acceptsUserPatch in Hacc. apply negb_true_iff in Hacc.
        unfold patchedUser, patched. cbn [User.email].
        destruct (Users.upd_email body) as [[|c v]|];
          try (now apply (Hdistinct i j)).
        cbn [nonEmptyHolds] in Hfree, Hacc. apply negb_false_iff in Hacc.
        rewrite (AccountFacts.stored_email _ Hacc).
        rewrite CaseFacts.equalIgnoringCase_lower, TrimFacts.toLowerCase_idem,
          <- CaseFacts.equalIgnoringCase_lower.
        now rewrite AccountFacts.equalIgnoringCase_sym. }
      assert (Hlt : (i < List.length (users ud))%nat)
        by (apply lookup_lt_is_Some; eauto).
      intros a b u v Ha Hb Hab.
      destruct (Nat.eq_dec a i) as [->|Hai]; destruct (Nat.eq_dec b i) as [->|Hbi];
        try lia.
      * rewrite list_lookup_insert_eq in Ha by assumption. injection Ha as <-.
        rewrite list_lookup_insert_ne in Hb by auto. now apply (Hnew b).
      * rewrite list_lookup_insert_eq in Hb by assumption. injection Hb as <-.
        rewrite list_lookup_insert_ne in Ha by auto.
        rewrite AccountFacts.equalIgnoringCase_sym. now apply (Hnew a).
      * rewrite list_lookup_insert_ne in Ha, Hb by auto.
        now apply (Hdistinct a b).
Qed.

Lemma update_keeps_emails_distinct_witness :
  distinctEmails (users SampleUpdate.members)
  /\ exists ud',
       Store.usersFile (snd (Users.updateUser Sample.userEnv "u2" SampleUpdate.takeEmail
                               SampleUpdate.files)) = Store.Holds ud'
       /\ map User.id (users ud') = ["u1"; "u2"]
       /\ distinctEmails (users ud').
Proof.
  assert (H : distinctEmails (users SampleUpdate.members)).
  { intros [|[|i]] [|[|j]] u v Hi Hj Hij; try congruence; try discriminate;
      injection Hi as <-; injection Hj as <-; reflexivity. }
  split; [exact H|].
  exact (update_keeps_emails_distinct Sample.userEnv "u2" SampleUpdate.takeEmail
           SampleUpdate.files SampleUpdate.members eq_refl H).
Defined.

(** ** Reading a file and writing it back *)

Module DocumentFacts.
Import Json Gateway.

Lemma json_ind_nested (P : json -> Prop) :
  P JNull -> (forall b, P (JBool b)) -> (forall z, P (JNum z)) ->
  (forall s, P (JStr s)) ->
  (forall items, Forall P items -> P (JArr items)) ->
  (forall members, Forall (fun kx => P (snd kx)) members -> P (JObj members)) ->
  forall j, P j.
Proof.
  intros Hn Hb Hnum Hs Harr Hobj. fix IH 1.
  intros [|b|z|s|items|members].
  - exact Hn.
  - apply Hb.
  - apply Hnum.
  - apply Hs.
  - apply Harr. induction items as [|x items IHitems]; constructor.
    + apply IH.
    + exact IHitems.
  - apply Hobj. induction members as [|[k x] members IHmembers]; constructor.
    + apply IH.
    + exact IHmembers.
Qed.

Lemma uniqueKeys_JArr items : uniqueKeys (JArr items) = forallb uniqueKeys items.
Proof.
  reflexivity.
Qed.

Lemma uniqueKeys_JObj members :
  uniqueKeys (JObj members) =
    distinct (map fst members) && forallb (fun kx => uniqueKeys (snd kx)) members.
Proof.
  cbn [uniqueKeys]. f_equal.
  induction members as [|[k x] members IH]; [reflexivity|]. cbn [forallb snd].
  now rewrite IH.
Qed.

Lemma defineAll_distinct members acc :
  distinct (map fst members) = true ->
  (forall k, In k (map fst members) -> ~ In k (map fst acc)) ->
  defineAll members acc = (acc ++ parsed members)%list.
Proof.
  revert acc. induction members as [|[k x] members IH]; intros acc Hdist Hfresh.
  - cbn. now rewrite app_nil_r.
  - cbn [map fst distinct] in Hdist. apply andb_true_iff in Hdist as [Hk Hdist].
    apply negb_true_iff, GatewayFacts.existsb_eqb_false in Hk.
    cbn [defineAll].
    rewrite GatewayFacts.set_fresh
      by (apply GatewayFacts.existsb_eqb_false, Hfresh; now left).
    rewrite IH; [cbn [parsed map fst snd]; now rewrite <- app_assoc | assumption |].
    intros k' Hin. rewrite map_app, in_app_iff. cbn [map fst In].
    intros [Hacc | [<- | []]].
    + apply (Hfresh k'); [now right | assumption].
    + contradiction.
Qed.

Lemma membersOf_parsed members :
  Forall (fun kx => uniqueKeys (snd kx) = true ->
                    stringify (parse (snd kx)) = Some (snd kx)) members ->
  forallb (fun kx => uniqueKeys (snd kx)) members = true ->
  membersOf (parsed members) = members.
Proof.
  induction 1 as [|[k x] members Hx HP IH]; [reflexivity|].
  cbn [forallb snd]. intros H. apply andb_true_iff in H as [Hux Hrest].
  cbn [snd] in Hx. specialize (Hx Hux).
  cbn [parsed map fst snd membersOf]. rewrite Hx.
  f_equal. now apply IH.
Qed.

Lemma elements_parsed items :
  Forall (fun x => uniqueKeys x = true -> stringify (parse x) = Some x) items ->
  forallb uniqueKeys items = true ->
  map (fun x => default JNull (stringify x)) (map parse items) = items.
Proof.
  induction 1 as [|x items Hx HP IH]; [reflexivity|].
  cbn [forallb map]. intros H. apply andb_true_iff in H as [Hux Hrest].
  rewrite (Hx Hux). change (default JNull (Some x)) with x. now rewrite IH.
Qed.

(** The text of a parsed document is the document. *)
Lemma stringify_parse j : uniqueKeys j = true -> stringify (parse j) = Some j.
Proof.
  induction j as [|b|z|s|items IH|members IH] using json_ind_nested; intros Hu;
    try reflexivity.
  - rewrite uniqueKeys_JArr in Hu.
    rewrite GatewayFacts.parse_JArr, GatewayFacts.stringify_VArr.
    now rewrite elements_parsed.
  - rewrite uniqueKeys_JObj in Hu. apply andb_true_iff in Hu as [Hdist Hall].
    rewrite GatewayFacts.parse_JObj, GatewayFacts.stringify_VObj.
    rewrite defineAll_distinct by (assumption || (intros k _ [])).
    cbn [app]. now rewrite membersOf_parsed.
Qed.

Lemma stable_JArr items : stable (JArr items) = forallb stable items.
Proof.
  reflexivity.
Qed.

Lemma stable_JObj members :
  stable (JObj members) =
    distinct (map fst members)
    && forallb (fun key => negb (beginsWithDigit key)) (map fst members)
    && forallb (fun kx => stable (snd kx)) members.
Proof.
  cbn [stable]. f_equal.
  induction members as [|[k x] members IH]; [reflexivity|]. cbn [forallb snd].
  now rewrite IH.
Qed.

Lemma forallb_impl {A} (p q : A -> bool) (l : list A) :
  Forall (fun x => p x = true -> q x = true) l ->
  forallb p l = true -> forallb q l = true.
Proof.
  induction 1 as [|x l Hx HP IH]; [reflexivity|]. cbn [forallb]. intros H.
  apply andb_true_iff in H as [Hpx Hrest]. now rewrite (Hx Hpx), IH.
Qed.

(** A document that is kept has no key twice. *)
Lemma stable_uniqueKeys j : stable j = true -> uniqueKeys j = true.
Proof.
  induction j as [|b|z|s|items IH|members IH] using json_ind_nested; intros Hs;
    try reflexivity.
  - rewrite stable_JArr in Hs. rewrite uniqueKeys_JArr.
    now apply (forallb_impl stable).
  - rewrite stable_JObj in Hs. apply andb_true_iff in Hs as [Hs Hall].
    apply andb_true_iff in Hs as [Hdist _].
    rewrite uniqueKeys_JObj, Hdist.
    now apply (forallb_impl (fun kx => stable (snd kx))).
Qed.

End DocumentFacts.

(** X18.  Writing back what was read changes nothing.  When the file holds
    a document in which no object has a key twice or a key that begins
    with a digit, and in which every number is an integer of at most 2^53
    in absolute value, the text that [writeJSONFile] makes of the value
    that [readJSONFile] returns denotes this document: the write puts back
    what the file held, and no file is changed.  (A text is identified
    with the document it denotes.) *)
Theorem written_back_document_is_unchanged
    (path : string) (j : Json.json) (d : Gateway.disk)
    (Hfile : d !! path = Some (Gateway.Document j))
    (Hstable : stable j = true) :
  exists v,
    Gateway.readJSONFile path d = Return v
    /\ Gateway.stringify v = Some j
    /\ snd (Gateway.writeJSONFile path v d) = d.
Proof.
  pose proof (DocumentFacts.stringify_parse j
                (DocumentFacts.stable_uniqueKeys j Hstable)) as Htext.
  exists (Gateway.parse j). unfold Gateway.readJSONFile, Gateway.writeJSONFile.
  rewrite Hfile, Htext. split; [reflexivity|]. split; [reflexivity|].
  cbn [snd]. unfold Gateway.disk in *. now apply insert_id.
Qed.

Lemma written_back_document_is_unchanged_witness :
  stable SampleDisk.single = true
  /\ exists v,
       Gateway.readJSONFile SampleDocument.path SampleDisk.disk = Return v
       /\ Gateway.stringify v = Some SampleDisk.single
       /\ snd (Gateway.writeJSONFile SampleDocument.path v SampleDisk.disk)
          = SampleDisk.disk.
Proof.
  split; [reflexivity|].
  apply (written_back_document_is_unchanged SampleDocument.path SampleDisk.single
           SampleDisk.disk); [|reflexivity].
  unfold SampleDisk.disk, Gateway.disk. apply lookup_singleton_eq.
Defined.

(** ** Page and limit as numerals *)

Module NumeralFacts.
Import Js.

Lemma digits_append fuel n tail rest :
  digits fuel n tail ++ rest = digits fuel n (tail ++ rest).
Proof.
  revert n tail. induction fuel as [|fuel IH]; intros n tail; [reflexivity|].
  cbn [digits]. destruct (n / 10 =? 0); [reflexivity|]. now rewrite IH.
Qed.

Lemma digitsPrefix_stop acc rest :
  beginsWithDigit rest = false -> digitsPrefix acc rest = acc.
Proof.
  destruct rest as [|c rest]; [reflexivity|]. cbn [beginsWithDigit digitsPrefix].
  now intros ->.
Qed.

Lemma read_numeral n rest :
  0 <= n -> beginsWithDigit rest = false ->
  digitsPrefix (Some 0) (digits (digitCount n) n rest) = Some n.
Proof.
  intros Hn Hrest.
  rewrite DigitFacts.read_digits, DigitFacts.readAfter_zero
    by now apply DigitFacts.digitCount_enough.
  now apply digitsPrefix_stop.
Qed.

(** [parseInt] reads a numeral up to its end and ignores what follows. *)
Lemma parseInt_numeral z rest :
  beginsWithDigit rest = false -> parseInt (numberToString z ++ rest) = Num z.
Proof.
  intros Hrest. unfold numberToString. destruct (Z.ltb_spec z 0) as [Hneg|Hpos].
  - change (String "-" (digits (digitCount (- z)) (- z) "") ++ rest)
      with (String "-" (digits (digitCount (- z)) (- z) "" ++ rest)).
    rewrite digits_append. change ("" ++ rest) with rest.
    pose proof (read_numeral (- z) rest ltac:(lia) Hrest) as Hread.
    unfold digitCount in *.
    destruct (DigitFacts.digits_head (Z.to_nat (Z.log2 (- z))) (- z) rest)
      as (c & tail & Heq & Hc).
    rewrite Heq in *. rewrite DigitFacts.parseInt_minus_digit, Hread by assumption.
    f_equal. lia.
  - rewrite digits_append. change ("" ++ rest) with rest.
    pose proof (read_numeral z rest Hpos Hrest) as Hread.
    unfold digitCount in *.
    destruct (DigitFacts.digits_head (Z.to_nat (Z.log2 z)) z rest)
      as (c & tail & Heq & Hc).
    rewrite Heq in *. now rewrite DigitFacts.parseInt_digit_head, Hread.
Qed.

End NumeralFacts.

(** X19.  Page and limit are read as far as their numeral goes: when each
    of the two parameters (or its default, "1" and "10") is the decimal
    numeral of an integer of at most 2^53 in absolute value, followed by
    any text that does not begin with a digit, the listing answers 400 if
    one of the two integers is below 1, and serves the page of these two
    integers otherwise; the text after the numerals plays no part. *)
Theorem numeral_prefix_sets_the_page
    (query : Books.Query) (page limit : Z) (afterPage afterLimit : string)
    (fs : Store.FS) (bd : BookData)
    (Hfile : Store.booksFile fs = Store.Holds bd)
    (Hpage : default "1" (Books.q_page query) = Js.numberToString page ++ afterPage)
    (Hlimit : default "10" (Books.q_limit query)
              = Js.numberToString limit ++ afterLimit)
    (HafterPage : beginsWithDigit afterPage = false)
    (HafterLimit : beginsWithDigit afterLimit = false)
    (Hexact : Z.abs page <= 2 ^ 53 /\ Z.abs limit <= 2 ^ 53) :
  Books.getAllBooks query fs =
    (Return
       (if (page <? 1) || (limit <? 1)
        then Http.reply 400 false "Page and limit must be positive numbers"
        else Books.paginate "Books retrieved successfully"
               (Books.applyFilters query (books bd)) (Js.Num page) (Js.Num limit)),
     fs).
Proof.
  rewrite (Run.getAllBooks_run _ _ _ Hfile).
  unfold Books.pageNumber, Books.limitNumber. cbv zeta. rewrite Hpage, Hlimit.
  rewrite !NumeralFacts.parseInt_numeral by assumption.
  reflexivity.
Qed.

Lemma numeral_prefix_sets_the_page_witness :
  Books.getAllBooks SampleQueries.ordinal Sample.files
  = (Return (Books.paginate "Books retrieved successfully"
               [Sample.dune; Sample.emma; Sample.hamlet] (Js.Num 2) (Js.Num 2)),
     Sample.files)
  /\ Books.getAllBooks SampleQueries.hexadecimal Sample.files
     = (Return (Http.reply 400 false "Page and limit must be positive numbers"),
        Sample.files).
Proof.
  split.
  - apply (numeral_prefix_sets_the_page SampleQueries.ordinal 2 2 "nd" ".5"
             Sample.files Sample.library eq_refl eq_refl eq_refl eq_refl eq_refl).
    split; vm_compute; discriminate.
  - apply (numeral_prefix_sets_the_page SampleQueries.hexadecimal 0 10 "x10" ""
             Sample.files Sample.library eq_refl eq_refl eq_refl eq_refl eq_refl).
    split; vm_compute; discriminate.
Defined.

(** ** A year that is text *)

Module YearFacts.
Import Js.

Lemma trimStart_head s c r : trimStart s = String c r -> isSpace c = false.
Proof.
  induction s as [|a s IH]; [discriminate|]. cbn [trimStart].
  destruct (isSpace a) eqn:Ha; [exact IH|]. intros H. injection H as <- _. exact Ha.
Qed.

Lemma trimEnd_cons c r : isSpace c = false -> trimEnd (String c r) = String c (trimEnd r).
Proof.
  intros Hc. cbn [trimEnd]. destruct (trimEnd r); [now rewrite Hc | reflexivity].
Qed.

Lemma trimEnd_head d r :
  trimEnd (String d r) = "" \/ exists t, trimEnd (String d r) = String d t.
Proof.
  cbn [trimEnd]. destruct (trimEnd r) as [|e t].
  - destruct (isSpace d); [now left | right; eauto].
  - right. eauto.
Qed.

Lemma digit_not_zero d : isDigit d = false -> Ascii.eqb d "0" = false.
Proof.
  intros H. destruct (Ascii.eqb_spec d "0") as [->|]; [discriminate H | reflexivity].
Qed.

(** A text that does not begin with a digit holds no integer. *)
Lemma unsignedInt_none r :
  match r with String d _ => isDigit d = false | EmptyString => True end ->
  unsignedInt r = None.
Proof.
  destruct r as [|d r]; [reflexivity|]. intros Hd. unfold unsignedInt.
  rewrite (digit_not_zero _ Hd). cbn [andb digitsPrefix].
  destruct r; cbn [digitsPrefix]; now rewrite Hd.
Qed.

(** A text that begins with neither a digit nor [I] denotes no number. *)
Lemma unsignedNumber_NaN r :
  match r with
  | String d _ => isDigit d = false /\ Ascii.eqb d "I" = false
  | EmptyString => True
  end ->
  unsignedNumber r = NaN.
Proof.
  destruct r as [|d r]; [reflexivity|]. intros [Hd HI]. unfold unsignedNumber.
  cbn [String.eqb wholeDigits]. now rewrite HI, Hd.
Qed.

Lemma parseIntAuto_notNumeric text : notNumeric text = true -> parseIntAuto text = NaN.
Proof.
  unfold notNumeric, parseIntAuto. destruct (trimStart text) as [|c r]; [reflexivity|].
  destruct (Ascii.eqb c "-") eqn:Hminus; [|destruct (Ascii.eqb c "+") eqn:Hplus];
    cbn [orb]; intros H.
  - rewrite unsignedInt_none; [reflexivity|]. destruct r as [|d r]; [exact I|].
    apply negb_true_iff, orb_false_iff in H as [H _].
    now apply orb_false_iff in H as [H _].
  - rewrite unsignedInt_none; [reflexivity|]. destruct r as [|d r]; [exact I|].
    apply negb_true_iff, orb_false_iff in H as [H _].
    now apply orb_false_iff in H as [H _].
  - rewrite unsignedInt_none; [reflexivity|].
    apply negb_true_iff, orb_false_iff in H as [H _].
    now apply orb_false_iff in H as [H _].
Qed.

Lemma toNumber_notNumeric text : notNumeric text = true -> toNumber text = NaN.
Proof.
  unfold notNumeric, toNumber, trim.
  destruct (trimStart text) as [|c r] eqn:Hstart; [discriminate|].
  rewrite (trimEnd_cons _ _ (trimStart_head _ _ _ Hstart)).
  assert (Hrest : forall r',
            match r' with
            | EmptyString => true
            | String d _ => negb (isDigit d || Ascii.eqb d "." || Ascii.eqb d "I")
            end = true ->
            unsignedNumber (trimEnd r') = NaN).
  { intros [|d r'] H; [reflexivity|].
    apply negb_true_iff, orb_false_iff in H as [H HI].
    apply orb_false_iff in H as [Hd _].
    destruct (trimEnd_head d r') as [-> | (t & ->)]; [reflexivity|].
    now apply unsignedNumber_NaN. }
  destruct (Ascii.eqb c "-") eqn:Hminus; [|destruct (Ascii.eqb c "+") eqn:Hplus];
    cbn [orb]; intros H.
  - now rewrite (Hrest r H).
  - exact (Hrest r H).
  - rewrite <- (trimEnd_cons _ _ (trimStart_head _ _ _ Hstart)).
    exact (Hrest (String c r) H).
Qed.

End YearFacts.

(** X20.  The validation of the year lets text through that is no number:
    an add-book request of an authenticated caller whose title, author and
    genre pass the validation, and whose year is a text that does not
    begin like a number, is given no reason for a refusal; it is answered
    201, and a record whose year is not a number is appended to the stored
    list. *)
Theorem unreadable_year_is_stored
    (env : Books.Env) (uuid : string) (body : Books.AddBody)
    (caller : Books.AuthUser) (fs : Store.FS) (bd : BookData) (text : string)
    (Hfile : Store.booksFile fs = Store.Holds bd)
    (Hcaller : Books.auth_userId caller <> "")
    (Htexts : acceptsTexts body = true)
    (Hyear : Books.add_publishedYear body = Some (Books.YearString text))
    (Htext : notNumeric text = true) :
  refusesNewBook env body = false
  /\ Book.publishedYear (newBook uuid (Books.auth_userId caller) body) = Js.NaN
  /\ exists fs',
       Books.addBook env uuid body (Some caller) fs =
         (Return (Http.json 201 true "Book added successfully"
                    (Http.DataBook (newBook uuid (Books.auth_userId caller) body))),
          fs')
       /\ Store.booksFile fs'
          = Store.Holds
              {| books := books bd ++ [newBook uuid (Books.auth_userId caller) body] |}.
Proof.
  pose proof (YearFacts.toNumber_notNumeric text Htext) as Hnumber.
  pose proof (YearFacts.parseIntAuto_notNumeric text Htext) as Hparse.
  assert (Hfull : text <> "").
  { intros ->. discriminate Htext. }
  split; [|split].
  - unfold refusesNewBook. rewrite Htexts, Hyear. unfold acceptsTexts in Htexts.
    destruct (Books.add_title body) as [title|]; [|discriminate].
    destruct (Books.add_author body) as [author|]; [|discriminate].
    destruct (Books.add_genre body) as [genre|]; [|discriminate].
    repeat (apply andb_true_iff in Htexts as [Htexts ?]).
    unfold Js.truthy in *.
    repeat match goal with
      | H : negb (String.eqb ?x "") = true |- _ =>
          apply negb_true_iff in H; rewrite H; clear H
      end.
    cbn [yearIsEmpty yearAsNumber orb negb]. unfold Js.gt. rewrite Hnumber.
    rewrite (proj2 (String.eqb_neq text "") Hfull). reflexivity.
  - unfold newBook. rewrite Hyear. exact Hparse.
  - eexists. split; [|apply BookFacts.booksFile_put].
    unfold newBook, acceptsTexts in *. rewrite Hyear.
    unfold Books.addBook, Store.tryCatch, Store.bind.
    rewrite (Run.initializeBooksFile_holds _ _ Hfile), Hyear.
    destruct (Books.add_title body) as [title|]; [|discriminate].
    destruct (Books.add_author body) as [author|]; [|discriminate].
    destruct (Books.add_genre body) as [genre|]; [|discriminate].
    repeat (apply andb_true_iff in Htexts as [Htexts ?]).
    unfold Js.gt.
    cbn [Books.yearTruthy Books.yearToNumber Books.yearParseInt].
    rewrite Hnumber, Hparse, (ArrayFacts.truthy_nonempty _ Hfull), Htexts.
    repeat match goal with H : Js.truthy _ = true |- _ => rewrite H; clear H end.
    cbn [negb orb fmap option_fmap option_map Js.lt].
    rewrite (ArrayFacts.truthy_nonempty _ Hcaller). cbn [negb].
    rewrite !BookFacts.outOfRange_false by assumption.
    rewrite (Run.readBooks_holds _ _ Hfile).
    cbv zeta. rewrite (BookFacts.writeBooks_holds _ bd) by assumption. reflexivity.
Qed.

Lemma unreadable_year_is_stored_witness :
  notNumeric "unknown" = true
  /\ newBook "b9" "u1" SampleBooks.undated = SampleBooks.beowulf
  /\ exists fs',
       Books.addBook Sample.bookEnv "b9" SampleBooks.undated (Some Sample.aliceToken)
         Sample.files
       = (Return (Http.json 201 true "Book added successfully"
                    (Http.DataBook SampleBooks.beowulf)), fs')
       /\ Store.booksFile fs'
          = Store.Holds
              {| books := [Sample.dune; Sample.emma; Sample.hamlet;
                           SampleBooks.beowulf] |}.
Proof.
  split; [reflexivity|]. split; [reflexivity|].
  destruct (unreadable_year_is_stored Sample.bookEnv "b9" SampleBooks.undated
              Sample.aliceToken Sample.files Sample.library "unknown" eq_refl
              ltac:(discriminate) eq_refl eq_refl eq_refl)
    as (_ & _ & fs' & Hadd & Hbooks).
  exists fs'. split; [exact Hadd | exact Hbooks].
Defined.
